(** * DomainSale: the validator, cache, resolver, API facade and HTML renderer

    A shallow embedding of the [domainsale] package and the properties its
    specification states about it.

    Conventions.
    - A Python [str] is modelled by its UTF-8 encoding, a [string] of bytes.
      Every string operation the package performs (prefix test, slicing by an
      ASCII prefix, search for an ASCII delimiter, ASCII lower-casing, the
      regular expressions with ASCII classes) acts on the encoding exactly as
      on the code points, and [len(s.encode('utf-8'))] is [String.length].
      A [str] that holds a lone surrogate has no UTF-8 encoding; [json.chr]
      gives such a code point the three bytes of the generalised encoding,
      which keeps the values of the fields apart, and a theorem about a text
      that is encoded says that the text is valid UTF-8.
    - A Python [float] that is a time is modelled by an integer, the floats
      being ordered as their integers are.  No arithmetic is done on these
      integers: the sum of a time and a time to live is the library's,
      [float_add] of [PyLib], and so is the conversion of an [int] to a
      [float], which raises [OverflowError] on a large [int].
    - Python exceptions are values of [exn]; a computation that may raise
      returns a [result].
    - The clock, the network and the library behaviours that are not modelled
      here are fields of the records [PyLib] and [World]. *)

From Stdlib Require Import ZArith Ascii String List Bool Lia.
From stdpp Require Import base option list gmap strings.

Local Open Scope string_scope.
Local Open Scope Z_scope.
Local Set Warnings "-register-all".

(** ** Python values *)

(** The values [json.loads] produces, which are also the values a response
    dictionary holds.  A [float] keeps the literal it was read from: nothing
    in the package computes with one. *)
Inductive pyval : Type :=
| PNone
| PBool (b : bool)
| PInt (n : Z)
| PFloat (literal : string)
| PStr (s : string)
| PList (items : list pyval)
| PDict (items : list (string * pyval)).

(** A [dict] is kept as its items in insertion order, keys distinct. *)
Fixpoint dict_get (k : string) (d : list (string * pyval)) : option pyval :=
  match d with
  | [] => None
  | (k', v) :: d' => if String.eqb k k' then Some v else dict_get k d'
  end.

Definition dict_contains (k : string) (d : list (string * pyval)) : bool :=
  match dict_get k d with Some _ => true | None => false end.

(** [d[k] = v]: an existing key keeps its position and takes the new value. *)
Fixpoint dict_set (k : string) (v : pyval) (d : list (string * pyval))
  : list (string * pyval) :=
  match d with
  | [] => [(k, v)]
  | (k', v') :: d' =>
      if String.eqb k k' then (k, v) :: d' else (k', v') :: dict_set k v d'
  end.

(** [dict(pairs)]. *)
Definition dict_of_pairs (pairs : list (string * pyval)) : list (string * pyval) :=
  fold_left (fun d kv => dict_set (fst kv) (snd kv) d) pairs [].

(** [d.get(k)], with [None] for a missing key. *)
Definition dict_get_default (k : string) (d : list (string * pyval)) : pyval :=
  match dict_get k d with Some v => v | None => PNone end.

Definition is_digit (c : ascii) : bool :=
  (48 <=? nat_of_ascii c)%nat && (nat_of_ascii c <=? 57)%nat.

Definition is_upper (c : ascii) : bool :=
  (65 <=? nat_of_ascii c)%nat && (nat_of_ascii c <=? 90)%nat.

Definition is_lower (c : ascii) : bool :=
  (97 <=? nat_of_ascii c)%nat && (nat_of_ascii c <=? 122)%nat.

Fixpoint string_forall (p : ascii -> bool) (s : string) : bool :=
  match s with
  | EmptyString => true
  | String c r => p c && string_forall p r
  end.

Fixpoint string_exists (p : ascii -> bool) (s : string) : bool :=
  match s with
  | EmptyString => false
  | String c r => p c || string_exists p r
  end.

(** The digits of a number literal up to its exponent mark: the integer
    they spell without the point, the number of digits after the point, and
    the text after the mark. *)
Fixpoint scan_mantissa (s : string) (after_point : bool) (digits scale : Z)
  : Z * Z * string :=
  match s with
  | EmptyString => (digits, scale, EmptyString)
  | String c r =>
      if is_digit c then
        scan_mantissa r after_point
          (10 * digits + (Z.of_nat (nat_of_ascii c) - 48))
          (if after_point then scale + 1 else scale)
      else if Ascii.eqb c "." then scan_mantissa r true digits scale
      else if (Ascii.eqb c "e" || Ascii.eqb c "E")%bool then (digits, scale, r)
      else scan_mantissa r after_point digits scale
  end.

Fixpoint scan_digits (s : string) (acc : Z) : Z :=
  match s with
  | EmptyString => acc
  | String c r =>
      if is_digit c
      then scan_digits r (10 * acc + (Z.of_nat (nat_of_ascii c) - 48))
      else acc
  end.

(** The exponent after the mark, 0 when there is none. *)
Definition scan_exponent (s : string) : Z :=
  match s with
  | String "-" r => - scan_digits r 0
  | String "+" r => scan_digits r 0
  | _ => scan_digits s 0
  end.

(** Whether [float(literal)] is zero.  The literal denotes
    [digits * 10 ^ exponent]; the nearest double is zero when this is at
    most [2 ^ -1075], half of the least positive double (at the half the
    tie goes to the even neighbour, zero). *)
Definition float_is_zero (literal : string) : bool :=
  let '(digits, scale, rest) := scan_mantissa literal false 0 0 in
  let exponent := scan_exponent rest - scale in
  if 0 <=? exponent then digits =? 0
  else digits * 2 ^ 1075 <=? 10 ^ (- exponent).

(** [bool(x)] of the float read from a literal: false for a zero. *)
Definition float_truthy (literal : string) : bool :=
  match literal with
  | "NaN" | "Infinity" | "-Infinity" => true
  | _ => negb (float_is_zero literal)
  end.

(** [bool(v)]. *)
Definition truthy (v : pyval) : bool :=
  match v with
  | PNone => false
  | PBool b => b
  | PInt n => negb (n =? 0)
  | PFloat l => float_truthy l
  | PStr s => negb (String.eqb s "")
  | PList l => match l with [] => false | _ => true end
  | PDict d => match d with [] => false | _ => true end
  end.

(** [type(v).__name__]. *)
Definition type_name (v : pyval) : string :=
  match v with
  | PNone => "NoneType"
  | PBool _ => "bool"
  | PInt _ => "int"
  | PFloat _ => "float"
  | PStr _ => "str"
  | PList _ => "list"
  | PDict _ => "dict"
  end.

(** ** Exceptions *)

(** The exception classes that occur: those of [domainsale.exceptions], the
    library classes the package catches by name, and [Exception], which also
    stands for any class not named here.  Every class derives from
    [Exception]; [KeyboardInterrupt] and [SystemExit], which do not, are no
    outcome of a library call and are not modelled. *)
Inductive exn_class : Type :=
| Exception
| DNSSECValidationError
| SchemaValidationError
| FieldValidationError
| SizeExceededError
| RDAPError
| TimeoutError
| JSONDecodeError
| ValueError
| TypeError
| AttributeError
| KeyError
| UnicodeDecodeError
| OverflowError
| dns_NoAnswer
| dns_NXDOMAIN
| dns_Timeout
| dns_ValidationFailure.

Definition exn_class_eqb (a b : exn_class) : bool :=
  match a, b with
  | Exception, Exception
  | DNSSECValidationError, DNSSECValidationError
  | SchemaValidationError, SchemaValidationError
  | FieldValidationError, FieldValidationError
  | SizeExceededError, SizeExceededError
  | RDAPError, RDAPError
  | TimeoutError, TimeoutError
  | JSONDecodeError, JSONDecodeError
  | ValueError, ValueError
  | TypeError, TypeError
  | AttributeError, AttributeError
  | KeyError, KeyError
  | UnicodeDecodeError, UnicodeDecodeError
  | OverflowError, OverflowError
  | dns_NoAnswer, dns_NoAnswer
  | dns_NXDOMAIN, dns_NXDOMAIN
  | dns_Timeout, dns_Timeout
  | dns_ValidationFailure, dns_ValidationFailure => true
  | _, _ => false
  end.

(** [issubclass(c, base)] for a class [base] named in an [except] clause.
    [JSONDecodeError] and [UnicodeDecodeError] derive from [ValueError]. *)
Definition issubclass (c base : exn_class) : bool :=
  match base, c with
  | Exception, _ => true
  | ValueError, JSONDecodeError | ValueError, UnicodeDecodeError => true
  | _, _ => exn_class_eqb c base
  end.

(** An exception: its class and [str(e)]. *)
Record exn : Type := Exn { class_of : exn_class; str : string }.

Inductive result (A : Type) : Type :=
| Return (a : A)
| Raise (e : exn).
Arguments Return {A} a.
Arguments Raise {A} e.

Definition bind {A B : Type} (r : result A) (k : A -> result B) : result B :=
  match r with
  | Return a => k a
  | Raise e => Raise e
  end.

(** One [except (c1, c2, ...) as e: handler] clause. *)
Definition clause (H : Type) : Type := (list exn_class * H)%type.

Definition clause_matches {H : Type} (e : exn) (c : clause H) : bool :=
  existsb (issubclass (class_of e)) (fst c).

(** The handler of the first clause that matches the exception. *)
Fixpoint select_handler {H : Type} (e : exn) (clauses : list (clause H))
  : option H :=
  match clauses with
  | [] => None
  | c :: rest =>
      if clause_matches e c then Some (snd c) else select_handler e rest
  end.

(** [try: body / except ...]: an exception no clause matches goes on. *)
Definition try_except {A : Type} (body : result A)
    (clauses : list (clause (exn -> result A))) : result A :=
  match body with
  | Return a => Return a
  | Raise e =>
      match select_handler e clauses with
      | Some handler => handler e
      | None => Raise e
      end
  end.

Declare Scope result_scope.
Delimit Scope result_scope with result.
Notation "x <- c ;; k" := (bind c (fun x => k))
  (at level 100, c at next level, right associativity) : result_scope.
Notation "c ;;; k" := (bind c (fun _ => k))
  (at level 100, right associativity) : result_scope.

(** What the Python library does and this file does not define:
    [error_text call arg] is [str(e)] of the exception that the library call
    named [call] raises on the argument [arg]; [value_text v] is [str(v)]
    of a value that is no string; the last two are the host checks of
    [urllib.parse.urlsplit] that need the IP address and Unicode tables,
    each giving the text of the [ValueError] it raises, if it raises.
    The arithmetic of floats is the library's too: [float_of_int n] is the
    float that an [int] [n] is converted to when it is added to a float,
    [None] when the conversion raises [OverflowError]; [float_add x y] is
    the float sum, which is rounded and may be an infinity. *)
Record PyLib : Type := {
  error_text : string -> pyval -> string;
  value_text : pyval -> string;
  check_bracketed_netloc : string -> option string;
  checknetloc_nfkc : string -> option string;
  float_of_int : Z -> option Z;
  float_add : Z -> Z -> Z
}.

(** [str(v)], as an f-string interpolates it. *)
Definition format_value (L : PyLib) (v : pyval) : string :=
  match v with
  | PStr s => s
  | _ => value_text L v
  end.

(** [sep.join(l)] *)
Fixpoint join (sep : string) (l : list string) : string :=
  match l with
  | [] => EmptyString
  | [x] => x
  | x :: rest => x +:+ sep +:+ join sep rest
  end.

(** [for x in l: body(x)], left as soon as the body raises. *)
Fixpoint for_each {A : Type} (l : list A) (body : A -> result unit)
  : result unit :=
  match l with
  | [] => Return tt
  | x :: rest => bind (body x) (fun _ => for_each rest body)
  end.

(** ** [json.loads]

    The decoder of CPython's [json] package with its default settings (the
    accelerated scanner): strict strings, the constants [NaN], [Infinity]
    and [-Infinity] accepted, an object built with [dict(pairs)], so that a
    repeated key keeps its last value. *)
Module json.

Definition is_ws (c : ascii) : bool :=
  Ascii.eqb c " " || Ascii.eqb c "009" || Ascii.eqb c "010" || Ascii.eqb c "013".

Fixpoint skip_ws (s : string) : string :=
  match s with
  | EmptyString => EmptyString
  | String c r => if is_ws c then skip_ws r else s
  end.

Definition hex_value (c : ascii) : option Z :=
  let n := Z.of_nat (nat_of_ascii c) in
  if is_digit c then Some (n - 48)
  else if (97 <=? n) && (n <=? 102) then Some (n - 87)
  else if (65 <=? n) && (n <=? 70) then Some (n - 55)
  else None.

(** The four hexadecimal digits of a [\uXXXX] escape. *)
Definition decode_uXXXX (a b c d : ascii) : option Z :=
  match hex_value a, hex_value b, hex_value c, hex_value d with
  | Some x, Some y, Some z, Some w => Some (((x * 16 + y) * 16 + z) * 16 + w)
  | _, _, _, _ => None
  end.

Definition byte (n : Z) : ascii := ascii_of_nat (Z.to_nat n).

(** [chr(cp)] in the byte encoding; a lone surrogate, which a Python [str]
    can hold, takes the three-byte form. *)
Definition chr (cp : Z) : string :=
  if cp <? 128 then String (byte cp) EmptyString
  else if cp <? 2048 then
    String (byte (192 + cp / 64)) (String (byte (128 + cp mod 64)) EmptyString)
  else if cp <? 65536 then
    String (byte (224 + cp / 4096))
      (String (byte (128 + (cp / 64) mod 64))
        (String (byte (128 + cp mod 64)) EmptyString))
  else
    String (byte (240 + cp / 262144))
      (String (byte (128 + (cp / 4096) mod 64))
        (String (byte (128 + (cp / 64) mod 64))
          (String (byte (128 + cp mod 64)) EmptyString))).

(** The table [BACKSLASH] of [json.decoder]. *)
Definition BACKSLASH (c : ascii) : option ascii :=
  if Ascii.eqb c "034" then Some "034"%char
  else if Ascii.eqb c "\" then Some "\"%char
  else if Ascii.eqb c "/" then Some "/"%char
  else if Ascii.eqb c "b" then Some "008"%char
  else if Ascii.eqb c "f" then Some "012"%char
  else if Ascii.eqb c "n" then Some "010"%char
  else if Ascii.eqb c "r" then Some "013"%char
  else if Ascii.eqb c "t" then Some "009"%char
  else None.

Definition cons_to {A : Type} (c : ascii) (r : option (string * A))
  : option (string * A) :=
  match r with
  | Some (s, a) => Some (String c s, a)
  | None => None
  end.

Definition app_to {A : Type} (p : string) (r : option (string * A))
  : option (string * A) :=
  match r with
  | Some (s, a) => Some (p +:+ s, a)
  | None => None
  end.

(** [scanstring(s, end, strict=True)], from the character after the opening
    quote: the decoded string and what follows the closing quote; [None]
    where the decoder raises. *)
Fixpoint scanstring (s : string) : option (string * string) :=
  match s with
  | EmptyString => None
  | String c r =>
      if Ascii.eqb c "034" then Some (EmptyString, r)
      else if Ascii.eqb c "\" then
        match r with
        | EmptyString => None
        | String e r1 =>
            if Ascii.eqb e "u" then
              match r1 with
              | String h1 (String h2 (String h3 (String h4 r2))) =>
                  match decode_uXXXX h1 h2 h3 h4 with
                  | None => None
                  | Some uni =>
                      if (55296 <=? uni) && (uni <=? 56319) then
                        match r2 with
                        | String "\" (String "u"
                            (String l1 (String l2 (String l3 (String l4 r3))))) =>
                            match decode_uXXXX l1 l2 l3 l4 with
                            | None => None
                            | Some uni2 =>
                                if (56320 <=? uni2) && (uni2 <=? 57343) then
                                  app_to
                                    (chr (65536 + ((uni - 55296) * 1024
                                                   + (uni2 - 56320))))
                                    (scanstring r3)
                                else app_to (chr uni) (scanstring r2)
                            end
                        | _ => app_to (chr uni) (scanstring r2)
                        end
                      else app_to (chr uni) (scanstring r2)
                  end
              | _ => None
              end
            else
              match BACKSLASH e with
              | Some ch => cons_to ch (scanstring r1)
              | None => None
              end
        end
      else if (nat_of_ascii c <? 32)%nat then None
      else cons_to c (scanstring r)
  end.

(** The longest prefix of digits, and the rest. *)
Fixpoint span_digits (s : string) : string * string :=
  match s with
  | EmptyString => (EmptyString, EmptyString)
  | String c r =>
      if is_digit c then
        let (ds, rest) := span_digits r in (String c ds, rest)
      else (EmptyString, s)
  end.

Fixpoint digits_value (acc : Z) (s : string) : Z :=
  match s with
  | EmptyString => acc
  | String c r => digits_value (acc * 10 + (Z.of_nat (nat_of_ascii c) - 48)) r
  end.

(** The integer part of a number: [0] or a non-zero digit and more digits. *)
Definition scan_integer (s : string) : option (string * string) :=
  match s with
  | String c r =>
      if Ascii.eqb c "0" then Some ("0", r)
      else if is_digit c then
        let (ds, rest) := span_digits r in Some (String c ds, rest)
      else None
  | EmptyString => None
  end.

(** [.digits], taken only when a digit follows the point. *)
Definition scan_frac (s : string) : string * string :=
  match s with
  | String "." r =>
      match span_digits r with
      | (EmptyString, _) => (EmptyString, s)
      | (ds, rest) => (String "." ds, rest)
      end
  | _ => (EmptyString, s)
  end.

(** [e], an optional sign and digits, taken only when a digit is there. *)
Definition scan_exp (s : string) : string * string :=
  match s with
  | String e r =>
      if Ascii.eqb e "e" || Ascii.eqb e "E" then
        match r with
        | String sg r1 =>
            if Ascii.eqb sg "+" || Ascii.eqb sg "-" then
              match span_digits r1 with
              | (EmptyString, _) => (EmptyString, s)
              | (ds, rest) => (String e (String sg ds), rest)
              end
            else
              match span_digits r with
              | (EmptyString, _) => (EmptyString, s)
              | (ds, rest) => (String e ds, rest)
              end
        | EmptyString => (EmptyString, s)
        end
      else (EmptyString, s)
  | EmptyString => (EmptyString, s)
  end.

(** A number: [int] without fraction and exponent, [float] otherwise. *)
Definition scan_number (s : string) : option (pyval * string) :=
  let (neg, s1) :=
    match s with
    | String "-" r => (true, r)
    | _ => (false, s)
    end in
  match scan_integer s1 with
  | None => None
  | Some (int_part, s2) =>
      let (frac, s3) := scan_frac s2 in
      let (exp, s4) := scan_exp s3 in
      let sign := if neg then "-" else "" in
      match frac, exp with
      | EmptyString, EmptyString =>
          let n := digits_value 0 int_part in
          Some (PInt (if neg then - n else n), s4)
      | _, _ => Some (PFloat (sign +:+ int_part +:+ frac +:+ exp), s4)
      end
  end.

(** [s.startswith(p)], with the rest of [s]. *)
Fixpoint strip_prefix (p s : string) : option string :=
  match p with
  | EmptyString => Some s
  | String a p' =>
      match s with
      | String b s' => if Ascii.eqb a b then strip_prefix p' s' else None
      | EmptyString => None
      end
  end.

(** [scan_once], [JSONObject] after the first key's opening quote
    ([members]) and [JSONArray] at its first value ([elements]).  The
    recursion is on [fuel]; [loads] supplies more than any input uses. *)
Fixpoint scan_once (fuel : nat) (s : string) : option (pyval * string) :=
  match fuel with
  | O => None
  | S fuel' =>
      match s with
      | EmptyString => None
      | String c r =>
          if Ascii.eqb c "034" then
            match scanstring r with
            | Some (x, rest) => Some (PStr x, rest)
            | None => None
            end
          else if Ascii.eqb c "{" then
            match skip_ws r with
            | String "}" rest => Some (PDict [], rest)
            | String "034" rest =>
                match members fuel' rest with
                | Some (pairs, rest') => Some (PDict (dict_of_pairs pairs), rest')
                | None => None
                end
            | _ => None
            end
          else if Ascii.eqb c "[" then
            match skip_ws r with
            | String "]" rest => Some (PList [], rest)
            | r' =>
                match elements fuel' r' with
                | Some (values, rest') => Some (PList values, rest')
                | None => None
                end
            end
          else
            match strip_prefix "null" s, strip_prefix "true" s,
                  strip_prefix "false" s with
            | Some rest, _, _ => Some (PNone, rest)
            | _, Some rest, _ => Some (PBool true, rest)
            | _, _, Some rest => Some (PBool false, rest)
            | None, None, None =>
                match scan_number s with
                | Some r => Some r
                | None =>
                    match strip_prefix "NaN" s, strip_prefix "Infinity" s,
                          strip_prefix "-Infinity" s with
                    | Some rest, _, _ => Some (PFloat "NaN", rest)
                    | _, Some rest, _ => Some (PFloat "Infinity", rest)
                    | _, _, Some rest => Some (PFloat "-Infinity", rest)
                    | None, None, None => None
                    end
                end
            end
      end
  end
with members (fuel : nat) (s : string)
  : option (list (string * pyval) * string) :=
  match fuel with
  | O => None
  | S fuel' =>
      match scanstring s with
      | None => None
      | Some (key, s1) =>
          match skip_ws s1 with
          | String ":" s2 =>
              match scan_once fuel' (skip_ws s2) with
              | None => None
              | Some (value, s3) =>
                  match skip_ws s3 with
                  | String "}" rest => Some ([(key, value)], rest)
                  | String "," s4 =>
                      match skip_ws s4 with
                      | String "034" s5 =>
                          match members fuel' s5 with
                          | Some (pairs, rest) => Some ((key, value) :: pairs, rest)
                          | None => None
                          end
                      | _ => None
                      end
                  | _ => None
                  end
              end
          | _ => None
          end
      end
  end
with elements (fuel : nat) (s : string) : option (list pyval * string) :=
  match fuel with
  | O => None
  | S fuel' =>
      match scan_once fuel' s with
      | None => None
      | Some (value, s1) =>
          match skip_ws s1 with
          | String "]" rest => Some ([value], rest)
          | String "," s2 =>
              match elements fuel' (skip_ws s2) with
              | Some (values, rest) => Some (value :: values, rest)
              | None => None
              end
          | _ => None
          end
      end
  end.

Definition fuel_for (s : string) : nat := (2 * String.length s + 2)%nat.

(** [JSONDecoder.raw_decode] after the leading white space: the value and
    the text that follows it. *)
Definition raw_decode (s : string) : option (pyval * string) :=
  scan_once (fuel_for s) (skip_ws s).

(** [json.loads(s)]: white space may follow the value, anything else is
    the error "Extra data". *)
Definition loads (L : PyLib) (s : string) : result pyval :=
  match raw_decode s with
  | None => Raise (Exn JSONDecodeError (error_text L "json.loads" (PStr s)))
  | Some (obj, rest) =>
      match skip_ws rest with
      | EmptyString => Return obj
      | _ => Raise (Exn JSONDecodeError (error_text L "json.loads" (PStr s)))
      end
  end.

End json.

(** ** The compiled patterns of the validator *)
Module re.

(** [$] without [re.MULTILINE]: the end of the string, or the newline that
    ends it. *)
Definition at_end (s : string) : bool :=
  String.eqb s "" || String.eqb s (String "010" "").

(** [^[A-Z]{3}:[0-9]+(\.[0-9]{1,2})?$] *)
Definition price_pattern (s : string) : bool :=
  match s with
  | String a (String b (String c (String ":" rest))) =>
      is_upper a && is_upper b && is_upper c &&
      match json.span_digits rest with
      | (EmptyString, _) => false
      | (_, rest1) =>
          at_end rest1 ||
          match rest1 with
          | String "." (String d1 rest2) =>
              is_digit d1 &&
              (at_end rest2 ||
               match rest2 with
               | String d2 rest3 => is_digit d2 && at_end rest3
               | EmptyString => false
               end)
          | _ => false
          end
      end
  | _ => false
  end.

(** [^[0-9]{4}-[0-9]{2}-[0-9]{2}$] *)
Definition date_pattern (s : string) : bool :=
  match s with
  | String y1 (String y2 (String y3 (String y4 (String "-"
      (String m1 (String m2 (String "-" (String d1 (String d2 rest))))))))) =>
      is_digit y1 && is_digit y2 && is_digit y3 && is_digit y4 &&
      is_digit m1 && is_digit m2 && is_digit d1 && is_digit d2 && at_end rest
  | _ => false
  end.

(** [pattern.match(v)] as a truth value; an argument that is no string is a
    [TypeError]. *)
Definition match_ (L : PyLib) (pattern : string -> bool) (v : pyval)
  : result bool :=
  match v with
  | PStr s => Return (pattern s)
  | _ => Raise (Exn TypeError (error_text L "re.match" v))
  end.

End re.

(** ** [urllib.parse.urlparse] (CPython 3.11) *)
Module urllib.

(** A [ParseResult] of strings, or the [ParseResultBytes] of empty byte
    strings that a false argument other than a string gives. *)
Inductive parse_result : Type :=
| ParseResult (scheme netloc path params query fragment : string)
| ParseResultBytes.

(** [s.partition(c)] when [c] occurs: the text before its first occurrence
    and the text after. *)
Fixpoint partition (c : ascii) (s : string) : option (string * string) :=
  match s with
  | EmptyString => None
  | String x r =>
      if Ascii.eqb x c then Some (EmptyString, r)
      else match partition c r with
           | Some (a, b) => Some (String x a, b)
           | None => None
           end
  end.

(** The same at the last occurrence. *)
Fixpoint rpartition (c : ascii) (s : string) : option (string * string) :=
  match s with
  | EmptyString => None
  | String x r =>
      match rpartition c r with
      | Some (a, b) => Some (String x a, b)
      | None => if Ascii.eqb x c then Some (EmptyString, r) else None
      end
  end.

Definition contains (c : ascii) (s : string) : bool :=
  string_exists (Ascii.eqb c) s.

Definition is_alpha (c : ascii) : bool := is_upper c || is_lower c.

(** [scheme_chars]: letters, digits and [+-.]. *)
Definition is_scheme_char (c : ascii) : bool :=
  is_alpha c || is_digit c ||
  Ascii.eqb c "+" || Ascii.eqb c "-" || Ascii.eqb c ".".

Definition lower_char (c : ascii) : ascii :=
  if is_upper c then ascii_of_nat (nat_of_ascii c + 32) else c.

Fixpoint lower (s : string) : string :=
  match s with
  | EmptyString => EmptyString
  | String c r => String (lower_char c) (lower r)
  end.

(** [url.lstrip(_WHATWG_C0_CONTROL_OR_SPACE)] *)
Fixpoint lstrip_c0_space (s : string) : string :=
  match s with
  | EmptyString => EmptyString
  | String c r => if (nat_of_ascii c <=? 32)%nat then lstrip_c0_space r else s
  end.

(** Tab, carriage return and newline are removed wherever they stand. *)
Fixpoint remove_unsafe_bytes (s : string) : string :=
  match s with
  | EmptyString => EmptyString
  | String c r =>
      if Ascii.eqb c "009" || Ascii.eqb c "010" || Ascii.eqb c "013"
      then remove_unsafe_bytes r
      else String c (remove_unsafe_bytes r)
  end.

(** The scheme before the first colon, lower-cased, when it starts with a
    letter and consists of scheme characters; no scheme otherwise. *)
Definition split_scheme (url : string) : string * string :=
  match partition ":" url with
  | Some (String c0 pre, post) =>
      if is_alpha c0 && string_forall is_scheme_char (String c0 pre)
      then (lower (String c0 pre), post)
      else (EmptyString, url)
  | _ => (EmptyString, url)
  end.

(** [_splitnetloc(url, 2)], from the text after the two slashes. *)
Fixpoint _splitnetloc (s : string) : string * string :=
  match s with
  | EmptyString => (EmptyString, EmptyString)
  | String c r =>
      if Ascii.eqb c "/" || Ascii.eqb c "?" || Ascii.eqb c "#"
      then (EmptyString, s)
      else let (n, rest) := _splitnetloc r in (String c n, rest)
  end.

Definition isascii (s : string) : bool :=
  string_forall (fun c => (nat_of_ascii c <? 128)%nat) s.

Definition value_error {A : Type} (msg : string) : result A :=
  Raise (Exn ValueError msg).

Definition check_brackets (L : PyLib) (netloc : string) : result unit :=
  let open := contains "[" netloc in
  let close := contains "]" netloc in
  if (open && negb close) || (close && negb open)
  then value_error "Invalid IPv6 URL"
  else if open && close then
    match check_bracketed_netloc L netloc with
    | Some msg => value_error msg
    | None => Return tt
    end
  else Return tt.

Definition _checknetloc (L : PyLib) (netloc : string) : result unit :=
  if String.eqb netloc "" || isascii netloc then Return tt
  else match checknetloc_nfkc L netloc with
       | Some msg => value_error msg
       | None => Return tt
       end.

Definition split_at (c : ascii) (s : string) : string * string :=
  match partition c s with
  | Some (a, b) => (a, b)
  | None => (s, EmptyString)
  end.

(** [urlsplit(url)]: scheme, netloc, path, query, fragment. *)
Definition urlsplit (L : PyLib) (url : string)
  : result (string * string * string * string * string) :=
  let url := remove_unsafe_bytes (lstrip_c0_space url) in
  let (scheme, url) := split_scheme url in
  (nl <- match json.strip_prefix "//" url with
         | Some rest =>
             let (netloc, url') := _splitnetloc rest in
             (check_brackets L netloc ;;; Return (netloc, url'))
         | None => Return (EmptyString, url)
         end ;;
   let (netloc, url) := nl : string * string in
   let (url, fragment) := split_at "#" url in
   let (url, query) := split_at "?" url in
   _checknetloc L netloc ;;;
   Return (scheme, netloc, url, query, fragment))%result.

Definition uses_params : list string :=
  [""; "ftp"; "hdl"; "prospero"; "http"; "imap"; "https"; "shttp"; "rtsp";
   "rtspu"; "sip"; "sips"; "mms"; "sftp"; "tel"].

Definition _splitparams (url : string) : string * string :=
  match rpartition "/" url with
  | Some (dir, last) =>
      match partition ";" last with
      | Some (a, b) => (dir +:+ "/" +:+ a, b)
      | None => (url, EmptyString)
      end
  | None => split_at ";" url
  end.

(** [urlparse(url)] for any value [url]. *)
Definition urlparse (L : PyLib) (url : pyval) : result parse_result :=
  match url with
  | PStr s =>
      (sr <- urlsplit L s ;;
       match sr with
       | (scheme, netloc, url, query, fragment) =>
           let (url, params) :=
             if existsb (String.eqb scheme) uses_params && contains ";" url
             then _splitparams url
             else (url, EmptyString) in
           Return (ParseResult scheme netloc url params query fragment)
       end)%result
  | v =>
      if truthy v
      then Raise (Exn AttributeError
                    ("'" +:+ type_name v +:+ "' object has no attribute 'decode'"))
      else Return ParseResultBytes
  end.

End urllib.

(** ** Calendar dates *)
Module datetime.

Record date : Type := Date { year : Z; month : Z; day : Z }.

Definition is_leap (y : Z) : bool :=
  (y mod 4 =? 0) && (negb (y mod 100 =? 0) || (y mod 400 =? 0)).

Definition days_in_month (y m : Z) : Z :=
  if m =? 2 then (if is_leap y then 29 else 28)
  else if (m =? 4) || (m =? 6) || (m =? 9) || (m =? 11) then 30
  else 31.

(** [a < b] on dates. *)
Definition date_lt (a b : date) : bool :=
  (year a <? year b) ||
  ((year a =? year b) &&
   ((month a <? month b) ||
    ((month a =? month b) && (day a <? day b)))).

(** [datetime.strptime(v, "%Y-%m-%d").date()] on the strings that match
    [re.date_pattern], the only ones the validator calls it with: the ten
    characters must be the whole string and a date of the calendar.  Every
    failure on a string is a [ValueError]. *)
Definition strptime (L : PyLib) (v : pyval) : result date :=
  match v with
  | PStr (String y1 (String y2 (String y3 (String y4 (String "-"
      (String m1 (String m2 (String "-"
        (String d1 (String d2 EmptyString)))))))))) =>
      let y := json.digits_value 0
                 (String y1 (String y2 (String y3 (String y4 "")))) in
      let m := json.digits_value 0 (String m1 (String m2 "")) in
      let d := json.digits_value 0 (String d1 (String d2 "")) in
      if (1 <=? y) && (1 <=? m) && (m <=? 12) && (1 <=? d)
         && (d <=? days_in_month y m)
      then Return (Date y m d)
      else Raise (Exn ValueError (error_text L "strptime" v))
  | PStr _ => Raise (Exn ValueError (error_text L "strptime" v))
  | _ => Raise (Exn TypeError (error_text L "strptime" v))
  end.

End datetime.

(** ** [html.escape] *)
Module html.

(** [s.replace(c, t)] for a single character [c]. *)
Fixpoint replace (c : ascii) (t : string) (s : string) : string :=
  match s with
  | EmptyString => EmptyString
  | String x r =>
      if Ascii.eqb x c then t +:+ replace c t r else String x (replace c t r)
  end.

(** [html.escape(s, quote=True)] *)
Definition escape (s : string) : string :=
  let s := replace "&" "&amp;" s in
  let s := replace "<" "&lt;" s in
  let s := replace ">" "&gt;" s in
  let s := replace "034" "&quot;" s in
  let s := replace "'" "&#x27;" s in
  s.

End html.

(** ** validator.py *)
Module validator.

Definition MAX_TXT_SIZE : nat := 255.
Definition VERSION_TAG : string := "v=FORSALE1;".
Definition REQUIRED_FIELDS : list string := ["v"; "price"; "url"; "contact"].
Definition OPTIONAL_FIELDS : list string := ["expires"].
Definition ALLOWED_FIELDS : list string := REQUIRED_FIELDS ++ OPTIONAL_FIELDS.
Definition ALLOWED_URL_SCHEMES : list string := ["https"].
Definition ALLOWED_CONTACT_SCHEMES : list string := ["mailto"].

Definition raise {A : Type} (cls : exn_class) (msg : string) : result A :=
  Raise (Exn cls msg).

Definition in_list (x : string) (l : list string) : bool :=
  existsb (String.eqb x) l.

(** [field in record] *)
Definition contains (record : pyval) (field : string) : bool :=
  match record with
  | PDict d => dict_contains field d
  | _ => false
  end.

(** [record[field]] *)
Definition getitem (L : PyLib) (record : pyval) (field : string)
  : result pyval :=
  match record with
  | PDict d =>
      match dict_get field d with
      | Some v => Return v
      | None => raise KeyError ("'" +:+ field +:+ "'")
      end
  | _ => raise TypeError (error_text L "getitem" record)
  end.

Definition keys (record : pyval) : list string :=
  match record with
  | PDict d => map fst d
  | _ => []
  end.

Definition _validate_schema (record : pyval) : result unit :=
  match record with
  | PDict _ =>
      (for_each REQUIRED_FIELDS (fun field =>
         if negb (contains record field)
         then raise SchemaValidationError ("Missing required field: " +:+ field)
         else Return tt) ;;;
       for_each (keys record) (fun field =>
         if negb (in_list field ALLOWED_FIELDS)
         then raise SchemaValidationError ("Unknown field: " +:+ field)
         else Return tt))%result
  | _ => raise SchemaValidationError "Record must be a JSON object"
  end.

Definition _validate_url (L : PyLib) (url : pyval) : result unit :=
  try_except
    (parsed_url <- urllib.urlparse L url ;;
     match parsed_url with
     | urllib.ParseResultBytes =>
         raise FieldValidationError
           ("Invalid URL scheme: b''. Must be one of: "
            +:+ join ", " ALLOWED_URL_SCHEMES)
     | urllib.ParseResult scheme netloc _ _ _ _ =>
         if negb (in_list scheme ALLOWED_URL_SCHEMES)
         then raise FieldValidationError
                ("Invalid URL scheme: " +:+ scheme +:+ ". Must be one of: "
                 +:+ join ", " ALLOWED_URL_SCHEMES)
         else if String.eqb netloc ""
         then raise FieldValidationError "URL must contain a domain"
         else Return tt
     end)%result
    [([Exception],
      fun e => raise FieldValidationError ("Invalid URL: " +:+ str e))].

Definition _validate_contact (L : PyLib) (contact : pyval) : result unit :=
  try_except
    (parsed_contact <- urllib.urlparse L contact ;;
     match parsed_contact with
     | urllib.ParseResultBytes =>
         raise FieldValidationError
           ("Invalid contact scheme: b''. Must be one of: "
            +:+ join ", " ALLOWED_CONTACT_SCHEMES)
     | urllib.ParseResult scheme _ path _ _ _ =>
         if negb (in_list scheme ALLOWED_CONTACT_SCHEMES)
         then raise FieldValidationError
                ("Invalid contact scheme: " +:+ scheme +:+ ". Must be one of: "
                 +:+ join ", " ALLOWED_CONTACT_SCHEMES)
         else if String.eqb scheme "mailto" && String.eqb path ""
         then raise FieldValidationError
                "mailto: URI must contain an email address"
         else Return tt
     end)%result
    [([Exception],
      fun e => raise FieldValidationError ("Invalid contact: " +:+ str e))].

(** [today] is the value of [datetime.now().date()]. *)
Definition _validate_expires (L : PyLib) (today : datetime.date)
    (expires : pyval) : result unit :=
  (matched <- re.match_ L re.date_pattern expires ;;
   if negb matched
   then raise FieldValidationError
          ("Invalid expires format: " +:+ format_value L expires
           +:+ ". Must be in format 'YYYY-MM-DD'")
   else
     try_except
       (expire_date <- datetime.strptime L expires ;;
        if datetime.date_lt expire_date today
        then raise FieldValidationError
               ("Expires date is in the past: " +:+ format_value L expires)
        else Return tt)
       [([ValueError],
         fun e => raise FieldValidationError
                    ("Invalid expires date: " +:+ str e))])%result.

Definition is_str (v : pyval) (s : string) : bool :=
  match v with
  | PStr x => String.eqb x s
  | _ => false
  end.

Definition _validate_fields (L : PyLib) (today : datetime.date)
    (record : pyval) : result unit :=
  (v <- getitem L record "v" ;;
   if negb (is_str v "1")
   then raise FieldValidationError ("Invalid version: " +:+ format_value L v)
   else
     price <- getitem L record "price" ;;
     matched <- re.match_ L re.price_pattern price ;;
     if negb matched
     then raise FieldValidationError
            ("Invalid price format: " +:+ format_value L price
             +:+ ". Must be in format 'CUR:AMOUNT' (e.g., 'USD:1000')")
     else
       url <- getitem L record "url" ;;
       _validate_url L url ;;;
       contact <- getitem L record "contact" ;;
       _validate_contact L contact ;;;
       if contains record "expires"
       then expires <- getitem L record "expires" ;;
            _validate_expires L today expires
       else Return tt)%result.

(** The record as a dictionary, or [None] for a text without the version
    tag.  The text is given by its UTF-8 encoding, so that the size the
    source measures, [len(txt_record.encode("utf-8"))], is its length; on
    a [str] that has no encoding (one with a lone surrogate) the source
    raises [UnicodeEncodeError] at this measure, before the [try] block,
    and the function below says nothing of such a [str]. *)
Definition extract_and_validate_record (L : PyLib) (today : datetime.date)
    (txt_record : string) : result pyval :=
  if (MAX_TXT_SIZE <? String.length txt_record)%nat
  then raise SizeExceededError "TXT record exceeds maximum size of 255 bytes"
  else
    match json.strip_prefix VERSION_TAG txt_record with
    | None => Return PNone
    | Some json_content =>
        try_except
          (record <- json.loads L json_content ;;
           _validate_schema record ;;;
           _validate_fields L today record ;;;
           Return record)%result
          [([JSONDecodeError],
            fun e => raise SchemaValidationError
                       ("Failed to parse JSON content: " +:+ str e));
           ([SchemaValidationError; FieldValidationError],
            fun e => Raise e);
           ([Exception],
            fun e => raise SchemaValidationError
                       ("Error validating TXT record: " +:+ str e))]
    end.

End validator.

(** ** State, clock and network *)

(** A computation on a state [S] that returns or raises.  The state it
    leaves is kept in both cases: what a Python block did before it raised
    stays done. *)
Definition M (S A : Type) : Type := S -> result A * S.

Definition ret {S A : Type} (a : A) : M S A := fun s => (Return a, s).

Definition mraise {S A : Type} (e : exn) : M S A := fun s => (Raise e, s).

Definition mbind {S A B : Type} (c : M S A) (k : A -> M S B) : M S B :=
  fun s =>
    match c s with
    | (Return a, s') => k a s'
    | (Raise e, s') => (Raise e, s')
    end.

Definition lift_result {S A : Type} (r : result A) : M S A := fun s => (r, s).

Definition gets {S A : Type} (f : S -> A) : M S A := fun s => (Return (f s), s).

Definition modify {S : Type} (f : S -> S) : M S unit :=
  fun s => (Return tt, f s).

(** [try: body / except ...] on a state. *)
Definition mtry_except {S A : Type} (body : M S A)
    (clauses : list (clause (exn -> M S A))) : M S A :=
  fun s =>
    match body s with
    | (Return a, s') => (Return a, s')
    | (Raise e, s') =>
        match select_handler e clauses with
        | Some handler => handler e s'
        | None => (Raise e, s')
        end
    end.

Declare Scope M_scope.
Delimit Scope M_scope with M.
Notation "x <- c ;; k" := (mbind c (fun x => k))
  (at level 100, c at next level, right associativity) : M_scope.
Notation "c ;;; k" := (mbind c (fun _ => k))
  (at level 100, right associativity) : M_scope.

(** One reading of the system clock: the float [time.time()], as the
    integer that stands for it, and the local calendar date
    [datetime.now().date()]. *)
Record instant : Type := Instant { epoch : Z; today : datetime.date }.

(** What the package obtains from outside the process.  Each function takes
    the number of earlier calls of its kind, so that the same question may be
    answered differently each time.
    - [clock n] is the [n]-th reading of the system clock.
    - [make_resolver n] is the outcome of the [n]-th [dns.resolver.Resolver()].
    - [resolve n timeout name] is the outcome of the [n]-th
      [Resolver.resolve(name, TXT)]: the answer's records, each the list of
      its character strings, or the exception raised.
    - [check_for_sale_status n timeout domain] is the outcome of the [n]-th
      [RDAPClient.check_for_sale_status(domain)], which does two HTTP
      requests. *)
Record World : Type := {
  clock : nat -> instant;
  make_resolver : nat -> result unit;
  resolve : nat -> Z -> string -> result (list (list string));
  check_for_sale_status : nat -> Z -> string -> result bool
}.

(** ** cache.py *)
Module cache.

(** [Cache[T]]: the time to live and the map from a key to the value and
    its expiry instant. *)
Record Cache (T : Type) : Type := mkCache {
  ttl : Z;
  _cache : gmap string (T * Z)
}.
Arguments mkCache {T}.
Arguments ttl {T}.
Arguments _cache {T}.

Definition __init__ {T : Type} (ttl : Z) : Cache T := mkCache ttl ∅.

(** [key in self._cache] *)
Definition contains {T : Type} (self : Cache T) (key : string) : bool :=
  match _cache self !! key with Some _ => true | None => false end.

(** [Cache.get(key)], with [now] the value of [time.time()], which is read
    only when the key is in the map. *)
Definition get {T : Type} (now : Z) (self : Cache T) (key : string)
  : option T * Cache T :=
  match _cache self !! key with
  | Some (value, expiry) =>
      if now <? expiry then (Some value, self)
      else (None, mkCache (ttl self) (delete key (_cache self)))
  | None => (None, self)
  end.

(** [time.time() + self.ttl], with [now] the value of [time.time()]: the
    [int] is converted to a float, which raises [OverflowError] when it is
    too large, and the floats are added. *)
Definition expiry_at (L : PyLib) (now : Z) (ttl : Z) : result Z :=
  match float_of_int L ttl with
  | Some seconds => Return (float_add L now seconds)
  | None => Raise (Exn OverflowError "int too large to convert to float")
  end.

(** [Cache.set(key, value)], with [now] the value of [time.time()]. *)
Definition set {T : Type} (L : PyLib) (now : Z) (self : Cache T)
    (key : string) (value : T) : result (Cache T) :=
  (expiry <- expiry_at L now (ttl self) ;;
   Return (mkCache (ttl self) (<[key := (value, expiry)]> (_cache self))))%result.

(** [Cache.invalidate(key)] *)
Definition invalidate {T : Type} (self : Cache T) (key : string) : Cache T :=
  mkCache (ttl self) (delete key (_cache self)).

(** [Cache.clear()] *)
Definition clear {T : Type} (self : Cache T) : Cache T :=
  mkCache (ttl self) ∅.

(** [len(cache)]: the entries that have expired are dropped first. *)
Definition __len__ {T : Type} (now : Z) (self : Cache T) : nat * Cache T :=
  let live := filter (fun kv => now < snd (snd kv)) (_cache self) in
  (size live, mkCache (ttl self) live).

(** [self.ttl = ttl] *)
Definition set_ttl {T : Type} (new_ttl : Z) (self : Cache T) : Cache T :=
  mkCache new_ttl (_cache self).

(** A cache object that lives in a state [S]. *)
Record cache_ref (S T : Type) : Type := mkRef {
  load : S -> Cache T;
  store : Cache T -> S -> S
}.
Arguments mkRef {S T}.
Arguments load {S T}.
Arguments store {S T}.

Section cached.
Context {S T Args : Type}.
Variable L : PyLib.
(** [time.time()] on the state. *)
Variable time_time : M S Z.
Variable cache_instance : cache_ref S T.
Variable key_func : Args -> string.
Variable func : Args -> M S T.

Definition cache_get (key : string) : M S (option T) :=
  (self <- gets (load cache_instance) ;;
   if contains self key then
     now <- time_time ;;
     self <- gets (load cache_instance) ;;
     let (value, self') := get now self key in
     modify (store cache_instance self') ;;;
     ret value
   else ret None)%M.

Definition cache_set (key : string) (value : T) : M S unit :=
  (now <- time_time ;;
   self <- gets (load cache_instance) ;;
   self' <- lift_result (set L now self key value) ;;
   modify (store cache_instance self'))%M.

(** The wrapper that [cached(cache_instance, key_func)] makes of [func].
    [T] has no value [None]: a cached value is never taken for a miss. *)
Definition cached (args : Args) : M S T :=
  (let key := key_func args in
   cached_value <- cache_get key ;;
   match cached_value with
   | Some value => ret value
   | None =>
       result <- func args ;;
       cache_set key result ;;;
       ret result
   end)%M.
End cached.

End cache.

(** The process: the two module-level caches of [api.py], the list objects
    the resolver made (a list is referred to by its index, and two
    references to one index are one list), and how many times the clock and
    the network have been used. *)
Record State : Type := mkState {
  dns_cache : cache.Cache (list string * nat);
  rdap_cache : cache.Cache bool;
  heap : list (list string);
  clock_reads : nat;
  resolvers_made : nat;
  dns_queries : nat;
  rdap_queries : nat
}.

Definition set_dns_cache (c : cache.Cache (list string * nat)) (s : State) :=
  mkState c (rdap_cache s) (heap s) (clock_reads s) (resolvers_made s)
          (dns_queries s) (rdap_queries s).

Definition set_rdap_cache (c : cache.Cache bool) (s : State) :=
  mkState (dns_cache s) c (heap s) (clock_reads s) (resolvers_made s)
          (dns_queries s) (rdap_queries s).

Definition set_heap (h : list (list string)) (s : State) :=
  mkState (dns_cache s) (rdap_cache s) h (clock_reads s) (resolvers_made s)
          (dns_queries s) (rdap_queries s).

Definition tick_clock (s : State) :=
  mkState (dns_cache s) (rdap_cache s) (heap s) (S (clock_reads s))
          (resolvers_made s) (dns_queries s) (rdap_queries s).

Definition count_resolver (s : State) :=
  mkState (dns_cache s) (rdap_cache s) (heap s) (clock_reads s)
          (S (resolvers_made s)) (dns_queries s) (rdap_queries s).

Definition count_dns_query (s : State) :=
  mkState (dns_cache s) (rdap_cache s) (heap s) (clock_reads s)
          (resolvers_made s) (S (dns_queries s)) (rdap_queries s).

Definition count_rdap_query (s : State) :=
  mkState (dns_cache s) (rdap_cache s) (heap s) (clock_reads s)
          (resolvers_made s) (dns_queries s) (S (rdap_queries s)).

(** The process as the module [api] is imported. *)
Definition initial_state : State :=
  mkState (cache.__init__ 300) (cache.__init__ 300) [] 0 0 0 0.

Definition read_clock (W : World) : M State instant :=
  fun s => (Return (clock W (clock_reads s)), tick_clock s).

(** [time.time()] *)
Definition time_time (W : World) : M State Z :=
  (now <- read_clock W ;; ret (epoch now))%M.

(** [datetime.now().date()] *)
Definition datetime_now_date (W : World) : M State datetime.date :=
  (now <- read_clock W ;; ret (today now))%M.

(** A new list object. *)
Definition new_list (l : list string) : M State nat :=
  fun s => (Return (length (heap s)), set_heap (heap s ++ [l])%list s).

(** [lst.append(x)] on the list object [ref]. *)
Definition list_append (ref : nat) (x : string) : M State unit :=
  modify (fun s => set_heap (alter (fun l => (l ++ [x])%list) ref (heap s)) s).

(** The items of the list object [ref]. *)
Definition deref (h : list (list string)) (ref : nat) : list string :=
  default [] (h !! ref).

(** ** resolver.py *)
Module resolver.

Definition FOR_SALE_PREFIX : string := "_for-sale".
Definition MAX_TXT_SIZE : nat := 255.

Record DNSSecResolver : Type := mkResolver { timeout : Z }.

Definition in_range (lo hi : nat) (c : ascii) : bool :=
  (lo <=? nat_of_ascii c)%nat && (nat_of_ascii c <=? hi)%nat.

Definition cont (c : ascii) : bool := in_range 128 191 c.

(** The byte strings that [bytes.decode('utf-8')] accepts. *)
Fixpoint utf8_valid (s : string) : bool :=
  match s with
  | EmptyString => true
  | String a r =>
      if in_range 0 127 a then utf8_valid r
      else if in_range 194 223 a then
        match r with
        | String b r1 => cont b && utf8_valid r1
        | _ => false
        end
      else if in_range 224 239 a then
        match r with
        | String b (String c r2) =>
            (if in_range 224 224 a then in_range 160 191 b
             else if in_range 237 237 a then in_range 128 159 b
             else cont b)
            && cont c && utf8_valid r2
        | _ => false
        end
      else if in_range 240 244 a then
        match r with
        | String b (String c (String d r3)) =>
            (if in_range 240 240 a then in_range 144 191 b
             else if in_range 244 244 a then in_range 128 143 b
             else cont b)
            && cont c && cont d && utf8_valid r3
        | _ => false
        end
      else false
  end.

(** [b.decode('utf-8')] *)
Definition decode_utf8 (L : PyLib) (b : string) : result string :=
  if utf8_valid b then Return b
  else Raise (Exn UnicodeDecodeError (error_text L "decode" (PStr b))).

(** The loop over the answer: a text of more than 255 bytes is skipped. *)
Fixpoint collect_txt (L : PyLib) (answers : list (list string))
    (txt_records : list string) : result (list string) :=
  match answers with
  | [] => Return txt_records
  | rdata :: rest =>
      (txt_content <- decode_utf8 L (String.concat "" rdata) ;;
       if (MAX_TXT_SIZE <? String.length txt_content)%nat
       then collect_txt L rest txt_records
       else collect_txt L rest (txt_records ++ [txt_content])%list)%result
  end.

Section resolver.
Variable L : PyLib.
Variable W : World.

(** [DNSSecResolver(timeout)], which makes a [dns.resolver.Resolver()]. *)
Definition __init__ (timeout : Z) : M State DNSSecResolver :=
  fun s =>
    (bind (make_resolver W (resolvers_made s))
          (fun _ => Return (mkResolver timeout)),
     count_resolver s).

(** [self.resolver.resolve(name, TXT, raise_on_no_answer=True)] *)
Definition resolver_resolve (self : DNSSecResolver) (name : string)
  : M State (list (list string)) :=
  fun s => (resolve W (dns_queries s) (timeout self) name, count_dns_query s).

Definition _lookup_with_dnssec (self : DNSSecResolver) (name : string)
  : M State (list (list string)) :=
  mtry_except (resolver_resolve self name)
    [([dns_NoAnswer], mraise);
     ([dns_NXDOMAIN], mraise);
     ([dns_Timeout], mraise);
     ([Exception],
      fun e => mraise (Exn DNSSECValidationError
                 ("DNS lookup or DNSSEC validation failed for " +:+ name
                  +:+ ": " +:+ str e)))].

(** The texts found and a new list [["dns"]], by reference. *)
Definition lookup_for_sale_record (self : DNSSecResolver) (domain : string)
  : M State (list string * nat) :=
  mtry_except
    (let query_name := FOR_SALE_PREFIX +:+ "." +:+ domain in
     answers <- _lookup_with_dnssec self query_name ;;
     txt_records <- lift_result (collect_txt L answers []) ;;
     sources <- new_list ["dns"] ;;
     ret (txt_records, sources))%M
    [([dns_NoAnswer],
      fun _ => (sources <- new_list ["dns"] ;; ret ([], sources))%M);
     ([dns_NXDOMAIN],
      fun _ => (sources <- new_list ["dns"] ;; ret ([], sources))%M);
     ([dns_Timeout],
      fun _ => mraise (Exn TimeoutError
                 ("DNS query for " +:+ domain +:+ " timed out")));
     ([dns_ValidationFailure],
      fun e => mraise (Exn DNSSECValidationError
                 ("DNSSEC validation failed for " +:+ domain +:+ ": "
                  +:+ str e)));
     ([Exception], mraise)].
End resolver.

End resolver.

(** ** rdap.py

  [RDAPClient.check_for_sale_status] fetches the bootstrap table and the
  domain's record over HTTP; its outcome is the world's.  By its last
  handler it raises nothing but [RDAPError] and [TimeoutError]; the facade
  does not rely on that, and neither does the model. *)
Module rdap.

Record RDAPClient : Type := mkClient { timeout : Z }.

Definition __init__ (timeout : Z) : RDAPClient := mkClient timeout.

Definition check_for_sale_status (W : World) (self : RDAPClient)
  (domain : string) : M State bool :=
fun s =>
  (check_for_sale_status W (rdap_queries s) (timeout self) domain,
   count_rdap_query s).

End rdap.

(** ** renderer.py: [HTMLRenderer] *)
Module renderer.

(** The double quote, and the newline that joins the lines. *)
Definition dq : string := String "034" EmptyString.
Definition nl : string := String "010" EmptyString.

(** [name="value"] *)
Definition attr (name value : string) : string :=
name +:+ "=" +:+ dq +:+ value +:+ dq.

(** [HTMLRenderer._escape(text)]: [html.escape] calls [text.replace]. *)
Definition _escape (text : pyval) : result string :=
match text with
| PStr s => Return (html.escape s)
| v => Raise (Exn AttributeError
                ("'" +:+ type_name v +:+ "' object has no attribute 'replace'"))
end.

Definition render_sale_info (sale_info : list (string * pyval))
: result string :=
(html_output <-
   (if dict_contains "domain" sale_info then
      domain <- _escape (dict_get_default "domain" sale_info) ;;
      Return ["<h2>Domain for Sale: " +:+ domain +:+ "</h2>"]
    else Return ["<h2>Domain for Sale</h2>"]) ;;
 let html_output :=
   (html_output ++ ["<div " +:+ attr "class" "domain-sale-info" +:+ ">"])%list in
 html_output <-
   (if truthy (dict_get_default "price" sale_info) then
      price <- _escape (dict_get_default "price" sale_info) ;;
      Return (html_output ++
              ["<div " +:+ attr "class" "sale-price"
               +:+ "><strong>Price:</strong> " +:+ price +:+ "</div>"])%list
    else Return html_output) ;;
 html_output <-
   (if truthy (dict_get_default "contact" sale_info) then
      contact <- _escape (dict_get_default "contact" sale_info) ;;
      match json.strip_prefix "mailto:" contact with
      | Some rest =>
          email <- _escape (PStr rest) ;;
          Return (html_output ++
                  ["<div " +:+ attr "class" "sale-contact"
                   +:+ "><strong>Contact:</strong> "
                   +:+ "<a " +:+ attr "href" contact +:+ ">" +:+ email
                   +:+ "</a></div>"])%list
      | None =>
          Return (html_output ++
                  ["<div " +:+ attr "class" "sale-contact"
                   +:+ "><strong>Contact:</strong> " +:+ contact
                   +:+ "</div>"])%list
      end
    else Return html_output) ;;
 html_output <-
   (if truthy (dict_get_default "url" sale_info) then
      url <- _escape (dict_get_default "url" sale_info) ;;
      Return (html_output ++
              ["<div " +:+ attr "class" "sale-url"
               +:+ "><strong>More Info:</strong> "
               +:+ "<a " +:+ attr "href" url +:+ " "
               +:+ attr "target" "_blank" +:+ " "
               +:+ attr "rel" "noopener noreferrer" +:+ ">" +:+ url
               +:+ "</a></div>"])%list
    else Return html_output) ;;
 html_output <-
   (if truthy (dict_get_default "expires" sale_info) then
      expires <- _escape (dict_get_default "expires" sale_info) ;;
      Return (html_output ++
              ["<div " +:+ attr "class" "sale-expires"
               +:+ "><strong>Expires:</strong> " +:+ expires
               +:+ "</div>"])%list
    else Return html_output) ;;
 let html_output := (html_output ++ ["</div>"])%list in
 Return (join nl html_output))%result.

Definition render_error (error_message : pyval) : result string :=
(error_message <- _escape error_message ;;
 Return ("<div " +:+ attr "class" "domain-sale-error" +:+ ">"
         +:+ error_message +:+ "</div>"))%result.

End renderer.

(** ** api.py *)
Module api.

Definition DEFAULT_CACHE_TTL : Z := 300.

Record DomainSaleOptions : Type := mkOptions {
enable_rdap_check : bool;
cache_ttl : Z;
timeout : Z
}.

(** [DomainSaleOptions()] *)
Definition default_options : DomainSaleOptions :=
mkOptions false DEFAULT_CACHE_TTL 5.

(** [source: Union[str, List[str]]]: a string, or a list by reference. *)
Inductive source_value : Type :=
| SourceStr (s : string)
| SourceList (ref : nat).

Record DomainSaleResponse : Type := mkResponse {
domain : string;
for_sale : bool;
price : pyval;
url : pyval;
contact : pyval;
expires : pyval;
source : source_value;
errors : list string
}.

(** [DomainSaleResponse(domain=domain)] *)
Definition new_response (domain : string) : DomainSaleResponse :=
mkResponse domain false PNone PNone PNone PNone (SourceStr "dns") [].

(** [response.errors.append(msg)] *)
Definition append_error (msg : string) (r : DomainSaleResponse)
: DomainSaleResponse :=
mkResponse (domain r) (for_sale r) (price r) (url r) (contact r) (expires r)
           (source r) (errors r ++ [msg])%list.

(** The assignments of the last block of [get_domain_sale_status]. *)
Definition set_for_sale (price url contact expires : pyval) (sources : nat)
  (r : DomainSaleResponse) : DomainSaleResponse :=
mkResponse (domain r) true price url contact expires (SourceList sources)
           (errors r).

(** [DomainSaleResponse.to_dict()], read with the list objects [h]. *)
Definition to_dict (h : list (list string)) (r : DomainSaleResponse)
: list (string * pyval) :=
[("domain", PStr (domain r));
 ("forSale", PBool (for_sale r));
 ("price", price r);
 ("url", url r);
 ("contact", contact r);
 ("expires", expires r);
 ("source", match source r with
            | SourceStr s => PStr s
            | SourceList ref => PList (map PStr (deref h ref))
            end);
 ("errors", PList (map PStr (errors r)))].

(** [DomainSaleResponse.to_html()] *)
Definition to_html (h : list (list string)) (r : DomainSaleResponse)
: result string :=
if for_sale r then renderer.render_sale_info (to_dict h r)
else match errors r with
     | _ :: _ => renderer.render_error (PStr (join ", " (errors r)))
     | [] => renderer.render_error
               (PStr ("Domain " +:+ domain r +:+ " is not for sale"))
     end.

(** [record_data.get(key)] *)
Definition get_method (L : PyLib) (record_data : pyval) (key : string)
: result pyval :=
match record_data with
| PDict d => Return (dict_get_default key d)
| v => Raise (Exn AttributeError (error_text L "get" v))
end.

Definition dns_cache_ref : cache.cache_ref State (list string * nat) :=
cache.mkRef dns_cache set_dns_cache.

Definition rdap_cache_ref : cache.cache_ref State bool :=
cache.mkRef rdap_cache set_rdap_cache.

(** The frame of one call: the process and the response being filled. *)
Definition Frame : Type := (State * DomainSaleResponse)%type.

Definition global {A : Type} (c : M State A) : M Frame A :=
fun f => let (r, s') := c (fst f) in (r, (s', snd f)).

Definition on_response (g : DomainSaleResponse -> DomainSaleResponse)
: M Frame unit :=
modify (fun f : Frame => (fst f, g (snd f))).

Section api.
Variable L : PyLib.
Variable W : World.

(** [@cached(dns_cache, lambda resolver, domain: f"dns:{domain}")] *)
Definition _lookup_txt_records
  : resolver.DNSSecResolver * string -> M State (list string * nat) :=
  cache.cached L (time_time W) dns_cache_ref
    (fun args => "dns:" +:+ snd args)
    (fun args => resolver.lookup_for_sale_record L W (fst args) (snd args)).

(** [@cached(rdap_cache, lambda client, domain: f"rdap:{domain}")] *)
Definition _check_rdap_status
  : rdap.RDAPClient * string -> M State bool :=
  cache.cached L (time_time W) rdap_cache_ref
    (fun args => "rdap:" +:+ snd args)
    (fun args => rdap.check_for_sale_status W (fst args) (snd args)).

(** One turn of the loop over the texts: [inl] is the value assigned to
    [record_data], [inr] stands for the handled exception.  The date is
    read for every text; [_validate_expires] is the only reader. *)
Definition try_record (txt_record : string) : M Frame (pyval + unit) :=
  mtry_except
    (today <- global (datetime_now_date W) ;;
     record_data <-
       lift_result (validator.extract_and_validate_record L today txt_record) ;;
     ret (inl record_data))%M
    [([SchemaValidationError; FieldValidationError; SizeExceededError],
      fun e => (on_response (append_error (str e)) ;;; ret (inr tt))%M)].

(** [for txt_record in txt_records: ...], from the current value of
    [record_data] to its value after the loop. *)
Fixpoint process_records (txt_records : list string) (record_data : pyval)
  : M Frame pyval :=
  match txt_records with
  | [] => ret record_data
  | txt_record :: rest =>
      (r <- try_record txt_record ;;
       match r with
       | inl record_data' =>
           if truthy record_data' then ret record_data'
           else process_records rest record_data'
       | inr _ => process_records rest record_data
       end)%M
  end.

(** [if options.enable_rdap_check: try: ... except (RDAPError,
    TimeoutError)], to the value of [rdap_for_sale]. *)
Definition rdap_step (domain : string) (options : DomainSaleOptions)
    (sources : nat) : M Frame bool :=
  if enable_rdap_check options then
    mtry_except
      (let rdap_client := rdap.__init__ (timeout options) in
       rdap_for_sale <- global (_check_rdap_status (rdap_client, domain)) ;;
       (if rdap_for_sale : bool
        then global (list_append sources "rdap")
        else ret tt) ;;;
       ret rdap_for_sale)%M
      [([RDAPError; TimeoutError],
        fun e => (on_response (append_error ("RDAP check failed: " +:+ str e)) ;;;
                  ret false)%M)]
  else ret false.

(** The body of the [try] statement. *)
Definition try_body (domain : string) (options : DomainSaleOptions)
  : M Frame unit :=
  (resolver <- global (resolver.__init__ W (timeout options)) ;;
   looked_up <- global (_lookup_txt_records (resolver, domain)) ;;
   let (txt_records, sources) := looked_up : list string * nat in
   record_data <- process_records txt_records PNone ;;
   if negb (truthy record_data) then ret tt
   else
     rdap_for_sale <- rdap_step domain options sources ;;
     if enable_rdap_check options && negb rdap_for_sale then ret tt
     else
       price <- lift_result (get_method L record_data "price") ;;
       url <- lift_result (get_method L record_data "url") ;;
       contact <- lift_result (get_method L record_data "contact") ;;
       expires <- lift_result (get_method L record_data "expires") ;;
       on_response (set_for_sale price url contact expires sources))%M.

(** [if options.cache_ttl != DEFAULT_CACHE_TTL: ...] *)
Definition update_cache_ttl (options : DomainSaleOptions) (s : State)
  : State :=
  if negb (cache_ttl options =? DEFAULT_CACHE_TTL) then
    set_rdap_cache (cache.set_ttl (cache_ttl options) (rdap_cache s))
      (set_dns_cache (cache.set_ttl (cache_ttl options) (dns_cache s)) s)
  else s.

Definition get_domain_sale_status (domain : string)
    (options : option DomainSaleOptions) : M State DomainSaleResponse :=
  fun s =>
    let options := default default_options options in
    let s := update_cache_ttl options s in
    let response := new_response domain in
    match
      mtry_except (try_body domain options)
        [([DNSSECValidationError],
          fun e => on_response
                     (append_error ("DNSSEC validation failed: " +:+ str e)));
         ([TimeoutError],
          fun e => on_response (append_error ("Timeout: " +:+ str e)));
         ([Exception],
          fun e => on_response
                     (append_error ("Unexpected error: " +:+ str e)))]
        (s, response)
    with
    | (Return _, (s', response')) => (Return response', s')
    | (Raise e, (s', _)) => (Raise e, s')
    end.
End api.

End api.

(** ** rdap.py: [RDAPClient] and its HTTP requests

    The client as the file has it, for the theorems about the client alone.
    The module [api] above takes the outcome of a whole
    [check_for_sale_status] from the [World]; here the outcome is computed
    from the outcomes of [requests.get], [response.json] and [time.time]. *)
Module RDAPClient.

Definition RDAP_BOOTSTRAP_URL : string := "https://data.iana.org/rdap/dns.json".
Definition FOR_SALE_STATUS_TAG : string := "for-sale".
Definition DEFAULT_TIMEOUT : Z := 5.

(** The classes of the exceptions that occur in the client.
    [requests.Timeout] derives from [requests.RequestException]; every
    class derives from [Exception], which also stands for any class not
    named here. *)
Inductive error_class : Type :=
| requests_Timeout
| requests_RequestException
| RDAPError
| TimeoutError
| AttributeError
| TypeError
| KeyError
| IndexError
| OverflowError
| Exception.

Definition error_class_eqb (a b : error_class) : bool :=
  match a, b with
  | requests_Timeout, requests_Timeout
  | requests_RequestException, requests_RequestException
  | RDAPError, RDAPError
  | TimeoutError, TimeoutError
  | AttributeError, AttributeError
  | TypeError, TypeError
  | KeyError, KeyError
  | IndexError, IndexError
  | OverflowError, OverflowError
  | Exception, Exception => true
  | _, _ => false
  end.

(** [issubclass(c, base)] *)
Definition issubclass (c base : error_class) : bool :=
  match base, c with
  | Exception, _ => true
  | requests_RequestException, requests_Timeout => true
  | _, _ => error_class_eqb c base
  end.

(** An exception: its class and [str(e)]. *)
Record error : Type := Error { class_of : error_class; str : string }.

Inductive outcome (A : Type) : Type :=
| Ok (a : A)
| Fail (e : error).
Arguments Ok {A} a.
Arguments Fail {A} e.

(** [requests.Response]: the status code and what [response.json()]
    returns or raises. *)
Record Response : Type := mkResponse {
  status_code : Z;
  json : outcome pyval
}.

(** What the client obtains from outside: [time_time n] is the [n]-th
    reading of [time.time()] by the client, and [requests_get n url timeout]
    the outcome of its [n]-th [requests.get(url, timeout=timeout)]. *)
Record Net : Type := {
  time_time : nat -> Z;
  requests_get : nat -> string -> Z -> outcome Response
}.

(** What Python does with floats and this file does not define: whether a
    [float] key of a dictionary, given by its literal, equals a number; the
    float difference [float_sub x y] of two times; and [float_gt_int x n],
    the comparison [x > n] of a float with an [int].  A time is the integer
    that stands for the float, as for the cache. *)
Record Numbers : Type := {
  float_eq : string -> pyval -> bool;
  float_sub : Z -> Z -> Z;
  float_gt_int : Z -> Z -> bool
}.

(** [self._bootstrap_timestamp]: the [int] that [__init__] assigns, or the
    float of a reading of the clock. *)
Inductive stamp : Type :=
| IntStamp (n : Z)
| FloatStamp (x : Z).

(** The client object, and the process: the client with the numbers of
    requests made and of readings of the clock. *)
Record Client : Type := mkClient {
  timeout : Z;
  _bootstrap_servers : list (pyval * pyval);
  _bootstrap_timestamp : stamp;
  _bootstrap_ttl : Z
}.

Record Process : Type := mkProcess {
  self : Client;
  requests_made : nat;
  clock_reads : nat
}.

(** [RDAPClient(timeout)] *)
Definition __init__ (timeout : Z) : Client :=
  mkClient timeout [] (IntStamp 0) 3600.

Definition Act (A : Type) : Type := Process -> outcome A * Process.

Definition ret {A : Type} (a : A) : Act A := fun p => (Ok a, p).

Definition raise {A : Type} (cls : error_class) (msg : string) : Act A :=
  fun p => (Fail (Error cls msg), p).

Definition lift {A : Type} (r : outcome A) : Act A := fun p => (r, p).

Definition bind {A B : Type} (c : Act A) (k : A -> Act B) : Act B :=
  fun p =>
    match c p with
    | (Ok a, p') => k a p'
    | (Fail e, p') => (Fail e, p')
    end.

Definition gets {A : Type} (f : Client -> A) : Act A :=
  fun p => (Ok (f (self p)), p).

Definition modify (f : Client -> Client) : Act unit :=
  fun p => (Ok tt, mkProcess (f (self p)) (requests_made p) (clock_reads p)).

(** The handler of the first [except] clause that names a class of the
    exception. *)
Fixpoint select_handler {H : Type} (e : error)
    (clauses : list (list error_class * H)) : option H :=
  match clauses with
  | [] => None
  | (classes, handler) :: rest =>
      if existsb (issubclass (class_of e)) classes then Some handler
      else select_handler e rest
  end.

Definition try_except {A : Type} (body : Act A)
    (clauses : list (list error_class * (error -> Act A))) : Act A :=
  fun p =>
    match body p with
    | (Ok a, p') => (Ok a, p')
    | (Fail e, p') =>
        match select_handler e clauses with
        | Some handler => handler e p'
        | None => (Fail e, p')
        end
    end.

Declare Scope Act_scope.
Delimit Scope Act_scope with Act.
Notation "x <- c ;; k" := (bind c (fun x => k))
  (at level 100, c at next level, right associativity) : Act_scope.
Notation "c ;;; k" := (bind c (fun _ => k))
  (at level 100, right associativity) : Act_scope.

(** [for x in l: body(x)], left as soon as the body raises. *)
Fixpoint for_each {A : Type} (l : list A) (body : A -> Act unit) : Act unit :=
  match l with
  | [] => ret tt
  | x :: rest => bind (body x) (fun _ => for_each rest body)
  end.

(** The characters of a [str], each as a string: the bytes of the UTF-8
    text, cut before every byte that starts a character. *)
Definition starts_inside (s : string) : bool :=
  match s with
  | String c _ => resolver.cont c
  | EmptyString => false
  end.

Fixpoint characters (s : string) : list string :=
  match s with
  | EmptyString => []
  | String c r =>
      match characters r with
      | x :: rest =>
          if starts_inside x then String c x :: rest
          else String c EmptyString :: x :: rest
      | [] => [String c EmptyString]
      end
  end.

Section values.
Variable L : PyLib.

Definition type_error {A : Type} (call : string) (v : pyval) : outcome A :=
  Fail (Error TypeError (error_text L call v)).

(** [iter(v)], as a [for] statement takes it: the items of a list, the
    characters of a string, the keys of a dictionary. *)
Definition iterate (v : pyval) : outcome (list pyval) :=
  match v with
  | PList items => Ok items
  | PStr s => Ok (map PStr (characters s))
  | PDict items => Ok (map (fun kv => PStr (fst kv)) items)
  | _ => type_error "iter" v
  end.

(** [len(v)] *)
Definition len (v : pyval) : outcome nat :=
  match v with
  | PList items => Ok (length items)
  | PStr s => Ok (length (characters s))
  | PDict items => Ok (length items)
  | _ => type_error "len" v
  end.

(** [v[i]] for the index [i], which is 0 or 1: a dictionary read from JSON
    has strings for keys, and none is the number [i]. *)
Definition getitem_index (v : pyval) (i : nat) : outcome pyval :=
  match v with
  | PList items =>
      match nth_error items i with
      | Some x => Ok x
      | None => Fail (Error IndexError "list index out of range")
      end
  | PStr s =>
      match nth_error (characters s) i with
      | Some x => Ok (PStr x)
      | None => Fail (Error IndexError "string index out of range")
      end
  | PDict _ => Fail (Error KeyError (value_text L (PInt (Z.of_nat i))))
  | _ => type_error "getitem" v
  end.

(** [hash(v)] raises for a list and a dictionary. *)
Definition hashable (v : pyval) : outcome unit :=
  match v with
  | PList _ | PDict _ => type_error "hash" v
  | _ => Ok tt
  end.

(** [d.get(key, default)] on any value [d]. *)
Definition get_method (d : pyval) (key : string) (default : pyval)
  : outcome pyval :=
  match d with
  | PDict items =>
      Ok (match dict_get key items with Some v => v | None => default end)
  | _ => Fail (Error AttributeError (error_text L "get" d))
  end.

(** [sub in s] on strings. *)
Fixpoint substring_of (sub s : string) : bool :=
  match json.strip_prefix sub s with
  | Some _ => true
  | None =>
      match s with
      | EmptyString => false
      | String _ r => substring_of sub r
      end
  end.

(** [item in v] for the string [item]. *)
Definition contains (v : pyval) (item : string) : outcome bool :=
  match v with
  | PDict items => Ok (dict_contains item items)
  | PList items => Ok (existsb (fun x => validator.is_str x item) items)
  | PStr s => Ok (substring_of item s)
  | _ => type_error "in" v
  end.

(** [v[key]] for the string [key], where [key in v] holds. *)
Definition getitem_key (v : pyval) (key : string) : outcome pyval :=
  match v with
  | PDict items =>
      match dict_get key items with
      | Some x => Ok x
      | None => Fail (Error KeyError ("'" +:+ key +:+ "'"))
      end
  | _ => type_error "getitem" v
  end.
End values.

Section keys.
Variable N : Numbers.

Definition int_of_bool (b : bool) : Z := if b then 1 else 0.

(** [a == b] on the values that can be keys. *)
Definition key_eq (a b : pyval) : bool :=
  match a, b with
  | PStr x, PStr y => String.eqb x y
  | PNone, PNone => true
  | PBool x, PBool y => Bool.eqb x y
  | PInt x, PInt y => x =? y
  | PBool x, PInt y => int_of_bool x =? y
  | PInt x, PBool y => x =? int_of_bool y
  | PFloat l, PBool _ | PFloat l, PInt _ | PFloat l, PFloat _ => float_eq N l b
  | PBool _, PFloat l | PInt _, PFloat l => float_eq N l a
  | _, _ => false
  end.

(** [d[key]] when the key is there. *)
Fixpoint lookup (key : pyval) (d : list (pyval * pyval)) : option pyval :=
  match d with
  | [] => None
  | (k, v) :: rest => if key_eq key k then Some v else lookup key rest
  end.

(** [d[key] = value]: a key that is there keeps its place and takes the
    value. *)
Fixpoint store (key value : pyval) (d : list (pyval * pyval))
  : list (pyval * pyval) :=
  match d with
  | [] => [(key, value)]
  | (k, v) :: rest =>
      if key_eq key k then (k, value) :: rest
      else (k, v) :: store key value rest
  end.
End keys.

(** [domain.split(".")[-1]] *)
Definition last_label (domain : string) : string :=
  match urllib.rpartition "." domain with
  | Some (_, label) => label
  | None => domain
  end.

(** [s.endswith(suffix)] *)
Fixpoint endswith (s suffix : string) : bool :=
  String.eqb s suffix ||
  match s with
  | EmptyString => false
  | String _ r => endswith r suffix
  end.

Section client.
Variable L : PyLib.
Variable N : Numbers.
Variable W : Net.

(** [time.time()] *)
Definition read_clock : Act Z :=
  fun p =>
    (Ok (time_time W (clock_reads p)),
     mkProcess (self p) (requests_made p) (S (clock_reads p))).

(** [requests.get(url, timeout=self.timeout)] *)
Definition get (url : string) : Act Response :=
  fun p =>
    (requests_get W (requests_made p) url (timeout (self p)),
     mkProcess (self p) (S (requests_made p)) (clock_reads p)).

Definition set_servers (servers : list (pyval * pyval)) (c : Client) : Client :=
  mkClient (timeout c) servers (_bootstrap_timestamp c) (_bootstrap_ttl c).

Definition set_timestamp (t : Z) (c : Client) : Client :=
  mkClient (timeout c) (_bootstrap_servers c) (FloatStamp t) (_bootstrap_ttl c).

(** [current_time - self._bootstrap_timestamp]: a timestamp that is an [int]
    is converted to a float first. *)
Definition elapsed (current_time : Z) (timestamp : stamp) : outcome Z :=
  match timestamp with
  | FloatStamp x => Ok (float_sub N current_time x)
  | IntStamp n =>
      match float_of_int L n with
      | Some x => Ok (float_sub N current_time x)
      | None =>
          Fail (Error OverflowError "int too large to convert to float")
      end
  end.

(** [not self._bootstrap_servers or current_time - self._bootstrap_timestamp
    > self._bootstrap_ttl]: the difference is not computed when there are no
    servers. *)
Definition refresh_due (current_time : Z) : Act bool :=
  (servers <- gets _bootstrap_servers ;;
   match servers with
   | [] => ret true
   | _ =>
       timestamp <- gets _bootstrap_timestamp ;;
       ttl <- gets _bootstrap_ttl ;;
       age <- lift (elapsed current_time timestamp) ;;
       ret (float_gt_int N age ttl)
   end)%Act.

Definition _refresh_bootstrap_servers : Act unit :=
  try_except
    (response <- get RDAP_BOOTSTRAP_URL ;;
     if negb (status_code response =? 200)
     then raise RDAPError
            ("RDAP bootstrap lookup failed with status code "
             +:+ format_value L (PInt (status_code response)))
     else
       bootstrap_data <- lift (json response) ;;
       modify (set_servers []) ;;;
       services <- lift (get_method L bootstrap_data "services" (PList [])) ;;
       services <- lift (iterate L services) ;;
       for_each services (fun service =>
         n <- lift (len L service) ;;
         if (2 <=? n)%nat then
           first <- lift (getitem_index L service 0) ;;
           tlds <- lift (iterate L first) ;;
           for_each tlds (fun tld =>
             second <- lift (getitem_index L service 1) ;;
             lift (hashable L tld) ;;;
             modify (fun c =>
                       set_servers (store N tld second (_bootstrap_servers c))
                                   c))
         else ret tt) ;;;
       now <- read_clock ;;
       modify (set_timestamp now))%Act
    [([requests_RequestException],
      fun e => raise RDAPError ("RDAP bootstrap lookup failed: " +:+ str e));
     ([Exception],
      fun e => raise RDAPError
                 ("Error refreshing RDAP bootstrap servers: " +:+ str e))].

(** The loop over [self._bootstrap_servers.items()]. *)
Fixpoint first_suffix (domain : string) (items : list (pyval * pyval))
  : outcome pyval :=
  match items with
  | [] => Ok PNone
  | (suffix, servers) :: rest =>
      if endswith domain ("." +:+ format_value L suffix)
      then getitem_index L servers 0
      else first_suffix domain rest
  end.

Definition _get_rdap_server_url (domain : string) : Act pyval :=
  try_except
    (current_time <- read_clock ;;
     due <- refresh_due current_time ;;
     (if due : bool then _refresh_bootstrap_servers else ret tt) ;;;
     let tld := last_label domain in
     servers <- gets _bootstrap_servers ;;
     match lookup N (PStr tld) servers with
     | Some found => lift (getitem_index L found 0)
     | None => lift (first_suffix domain servers)
     end)%Act
    [([Exception],
      fun e => raise RDAPError
                 ("Error getting RDAP server URL for " +:+ domain +:+ ": "
                  +:+ str e))].

Definition _get_rdap_data (domain : string) : Act pyval :=
  try_except
    (rdap_server_url <- _get_rdap_server_url domain ;;
     if negb (truthy rdap_server_url)
     then raise RDAPError ("No RDAP server found for " +:+ domain)
     else
       let rdap_query_url :=
         format_value L rdap_server_url +:+ "/domain/" +:+ domain in
       response <- get rdap_query_url ;;
       if negb (status_code response =? 200)
       then raise RDAPError
              ("RDAP query for " +:+ domain +:+ " failed with status code "
               +:+ format_value L (PInt (status_code response)))
       else lift (json response))%Act
    [([requests_RequestException],
      fun e => raise RDAPError
                 ("RDAP query for " +:+ domain +:+ " failed: " +:+ str e));
     ([Exception],
      fun e => raise RDAPError
                 ("Error getting RDAP data for " +:+ domain +:+ ": "
                  +:+ str e))].

Definition check_for_sale_status (domain : string) : Act bool :=
  try_except
    (rdap_data <- _get_rdap_data domain ;;
     has_status <- lift (contains L rdap_data "status") ;;
     if has_status : bool then
       status <- lift (getitem_key L rdap_data "status") ;;
       match status with
       | PList items =>
           ret (existsb (fun x => validator.is_str x FOR_SALE_STATUS_TAG) items)
       | _ => ret false
       end
     else ret false)%Act
    [([requests_Timeout],
      fun _ => raise TimeoutError
                 ("RDAP query for " +:+ domain +:+ " timed out"));
     ([RDAPError], fun e => lift (Fail e));
     ([Exception],
      fun e => raise RDAPError
                 ("Error checking RDAP status for " +:+ domain +:+ ": "
                  +:+ str e))].
End client.

End RDAPClient.

(** * Definitions used by the statements *)

(** The double nearest to an integer, a tie going to the neighbour with an
    even significand; an integer of less than 54 bits is a double. *)
Definition nearest_double (n : Z) : Z :=
  let a := Z.abs n in
  if a <? 2 ^ 53 then n
  else
    let e := Z.log2 a - 52 in
    let q := a / 2 ^ e in
    let r := a mod 2 ^ e in
    let half := 2 ^ (e - 1) in
    let q' := if r <? half then q
              else if half <? r then q + 1
              else if Z.even q then q else q + 1 in
    Z.sgn n * (q' * 2 ^ e).

(** The arithmetic of the floats that are whole numbers, each standing for
    itself and [2 ^ 1024] for the infinity: the conversion raises when the
    nearest double is none, and a sum is rounded. *)
Definition whole_float_of_int (n : Z) : option Z :=
  if 2 ^ 1024 <=? Z.abs (nearest_double n) then None
  else Some (nearest_double n).

Definition whole_float_add (x y : Z) : Z :=
  let z := nearest_double (x + y) in
  if 2 ^ 1024 <=? z then 2 ^ 1024
  else if z <=? - 2 ^ 1024 then - 2 ^ 1024
  else z.

(** A library whose exception texts are empty and whose host checks pass:
    the examples below do not depend on either.  Its floats are the whole
    numbers. *)
Definition quiet_lib : PyLib := {|
  error_text := fun _ _ => EmptyString;
  value_text := fun _ => EmptyString;
  check_bracketed_netloc := fun _ => None;
  checknetloc_nfkc := fun _ => None;
  float_of_int := whole_float_of_int;
  float_add := whole_float_add
|}.

(** A text written with an apostrophe for each of its double quotes. *)
Definition quoted (s : string) : string := html.replace "'" renderer.dq s.

(** The scheme that [urlparse] reports for a field: none for a value that
    is no string or that [urlparse] refuses. *)
Definition parsed_scheme (L : PyLib) (v : pyval) : option string :=
  match urllib.urlparse L v with
  | Return (urllib.ParseResult scheme _ _ _ _ _) => Some scheme
  | _ => None
  end.

(** A record that reaches the field gates: within the size limit, tagged,
    a JSON object [d] with the required keys and no unknown key. *)
Definition reaches_field_gates (L : PyLib) (txt_record : string)
    (d : list (string * pyval)) : Prop :=
  (String.length txt_record <= validator.MAX_TXT_SIZE)%nat /\
  exists json_content,
    json.strip_prefix validator.VERSION_TAG txt_record = Some json_content /\
    json.loads L json_content = Return (PDict d) /\
    validator._validate_schema (PDict d) = Return tt.

Definition is_object (v : pyval) : bool :=
  match v with PDict _ => true | _ => false end.

(** What makes the text after the tag fail the JSON gate: no JSON value at
    its start, something other than white space after the value, or a value
    that is no object. *)
Definition not_a_json_object (json_content : string) : Prop :=
  match json.raw_decode json_content with
  | None => True
  | Some (v, rest) => json.skip_ws rest <> EmptyString \/ is_object v = false
  end.

(** The records of the examples. *)
Definition record_http : string :=
  quoted "v=FORSALE1;{'v':'1','price':'USD:1000','url':'http://example.com','contact':'mailto:owner@example.com'}".

Definition record_upper_case : string :=
  quoted "v=FORSALE1;{'v':'1','price':'USD:1000','url':'HTTPS://example.com','contact':'mailto:owner@example.com'}".

Definition record_repeated_key : string :=
  quoted "v=FORSALE1;{'v':'2','v':'1','price':'USD:1000','url':'https://example.com','contact':'mailto:owner@example.com'}".

Definition record_trailing : string :=
  quoted "v=FORSALE1;{'v':'1','price':'USD:1000','url':'https://example.com','contact':'mailto:owner@example.com'} x".

Definition a_day : datetime.date := datetime.Date 2025 6 1.

(** [c] changes the state only along [R]: whatever it returns or raises,
    the state it leaves is related to the one it started in. *)
Definition preserves {S A : Type} (R : S -> S -> Prop) (c : M S A) : Prop :=
  forall s r s', c s = (r, s') -> R s s'.

(** A relation on states, and one on responses, as relations on frames. *)
Definition on_state (R : State -> State -> Prop) : api.Frame -> api.Frame -> Prop :=
  fun f f' => R (fst f) (fst f').

Definition on_resp (Q : api.DomainSaleResponse -> api.DomainSaleResponse -> Prop)
  : api.Frame -> api.Frame -> Prop :=
  fun f f' => Q (snd f) (snd f').

(** The steps by which the package changes the process: a relation that
    holds across each of them holds across every computation of the
    package (see [try_body_preserves]). *)
Record step_closed (R : State -> State -> Prop) : Prop := {
  sc_tick : forall s, R s (tick_clock s);
  sc_resolver : forall s, R s (count_resolver s);
  sc_dns_query : forall s, R s (count_dns_query s);
  sc_rdap_query : forall s, R s (count_rdap_query s);
  sc_new_list : forall s l, R s (set_heap (heap s ++ [l])%list s);
  sc_append :
    forall s ref x,
      R s (set_heap (alter (fun l => (l ++ [x])%list) ref (heap s)) s);
  sc_store_dns :
    forall s c, cache.ttl c = cache.ttl (dns_cache s) -> R s (set_dns_cache c s);
  sc_store_rdap :
    forall s c, cache.ttl c = cache.ttl (rdap_cache s) -> R s (set_rdap_cache c s)
}.

(** The first two statements of the [try] block: the resolver is made and
    the texts are looked up through the cache. *)
Definition lookup_phase (L : PyLib) (W : World) (domain : string)
    (options : api.DomainSaleOptions) : M api.Frame (list string * nat) :=
  (resolver <- api.global (resolver.__init__ W (api.timeout options)) ;;
   api.global (api._lookup_txt_records L W (resolver, domain)))%M.

(** The rest of the [try] block, from the texts and the list of sources. *)
Definition after_lookup (L : PyLib) (W : World) (domain : string)
    (options : api.DomainSaleOptions) (looked_up : list string * nat)
  : M api.Frame unit :=
  (let (txt_records, sources) := looked_up in
   record_data <- api.process_records L W txt_records PNone ;;
   if negb (truthy record_data) then ret tt
   else
     rdap_for_sale <- api.rdap_step L W domain options sources ;;
     if api.enable_rdap_check options && negb rdap_for_sale then ret tt
     else
       price <- lift_result (api.get_method L record_data "price") ;;
       url <- lift_result (api.get_method L record_data "url") ;;
       contact <- lift_result (api.get_method L record_data "contact") ;;
       expires <- lift_result (api.get_method L record_data "expires") ;;
       api.on_response (api.set_for_sale price url contact expires sources))%M.

(** The response differs from an earlier one of the same call by errors
    added at the end, and by nothing else. *)
Definition errors_added (r r' : api.DomainSaleResponse) : Prop :=
  exists more,
    r' = api.mkResponse (api.domain r) (api.for_sale r) (api.price r)
           (api.url r) (api.contact r) (api.expires r) (api.source r)
           (api.errors r ++ more)%list.

(** The text that the handlers of [get_domain_sale_status] record for an
    exception that leaves the [try] block. *)
Definition recorded_text (e : exn) : string :=
  match class_of e with
  | DNSSECValidationError => "DNSSEC validation failed: " +:+ str e
  | TimeoutError => "Timeout: " +:+ str e
  | _ => "Unexpected error: " +:+ str e
  end.

(** The time to live of both caches is the same in the two states. *)
Definition same_ttl (s s' : State) : Prop :=
  cache.ttl (dns_cache s') = cache.ttl (dns_cache s) /\
  cache.ttl (rdap_cache s') = cache.ttl (rdap_cache s).

(** The process after a sequence of calls, each a domain and its options. *)
Fixpoint after_calls (L : PyLib) (W : World)
    (calls : list (string * option api.DomainSaleOptions)) (s : State)
  : State :=
  match calls with
  | [] => s
  | call :: rest =>
      after_calls L W rest
        (snd (api.get_domain_sale_status L W (fst call) (snd call) s))
  end.

(** The options a call runs with. *)
Definition options_of (options : option api.DomainSaleOptions)
  : api.DomainSaleOptions :=
  default api.default_options options.

(** What [lookup_for_sale_record] makes of the answer of the resolver: the
    texts of at most 255 bytes, none for [NoAnswer] and [NXDOMAIN], and an
    exception of the package for every other exception. *)
Definition lookup_texts (L : PyLib) (domain : string)
    (answer : result (list (list string))) : result (list string) :=
  match answer with
  | Return answers => resolver.collect_txt L answers []
  | Raise e =>
      match class_of e with
      | dns_NoAnswer | dns_NXDOMAIN => Return []
      | dns_Timeout =>
          Raise (Exn TimeoutError ("DNS query for " +:+ domain +:+ " timed out"))
      | _ =>
          Raise (Exn DNSSECValidationError
                   ("DNS lookup or DNSSEC validation failed for "
                    +:+ resolver.FOR_SALE_PREFIX +:+ "." +:+ domain
                    +:+ ": " +:+ str e))
      end
  end.

(** The answer that the next query of the resolver for [domain] gets. *)
Definition next_answer (W : World) (s : State) (timeout : Z) (domain : string)
  : result (list (list string)) :=
  resolve W (dns_queries s) timeout
    (resolver.FOR_SALE_PREFIX +:+ "." +:+ domain).

(** The DNS cache has no live entry for the domain at the next reading of
    the clock: a call looks the texts up. *)
Definition dns_lookup_due (W : World) (s : State) (domain : string) : Prop :=
  fst (cache.get (epoch (clock W (clock_reads s))) (dns_cache s)
         ("dns:" +:+ domain)) = None.

(** A clock that stands still, and the world in which every query of the
    resolver gets the answer [dns] and every RDAP check the outcome
    [rdap]. *)
Definition still_clock : nat -> instant := fun _ => Instant 1000 a_day.

Definition world_of (dns : result (list (list string))) (rdap : result bool)
  : World := {|
  clock := still_clock;
  make_resolver := fun _ => Return tt;
  resolve := fun _ _ _ => dns;
  check_for_sale_status := fun _ _ _ => rdap
|}.

Definition record_for_sale : string :=
  quoted "v=FORSALE1;{'v':'1','price':'USD:1000','url':'https://sale.example','contact':'mailto:o@example.com'}".

Definition rdap_on : api.DomainSaleOptions := api.mkOptions true 300 5.

(** 130 bytes: two of them make a text of 260 bytes. *)
Definition bytes_130 : string :=
  String.concat "" (repeat "aaaaaaaaaa" 13).

(** The state after the read of the DNS cache that starts a lookup: an
    entry found there has been looked at, and removed if it had expired. *)
Definition after_dns_get (W : World) (s : State) (domain : string) : State :=
  if cache.contains (dns_cache s) ("dns:" +:+ domain) then
    set_dns_cache
      (snd (cache.get (epoch (clock W (clock_reads s))) (dns_cache s)
              ("dns:" +:+ domain)))
      (tick_clock s)
  else s.

(** The list objects are the same in the two states. *)
Definition heap_same (s s' : State) : Prop := heap s' = heap s.

(** Every list of sources that the DNS cache refers to is a list object of
    the process. *)
Definition refs_valid (s : State) : Prop :=
  forall key txt_records ref expiry,
    cache._cache (dns_cache s) !! key = Some ((txt_records, ref), expiry) ->
    (ref < length (heap s))%nat.

(** The DNS cache is the same in the two states, and there are as many
    list objects. *)
Definition dns_side_same (s s' : State) : Prop :=
  dns_cache s' = dns_cache s /\ length (heap s') = length (heap s).

(** ** Where a character of an HTML document stands

    The states of the HTML tokenizer that matter for markup: text, the
    parts of a tag, and the text of a [script] or [style] element.  [raw]
    says that the tag being read opens such an element. *)
Inductive position : Type :=
| Data
| TagOpen
| EndTagOpen
| TagName (end_tag : bool) (name : string)
| BeforeAttrName (raw : bool)
| AttrName (raw : bool) (name : string)
| AfterAttrName (raw : bool) (name : string)
| BeforeAttrValue (raw : bool) (name : string)
| AttrValueDQ (raw : bool) (name : string)
| AttrValueSQ (raw : bool) (name : string)
| AttrValueUnq (raw : bool) (name : string)
| AfterAttrValue (raw : bool)
| SelfClosing (raw : bool)
| Bogus
| RawText.

Definition html_space (c : ascii) : bool :=
  Ascii.eqb c " " || Ascii.eqb c "009" || Ascii.eqb c "010"
  || Ascii.eqb c "012" || Ascii.eqb c "013".

Definition snoc (s : string) (c : ascii) : string := s +:+ String c EmptyString.

(** The tag is complete: the text of a [script] or [style] start tag is
    raw, everything else goes on as text. *)
Definition close_tag (raw : bool) : position := if raw then RawText else Data.

Definition opens_raw (end_tag : bool) (name : string) : bool :=
  negb end_tag && (String.eqb name "script" || String.eqb name "style").

Definition before_attr_name (raw : bool) (c : ascii) : position :=
  if html_space c then BeforeAttrName raw
  else if Ascii.eqb c "/" then SelfClosing raw
  else if Ascii.eqb c ">" then close_tag raw
  else AttrName raw (String (urllib.lower_char c) EmptyString).

(** One character of the document. *)
Definition step (p : position) (c : ascii) : position :=
  match p with
  | Data => if Ascii.eqb c "<" then TagOpen else Data
  | TagOpen =>
      if Ascii.eqb c "/" then EndTagOpen
      else if urllib.is_alpha c
      then TagName false (String (urllib.lower_char c) EmptyString)
      else if Ascii.eqb c "!" || Ascii.eqb c "?" then Bogus
      else if Ascii.eqb c "<" then TagOpen
      else Data
  | EndTagOpen =>
      if urllib.is_alpha c
      then TagName true (String (urllib.lower_char c) EmptyString)
      else if Ascii.eqb c ">" then Data
      else Bogus
  | TagName end_tag name =>
      if html_space c then BeforeAttrName (opens_raw end_tag name)
      else if Ascii.eqb c "/" then SelfClosing (opens_raw end_tag name)
      else if Ascii.eqb c ">" then close_tag (opens_raw end_tag name)
      else TagName end_tag (snoc name (urllib.lower_char c))
  | BeforeAttrName raw => before_attr_name raw c
  | AttrName raw name =>
      if html_space c then AfterAttrName raw name
      else if Ascii.eqb c "/" then SelfClosing raw
      else if Ascii.eqb c ">" then close_tag raw
      else if Ascii.eqb c "=" then BeforeAttrValue raw name
      else AttrName raw (snoc name (urllib.lower_char c))
  | AfterAttrName raw name =>
      if html_space c then AfterAttrName raw name
      else if Ascii.eqb c "/" then SelfClosing raw
      else if Ascii.eqb c "=" then BeforeAttrValue raw name
      else if Ascii.eqb c ">" then close_tag raw
      else AttrName raw (String (urllib.lower_char c) EmptyString)
  | BeforeAttrValue raw name =>
      if html_space c then BeforeAttrValue raw name
      else if Ascii.eqb c "034" then AttrValueDQ raw name
      else if Ascii.eqb c "'" then AttrValueSQ raw name
      else if Ascii.eqb c ">" then close_tag raw
      else AttrValueUnq raw name
  | AttrValueDQ raw name =>
      if Ascii.eqb c "034" then AfterAttrValue raw else AttrValueDQ raw name
  | AttrValueSQ raw name =>
      if Ascii.eqb c "'" then AfterAttrValue raw else AttrValueSQ raw name
  | AttrValueUnq raw name =>
      if html_space c then BeforeAttrName raw
      else if Ascii.eqb c ">" then close_tag raw
      else AttrValueUnq raw name
  | AfterAttrValue raw => before_attr_name raw c
  | SelfClosing raw =>
      if Ascii.eqb c ">" then Data else before_attr_name raw c
  | Bogus => if Ascii.eqb c ">" then Data else Bogus
  | RawText => RawText
  end.

Fixpoint run (p : position) (s : string) : position :=
  match s with
  | EmptyString => p
  | String c r => run (step p c) r
  end.

(** An attribute whose value is a script: an event handler. *)
Definition event_handler (name : string) : bool :=
  match name with
  | String "o" (String "n" _) => true
  | _ => false
  end.

(** The positions in which a character is text or part of the quoted value
    of an attribute that is no event handler: not in the name of an element
    or of an attribute, and not in a script. *)
Definition text_or_value (p : position) : bool :=
  match p with
  | Data => true
  | AttrValueDQ _ name => negb (event_handler name)
  | _ => false
  end.

(** Every character of [s], read from [p], is text or value. *)
Fixpoint inside (p : position) (s : string) : bool :=
  match s with
  | EmptyString => true
  | String c r => text_or_value p && inside (step p c) r
  end.

(** The parts of a rendered document: the text of the renderer, and the
    escaped value of an interpolated field. *)
Inductive segment : Type :=
| Lit (s : string)
| Esc (value : string).

Definition segment_text (g : segment) : string :=
  match g with
  | Lit s => s
  | Esc value => html.escape value
  end.

Fixpoint line_text (l : list segment) : string :=
  match l with
  | [] => EmptyString
  | g :: rest => segment_text g +:+ line_text rest
  end.

(** Read from [p], every escaped value of the line is text or value. *)
Fixpoint walk (p : position) (l : list segment) : bool :=
  match l with
  | [] => true
  | Lit s :: rest => walk (run p s) rest
  | Esc value :: rest =>
      inside p (html.escape value) && walk (run p (html.escape value)) rest
  end.

Definition str_of (v : pyval) : string :=
  match v with PStr s => s | _ => EmptyString end.

Definition class_line (class_name label : string) : list segment :=
  [Lit ("<div " +:+ renderer.attr "class" class_name +:+ "><strong>" +:+ label
        +:+ "</strong> ")].

(** The lines of [render_sale_info], in parts. *)
Definition domain_lines (sale_info : list (string * pyval))
  : list (list segment) :=
  if dict_contains "domain" sale_info
  then [[Lit "<h2>Domain for Sale: ";
         Esc (str_of (dict_get_default "domain" sale_info));
         Lit "</h2>"]]
  else [[Lit "<h2>Domain for Sale</h2>"]].

Definition price_lines (sale_info : list (string * pyval))
  : list (list segment) :=
  if truthy (dict_get_default "price" sale_info)
  then [class_line "sale-price" "Price:"
        ++ [Esc (str_of (dict_get_default "price" sale_info));
            Lit "</div>"]]%list
  else [].

Definition contact_lines (sale_info : list (string * pyval))
  : list (list segment) :=
  if truthy (dict_get_default "contact" sale_info)
  then
    match json.strip_prefix "mailto:"
            (html.escape (str_of (dict_get_default "contact" sale_info)))
    with
    | Some rest =>
        [class_line "sale-contact" "Contact:"
         ++ [Lit ("<a href=" +:+ renderer.dq);
             Esc (str_of (dict_get_default "contact" sale_info));
             Lit (renderer.dq +:+ ">");
             Esc rest;
             Lit "</a></div>"]]%list
    | None =>
        [class_line "sale-contact" "Contact:"
         ++ [Esc (str_of (dict_get_default "contact" sale_info));
             Lit "</div>"]]%list
    end
  else [].

Definition url_lines (sale_info : list (string * pyval))
  : list (list segment) :=
  if truthy (dict_get_default "url" sale_info)
  then [class_line "sale-url" "More Info:"
        ++ [Lit ("<a href=" +:+ renderer.dq);
            Esc (str_of (dict_get_default "url" sale_info));
            Lit (renderer.dq +:+ " " +:+ renderer.attr "target" "_blank"
                 +:+ " " +:+ renderer.attr "rel" "noopener noreferrer"
                 +:+ ">");
            Esc (str_of (dict_get_default "url" sale_info));
            Lit "</a></div>"]]%list
  else [].

Definition expires_lines (sale_info : list (string * pyval))
  : list (list segment) :=
  if truthy (dict_get_default "expires" sale_info)
  then [class_line "sale-expires" "Expires:"
        ++ [Esc (str_of (dict_get_default "expires" sale_info));
            Lit "</div>"]]%list
  else [].

Definition sale_info_lines (sale_info : list (string * pyval))
  : list (list segment) :=
  (domain_lines sale_info
   ++ [[Lit ("<div " +:+ renderer.attr "class" "domain-sale-info" +:+ ">")]]
   ++ price_lines sale_info
   ++ contact_lines sale_info
   ++ url_lines sale_info
   ++ expires_lines sale_info
   ++ [[Lit "</div>"]])%list.

Definition error_line (message : string) : list segment :=
  [Lit ("<div " +:+ renderer.attr "class" "domain-sale-error" +:+ ">");
   Esc message; Lit "</div>"].

(** The lines as one line, a newline between two of them. *)
Fixpoint join_lines (lines : list (list segment)) : list segment :=
  match lines with
  | [] => []
  | [l] => l
  | l :: rest => (l ++ Lit renderer.nl :: join_lines rest)%list
  end.

(** What [html.escape] writes for one character. *)
Definition escape_char (c : ascii) : string :=
  if Ascii.eqb c "&" then "&amp;"
  else if Ascii.eqb c "<" then "&lt;"
  else if Ascii.eqb c ">" then "&gt;"
  else if Ascii.eqb c "034" then "&quot;"
  else if Ascii.eqb c "'" then "&#x27;"
  else String c EmptyString.

Fixpoint escape_chars (s : string) : string :=
  match s with
  | EmptyString => EmptyString
  | String c r => escape_char c +:+ escape_chars r
  end.

(** A character that opens or closes no tag and no quoted value. *)
Definition no_markup (c : ascii) : bool :=
  negb (Ascii.eqb c "<" || Ascii.eqb c ">" || Ascii.eqb c "034"
        || Ascii.eqb c "'").

(** Read as text from its start, every escaped value of the line is text or
    value, and the line ends as text. *)
Definition line_ok (l : list segment) : Prop :=
  walk Data l = true /\ run Data (line_text l) = Data.

(** The escaped values of a line have none of the characters [<], [>], the
    double quote and the apostrophe. *)
Definition escaped_clean (g : segment) : Prop :=
  match g with
  | Lit _ => True
  | Esc value => string_forall no_markup (segment_text (Esc value)) = true
  end.

(** A listing whose fields try to open a tag, to close the quoted value and
    to add an event handler. *)
Definition hostile_sale_info : list (string * pyval) :=
  [("domain", PStr "<script>alert(1)</script>");
   ("price", PStr "USD:1<img src=x onerror=alert(1)>");
   ("contact", PStr "mailto:a@example.com' onclick='alert(1)");
   ("url", PStr (quoted "https://example.com/'><script>alert(1)</script>"));
   ("expires", PStr "2030-01-01</div><script>")].

(** ** Sample calls *)

(** The world in which the domain is listed and the registry agrees, and
    the one in which the only text has 260 bytes. *)
Definition sold_world : World :=
  world_of (Return [[record_for_sale]]) (Return true).

Definition oversize_world : World :=
  world_of (Return [[bytes_130; bytes_130]]) (Return true).

(** The world in which the name has no text. *)
Definition unlisted_world : World :=
  world_of (Raise (Exn dns_NoAnswer "no answer")) (Return true).

(** The response of a call that returned. *)
Definition response_of (out : result api.DomainSaleResponse * State)
  : api.DomainSaleResponse :=
  match fst out with
  | Return response => response
  | Raise _ => api.new_response EmptyString
  end.

(** The first call of a process that checks RDAP, in [sold_world]. *)
Definition sold_call : result api.DomainSaleResponse * State :=
  api.get_domain_sale_status quiet_lib sold_world "example.com" (Some rdap_on)
    initial_state.

(** ** Two calls in a row *)

(** The process after [k] readings of the clock. *)
Fixpoint ticks (k : nat) (s : State) : State :=
  match k with
  | O => s
  | S k => ticks k (tick_clock s)
  end.

(** The response with the messages added to its errors. *)
Definition more_errors (msgs : list string) (r : api.DomainSaleResponse)
  : api.DomainSaleResponse :=
  api.mkResponse (api.domain r) (api.for_sale r) (api.price r) (api.url r)
    (api.contact r) (api.expires r) (api.source r)
    (api.errors r ++ msgs)%list.

(** The loop over the texts as a function of the dates that the clock
    gives from its [n]-th reading on: the value of [record_data] or the
    exception that leaves the loop, the number of readings, and the errors
    recorded. *)
Fixpoint loop_outcome (L : PyLib) (dates : nat -> datetime.date) (n : nat)
    (txt_records : list string) (record_data : pyval)
  : result pyval * (nat * list string) :=
  match txt_records with
  | [] => (Return record_data, (O, []))
  | txt_record :: rest =>
      match validator.extract_and_validate_record L (dates n) txt_record with
      | Return record_data' =>
          if truthy record_data' then (Return record_data', (1%nat, []))
          else
            let '(out, (k, msgs)) :=
              loop_outcome L dates (S n) rest record_data' in
            (out, (S k, msgs))
      | Raise e =>
          if existsb (issubclass (class_of e))
               [SchemaValidationError; FieldValidationError; SizeExceededError]
          then
            let '(out, (k, msgs)) :=
              loop_outcome L dates (S n) rest record_data in
            (out, (S k, str e :: msgs))
          else (Raise e, (1%nat, []))
      end
  end.


(** All the readings of the clock from [lo] to the one before [hi] are on
    one day. *)


(** The clock has been read at least as often. *)
Definition clock_le (s s' : State) : Prop :=
  (clock_reads s <= clock_reads s')%nat.


(** ** What the validator accepts *)

(** The record has the four required keys and no key beyond the allowed
    ones. *)
Definition schema_ok (d : list (string * pyval)) : Prop :=
  Forall (fun k => dict_contains k d = true) validator.REQUIRED_FIELDS /\
  Forall (fun k => validator.in_list k validator.ALLOWED_FIELDS = true)
         (map fst d).

(** The value parses as a URL of the scheme [https] with a host. *)
Definition url_ok (L : PyLib) (v : pyval) : Prop :=
  exists netloc path params query fragment,
    urllib.urlparse L v
    = Return (urllib.ParseResult "https" netloc path params query fragment)
    /\ netloc <> EmptyString.

(** The value parses as a URL of the scheme [mailto] with an address. *)
Definition contact_ok (L : PyLib) (v : pyval) : Prop :=
  exists netloc path params query fragment,
    urllib.urlparse L v
    = Return (urllib.ParseResult "mailto" netloc path params query fragment)
    /\ path <> EmptyString.

(** The value is a date of the calendar, written as the pattern asks, and
    not before [today]. *)
Definition expires_ok (L : PyLib) (today : datetime.date) (v : pyval) : Prop :=
  exists s date,
    v = PStr s /\ re.date_pattern s = true /\
    datetime.strptime L v = Return date /\
    datetime.date_lt date today = false.

(** The fields of the record are those of a listing. *)
Definition fields_ok (L : PyLib) (today : datetime.date)
    (d : list (string * pyval)) : Prop :=
  dict_get "v" d = Some (PStr "1") /\
  (exists price,
      dict_get "price" d = Some (PStr price) /\ re.price_pattern price = true) /\
  (exists url, dict_get "url" d = Some url /\ url_ok L url) /\
  (exists contact, dict_get "contact" d = Some contact /\ contact_ok L contact) /\
  (forall expires,
      dict_get "expires" d = Some expires -> expires_ok L today expires).

(** The JSON text of a record with a number for its price. *)
Definition number_price_content : string :=
  quoted "{'v':'1','price':1000,'url':'https://sale.example','contact':'mailto:o@example.com'}".

(** ** The cache as a map *)

(** What a [get] at [now] returns for an entry. *)
Definition served {T : Type} (now : Z) (entry : option (T * Z)) : option T :=
  match entry with
  | Some (value, expiry) => if now <? expiry then Some value else None
  | None => None
  end.

(** The exception of an outcome that is one. *)
Definition raised {A : Type} (r : result A) : exn :=
  match r with
  | Raise e => e
  | Return _ => Exn Exception EmptyString
  end.

(** The world in which the answer is one text with the version tag and no
    JSON after it. *)
Definition broken_world : World :=
  world_of (Return [["v=FORSALE1;{"]]) (Return true).

(** The queries and checks made are the same in the two states, and so is
    the RDAP cache. *)
Definition rdap_side_same (s s' : State) : Prop :=
  rdap_queries s' = rdap_queries s /\ rdap_cache s' = rdap_cache s /\
  resolvers_made s' = resolvers_made s.

(** The resolvers made and the DNS queries are the same in the two states,
    and so are the DNS cache and the list objects. *)
Definition dns_counts_same (s s' : State) : Prop :=
  dns_queries s' = dns_queries s /\ resolvers_made s' = resolvers_made s /\
  dns_cache s' = dns_cache s /\ heap s' = heap s.

(** The value is a string. *)
Definition is_string (v : pyval) : Prop := exists s, v = PStr s.

(** The fields that [render_sale_info] escapes when they are true. *)
Definition rendered_fields : list string :=
  ["price"; "contact"; "url"; "expires"].

(** A listing whose contact has an ampersand in the address. *)
Definition ampersand_sale_info : list (string * pyval) :=
  [("contact", PStr "mailto:a&b@example.com")].

(** The HTML of a response, in parts: the lines of the listing when the
    response is for sale, and else the error line, with the errors joined
    or, when there is none, the notice that the domain is not for sale. *)
Definition response_line (h : list (list string))
    (r : api.DomainSaleResponse) : list segment :=
  if api.for_sale r then join_lines (sale_info_lines (api.to_dict h r))
  else error_line
         (match api.errors r with
          | _ :: _ => join ", " (api.errors r)
          | [] => "Domain " +:+ api.domain r +:+ " is not for sale"
          end).

(** ** The RDAP client *)

(** Every exception that [c] raises has a class in [P]. *)
Definition fails_with {A : Type} (P : RDAPClient.error_class -> Prop)
    (c : RDAPClient.Act A) : Prop :=
  forall p e p', c p = (RDAPClient.Fail e, p') -> P (RDAPClient.class_of e).

(** What [check_for_sale_status] makes of the RDAP data of the domain. *)
Definition status_answer (L : PyLib) (domain : string) (rdap_data : pyval)
  : RDAPClient.outcome bool :=
  let refused call :=
    RDAPClient.Fail
      (RDAPClient.Error RDAPClient.RDAPError
         ("Error checking RDAP status for " +:+ domain +:+ ": "
          +:+ error_text L call rdap_data)) in
  match rdap_data with
  | PDict items =>
      match dict_get "status" items with
      | Some (PList tags) =>
          RDAPClient.Ok
            (existsb (fun x => validator.is_str x RDAPClient.FOR_SALE_STATUS_TAG)
                     tags)
      | _ => RDAPClient.Ok false
      end
  | PList items =>
      if existsb (fun x => validator.is_str x "status") items
      then refused "getitem" else RDAPClient.Ok false
  | PStr s =>
      if RDAPClient.substring_of "status" s
      then refused "getitem" else RDAPClient.Ok false
  | _ => refused "in"
  end.

(** One more request made, one more reading of the clock. *)
Definition after_request (p : RDAPClient.Process) : RDAPClient.Process :=
  RDAPClient.mkProcess (RDAPClient.self p) (S (RDAPClient.requests_made p))
    (RDAPClient.clock_reads p).

Definition after_reading (p : RDAPClient.Process) : RDAPClient.Process :=
  RDAPClient.mkProcess (RDAPClient.self p) (RDAPClient.requests_made p)
    (S (RDAPClient.clock_reads p)).

(** The bootstrap servers are there and, at the next reading of the clock,
    not older than their time to live. *)
Definition bootstrap_fresh (L : PyLib) (N : RDAPClient.Numbers)
    (W : RDAPClient.Net) (p : RDAPClient.Process) : Prop :=
  RDAPClient._bootstrap_servers (RDAPClient.self p) <> [] /\
  exists age,
    RDAPClient.elapsed L N
      (RDAPClient.time_time W (RDAPClient.clock_reads p))
      (RDAPClient._bootstrap_timestamp (RDAPClient.self p))
    = RDAPClient.Ok age /\
    RDAPClient.float_gt_int N age
      (RDAPClient._bootstrap_ttl (RDAPClient.self p)) = false.

(** A network in which every request gets the response [response], at the
    time 1000; the numbers library in which no float key equals anything,
    and the times are whole numbers. *)
Definition net_of (response : RDAPClient.outcome RDAPClient.Response)
  : RDAPClient.Net := {|
  RDAPClient.time_time := fun _ => 1000;
  RDAPClient.requests_get := fun _ _ _ => response
|}.

Definition no_floats : RDAPClient.Numbers := {|
  RDAPClient.float_eq := fun _ _ => false;
  RDAPClient.float_sub := fun x y => nearest_double (x - y);
  RDAPClient.float_gt_int := fun x n => n <? x
|}.

(** A process with a new client. *)
Definition new_process : RDAPClient.Process :=
  RDAPClient.mkProcess (RDAPClient.__init__ 5) 0 0.

(** A process whose client knows one server for [com], since the time
    900. *)
Definition com_process : RDAPClient.Process :=
  RDAPClient.mkProcess
    (RDAPClient.mkClient 5
       [(PStr "com", PList [PStr "https://rdap.example/"])]
       (RDAPClient.FloatStamp 900) 3600)
    1 1.

(** [c] changes the process only along [R]. *)
Definition keeps {A : Type}
    (R : RDAPClient.Process -> RDAPClient.Process -> Prop)
    (c : RDAPClient.Act A) : Prop :=
  forall p r p', c p = (r, p') -> R p p'.

(** As many requests made in the two processes. *)
Definition requests_same (p p' : RDAPClient.Process) : Prop :=
  RDAPClient.requests_made p' = RDAPClient.requests_made p.

(** Whether [_get_rdap_server_url] refreshes the bootstrap servers, at
    the next reading of the clock: there are none, or they are older than
    their time to live. *)
Definition stale (L : PyLib) (N : RDAPClient.Numbers) (W : RDAPClient.Net)
    (p : RDAPClient.Process) : bool :=
  match RDAPClient._bootstrap_servers (RDAPClient.self p) with
  | [] => true
  | _ =>
      match RDAPClient.elapsed L N
              (RDAPClient.time_time W (RDAPClient.clock_reads p))
              (RDAPClient._bootstrap_timestamp (RDAPClient.self p)) with
      | RDAPClient.Ok age =>
          RDAPClient.float_gt_int N age
            (RDAPClient._bootstrap_ttl (RDAPClient.self p))
      | RDAPClient.Fail _ => false
      end
  end.

(** The URL that [_get_rdap_server_url] finds among the servers: the first
    server of the entry for the last label of the domain, or else of the
    first entry whose key, after a dot, ends the domain; [None] when there
    is no such entry. *)
Definition server_url (L : PyLib) (N : RDAPClient.Numbers) (domain : string)
    (servers : list (pyval * pyval)) : RDAPClient.outcome pyval :=
  match RDAPClient.lookup N (PStr (RDAPClient.last_label domain)) servers with
  | Some found => RDAPClient.getitem_index L found 0
  | None => RDAPClient.first_suffix L domain servers
  end.

(** The [RDAPError] that [_get_rdap_server_url] makes of an exception. *)
Definition server_url_error (domain : string) (e : RDAPClient.error)
  : RDAPClient.error :=
  RDAPClient.Error RDAPClient.RDAPError
    ("Error getting RDAP server URL for " +:+ domain +:+ ": "
     +:+ RDAPClient.str e).

(** The [RDAPError] that [_get_rdap_data] makes of an exception: one text
    for the exceptions of [requests], another for the rest. *)
Definition data_error (domain : string) (e : RDAPClient.error)
  : RDAPClient.error :=
  RDAPClient.Error RDAPClient.RDAPError
    (if RDAPClient.issubclass (RDAPClient.class_of e)
          RDAPClient.requests_RequestException
     then "RDAP query for " +:+ domain +:+ " failed: " +:+ RDAPClient.str e
     else "Error getting RDAP data for " +:+ domain +:+ ": "
          +:+ RDAPClient.str e).

(** What [check_for_sale_status] does once [_get_rdap_server_url] is back
    with the outcome [r] in the process [p1]: without a server no request is
    made; else the domain is asked for, and the answer of the server
    decides. *)
Definition check_after (L : PyLib) (W : RDAPClient.Net) (domain : string)
    (r : RDAPClient.outcome pyval) (p1 : RDAPClient.Process)
  : RDAPClient.outcome bool * RDAPClient.Process :=
  match r with
  | RDAPClient.Fail e => (RDAPClient.Fail (data_error domain e), p1)
  | RDAPClient.Ok url =>
      if truthy url then
        (match RDAPClient.requests_get W (RDAPClient.requests_made p1)
                 (format_value L url +:+ "/domain/" +:+ domain)
                 (RDAPClient.timeout (RDAPClient.self p1)) with
         | RDAPClient.Fail e => RDAPClient.Fail (data_error domain e)
         | RDAPClient.Ok response =>
             if RDAPClient.status_code response =? 200 then
               match RDAPClient.json response with
               | RDAPClient.Ok rdap_data => status_answer L domain rdap_data
               | RDAPClient.Fail e => RDAPClient.Fail (data_error domain e)
               end
             else
               RDAPClient.Fail
                 (data_error domain
                    (RDAPClient.Error RDAPClient.RDAPError
                       ("RDAP query for " +:+ domain
                        +:+ " failed with status code "
                        +:+ format_value L
                              (PInt (RDAPClient.status_code response)))))
         end,
         after_request p1)
      else
        (RDAPClient.Fail
           (data_error domain
              (RDAPClient.Error RDAPClient.RDAPError
                 ("No RDAP server found for " +:+ domain))),
         p1)
  end.

(** A server that answers every request with the status 200 and the JSON
    value [v]. *)
Definition answering (v : pyval) : RDAPClient.Net :=
  net_of (RDAPClient.Ok (RDAPClient.mkResponse 200 (RDAPClient.Ok v))).

(** * The validator *)

Lemma bind_Return {A B : Type} (a : A) (k : A -> result B) :
  bind (Return a) k = k a.
Proof. reflexivity. Qed.

Lemma bind_Raise {A B : Type} (e : exn) (k : A -> result B) :
  bind (Raise e) k = Raise e.
Proof. reflexivity. Qed.

Lemma bind_Return_inv {A B : Type} (r : result A) (k : A -> result B) (b : B) :
  bind r k = Return b -> exists a, r = Return a /\ k a = Return b.
Proof. destruct r as [a|e]; simpl; [eauto|discriminate]. Qed.

(** When every handler raises, a [try] statement returns only what its body
    returned. *)
Lemma try_except_Return {A : Type} (body : result A)
    (clauses : list (clause (exn -> result A))) (a : A) :
  (forall cs h, In (cs, h) clauses -> forall e, exists e', h e = Raise e') ->
  try_except body clauses = Return a -> body = Return a.
Proof.
  intros Hh. destruct body as [x|e]; simpl; [trivial|].
  destruct (select_handler e clauses) as [h|] eqn:Hsel; [|discriminate].
  assert (Hin : exists cs, In (cs, h) clauses).
  { clear Hh. induction clauses as [|[cs h'] rest IH]; simpl in Hsel;
      [discriminate|].
    destruct (clause_matches e (cs, h')).
    - injection Hsel as <-. exists cs. now left.
    - destruct (IH Hsel) as [cs' Hin]. exists cs'. now right. }
  destruct Hin as [cs Hin]. destruct (Hh cs h Hin e) as [e' ->]. discriminate.
Qed.

Section validator_facts.
Variable L : PyLib.
Variable today : datetime.date.

Lemma try_except_Exception {A : Type} (body : result A)
    (h : exn -> result A) :
  try_except body [([Exception], h)] =
  match body with Return a => Return a | Raise e => h e end.
Proof. destruct body as [a|e]; reflexivity. Qed.

(** [_validate_url] returns or raises [FieldValidationError]. *)
Lemma validate_url_outcome (v : pyval) :
  validator._validate_url L v = Return tt \/
  exists msg, validator._validate_url L v = Raise (Exn FieldValidationError msg).
Proof.
  unfold validator._validate_url. rewrite try_except_Exception.
  destruct (urllib.urlparse L v) as [[scheme netloc p1 p2 p3 p4|]|e]; simpl.
  - rewrite orb_false_r.
    destruct (String.eqb scheme "https"); simpl; [|right; eauto].
    destruct (String.eqb netloc ""); simpl; [right; eauto | left; reflexivity].
  - right; eauto.
  - right; eauto.
Qed.

Lemma validate_url_rejects (v : pyval) :
  parsed_scheme L v <> Some "https" ->
  exists msg, validator._validate_url L v = Raise (Exn FieldValidationError msg).
Proof.
  unfold parsed_scheme, validator._validate_url. rewrite try_except_Exception.
  destruct (urllib.urlparse L v) as [[scheme netloc p1 p2 p3 p4|]|e]; simpl;
    intros Hs; eauto.
  rewrite orb_false_r.
  destruct (String.eqb scheme "https") eqn:E; simpl; eauto.
  apply String.eqb_eq in E. congruence.
Qed.

Lemma validate_contact_rejects (v : pyval) :
  parsed_scheme L v <> Some "mailto" ->
  exists msg,
    validator._validate_contact L v = Raise (Exn FieldValidationError msg).
Proof.
  unfold parsed_scheme, validator._validate_contact.
  rewrite try_except_Exception.
  destruct (urllib.urlparse L v) as [[scheme netloc p1 p2 p3 p4|]|e]; simpl;
    intros Hs; eauto.
  rewrite orb_false_r.
  destruct (String.eqb scheme "mailto") eqn:E; simpl; eauto.
  apply String.eqb_eq in E. congruence.
Qed.

(** The schema gate leaves the four required keys present. *)
Lemma schema_required (d : list (string * pyval)) :
  validator._validate_schema (PDict d) = Return tt ->
  forall k, In k validator.REQUIRED_FIELDS -> exists v, dict_get k d = Some v.
Proof.
  unfold validator._validate_schema, validator.REQUIRED_FIELDS,
    validator.contains, dict_contains. simpl.
  intros H k Hk.
  destruct (dict_get "v" d) eqn:E1; simpl in H; [|discriminate].
  destruct (dict_get "price" d) eqn:E2; simpl in H; [|discriminate].
  destruct (dict_get "url" d) eqn:E3; simpl in H; [|discriminate].
  destruct (dict_get "contact" d) eqn:E4; simpl in H; [|discriminate].
  simpl in Hk. intuition subst; eauto.
Qed.

(** The handlers of [extract_and_validate_record] pass a
    [FieldValidationError] on. *)
Lemma extract_reraises_field (A : Type) (msg : string) :
  try_except (Raise (Exn FieldValidationError msg) : result A)
    [([JSONDecodeError],
      fun e => validator.raise SchemaValidationError
                 ("Failed to parse JSON content: " +:+ str e));
     ([SchemaValidationError; FieldValidationError], fun e => Raise e);
     ([Exception],
      fun e => validator.raise SchemaValidationError
                 ("Error validating TXT record: " +:+ str e))]
  = Raise (Exn FieldValidationError msg).
Proof. reflexivity. Qed.

(** Past the schema gate with a string for the price, a wrong scheme in
    either field makes [_validate_fields] raise [FieldValidationError]. *)
Lemma validate_fields_scheme (d : list (string * pyval)) (p : string) :
  validator._validate_schema (PDict d) = Return tt ->
  dict_get "price" d = Some (PStr p) ->
  parsed_scheme L (dict_get_default "url" d) <> Some "https" \/
  parsed_scheme L (dict_get_default "contact" d) <> Some "mailto" ->
  exists msg,
    validator._validate_fields L today (PDict d)
    = Raise (Exn FieldValidationError msg).
Proof.
  intros Hschema Hprice Hbad.
  destruct (schema_required d Hschema "v") as [v Hv]; [simpl; auto|].
  destruct (schema_required d Hschema "url") as [u Hu]; [simpl; auto|].
  destruct (schema_required d Hschema "contact") as [c Hc]; [simpl; auto 6|].
  unfold dict_get_default in Hbad. rewrite Hu, Hc in Hbad.
  unfold validator._validate_fields, validator.getitem.
  rewrite Hv; simpl.
  destruct (validator.is_str v "1"); simpl; [|eauto].
  rewrite Hprice; simpl.
  destruct (re.price_pattern p); simpl; [|eauto].
  rewrite Hu; simpl.
  destruct (validate_url_outcome u) as [Hok|[m Hm]].
  - rewrite Hok; simpl. rewrite Hc; simpl.
    destruct Hbad as [Hbad|Hbad].
    + destruct (validate_url_rejects u Hbad) as [m Hm]. congruence.
    + destruct (validate_contact_rejects c Hbad) as [m Hm].
      rewrite Hm; simpl. eauto.
  - rewrite Hm; simpl. eauto.
Qed.
End validator_facts.

(** C1, as amended.  A record that reaches the field gates and whose price
    is a string is refused with [FieldValidationError] whenever the scheme
    that [urlparse] reports for [url], the text before the first colon in
    lower case, is not [https], or the one it reports for [contact] is not
    [mailto].  A field that is no string, or has no scheme, has none of the
    two. *)
Theorem scheme_closure (L : PyLib) (today : datetime.date)
    (txt_record : string) (d : list (string * pyval)) (p : string) :
  reaches_field_gates L txt_record d ->
  dict_get "price" d = Some (PStr p) ->
  parsed_scheme L (dict_get_default "url" d) <> Some "https" \/
  parsed_scheme L (dict_get_default "contact" d) <> Some "mailto" ->
  exists msg,
    validator.extract_and_validate_record L today txt_record
    = Raise (Exn FieldValidationError msg).
Proof.
  intros (Hsize & content & Htag & Hloads & Hschema) Hprice Hbad.
  unfold validator.extract_and_validate_record.
  apply Nat.ltb_ge in Hsize. rewrite Hsize, Htag, Hloads.
  rewrite bind_Return, Hschema, bind_Return.
  destruct (validate_fields_scheme L today d p Hschema Hprice Hbad) as [m Hm].
  rewrite Hm, bind_Raise. exists m. apply extract_reraises_field.
Qed.

Lemma scheme_closure_witness :
  exists msg,
    validator.extract_and_validate_record quiet_lib a_day record_http
    = Raise (Exn FieldValidationError msg).
Proof.
  apply (scheme_closure quiet_lib a_day record_http
           [("v", PStr "1"); ("price", PStr "USD:1000");
            ("url", PStr "http://example.com");
            ("contact", PStr "mailto:owner@example.com")] "USD:1000").
  - split.
    + apply Nat.leb_le. vm_compute. reflexivity.
    + exists (quoted "{'v':'1','price':'USD:1000','url':'http://example.com','contact':'mailto:owner@example.com'}").
      split; [vm_compute; reflexivity|].
      split; vm_compute; reflexivity.
  - reflexivity.
  - left. vm_compute. discriminate.
Defined.

(** C1, as stated, fails: the scheme written in [url] is [HTTPS], which is
    not the lower-case [https], and the record is returned. *)
Lemma upper_case_scheme_accepted :
  urllib.partition ":" "HTTPS://example.com" = Some ("HTTPS", "//example.com")
  /\ "HTTPS" <> "https"
  /\ validator.extract_and_validate_record quiet_lib a_day record_upper_case
     = Return (PDict [("v", PStr "1"); ("price", PStr "USD:1000");
                      ("url", PStr "HTTPS://example.com");
                      ("contact", PStr "mailto:owner@example.com")]).
Proof. repeat split; try discriminate; vm_compute; reflexivity. Qed.

Lemma handlers_on_schema_error (A : Type) (msg : string) :
  try_except (Raise (Exn SchemaValidationError msg) : result A)
    [([JSONDecodeError],
      fun e => validator.raise SchemaValidationError
                 ("Failed to parse JSON content: " +:+ str e));
     ([SchemaValidationError; FieldValidationError], fun e => Raise e);
     ([Exception],
      fun e => validator.raise SchemaValidationError
                 ("Error validating TXT record: " +:+ str e))]
  = Raise (Exn SchemaValidationError msg).
Proof. reflexivity. Qed.

Lemma schema_refuses_non_object (v : pyval) :
  is_object v = false ->
  validator._validate_schema v
  = Raise (Exn SchemaValidationError "Record must be a JSON object").
Proof. destruct v; simpl; intros H; try reflexivity; discriminate. Qed.

(** C4, as amended.  For a text within the size limit that starts with the
    tag, [extract_and_validate_record] raises [SchemaValidationError]
    whenever the rest does not begin with a JSON value, has anything but
    white space after the value, or has a value that is no object. *)
Theorem json_gate (L : PyLib) (today : datetime.date)
    (txt_record json_content : string) :
  (String.length txt_record <= validator.MAX_TXT_SIZE)%nat ->
  json.strip_prefix validator.VERSION_TAG txt_record = Some json_content ->
  not_a_json_object json_content ->
  exists msg,
    validator.extract_and_validate_record L today txt_record
    = Raise (Exn SchemaValidationError msg).
Proof.
  intros Hsize Htag Hbad.
  unfold validator.extract_and_validate_record.
  apply Nat.ltb_ge in Hsize. rewrite Hsize, Htag.
  unfold not_a_json_object in Hbad. unfold json.loads.
  destruct (json.raw_decode json_content) as [[v rest]|].
  - destruct (json.skip_ws rest) eqn:Hrest.
    + destruct Hbad as [Hbad|Hbad]; [congruence|].
      rewrite bind_Return, (schema_refuses_non_object v Hbad), bind_Raise.
      eexists. apply handlers_on_schema_error.
    + rewrite bind_Raise. eexists. reflexivity.
  - rewrite bind_Raise. eexists. reflexivity.
Qed.

Lemma json_gate_witness :
  exists msg,
    validator.extract_and_validate_record quiet_lib a_day record_trailing
    = Raise (Exn SchemaValidationError msg).
Proof.
  apply (json_gate quiet_lib a_day record_trailing
           (quoted "{'v':'1','price':'USD:1000','url':'https://example.com','contact':'mailto:owner@example.com'} x")).
  - apply Nat.leb_le. vm_compute. reflexivity.
  - vm_compute. reflexivity.
  - vm_compute. left. discriminate.
Defined.

(** C4, as stated, fails: the object has the key [v] twice, once with the
    version [2], and the record is returned with the last value. *)
Lemma repeated_key_accepted :
  json.members 100
    (quoted "v':'2','v':'1','price':'USD:1000','url':'https://example.com','contact':'mailto:owner@example.com'}")
  = Some ([("v", PStr "2"); ("v", PStr "1"); ("price", PStr "USD:1000");
           ("url", PStr "https://example.com");
           ("contact", PStr "mailto:owner@example.com")], EmptyString)
  /\ (String.length record_repeated_key <= validator.MAX_TXT_SIZE)%nat
  /\ validator.extract_and_validate_record quiet_lib a_day record_repeated_key
     = Return (PDict [("v", PStr "1"); ("price", PStr "USD:1000");
                      ("url", PStr "https://example.com");
                      ("contact", PStr "mailto:owner@example.com")]).
Proof.
  repeat split; try (vm_compute; reflexivity).
  apply Nat.leb_le. vm_compute. reflexivity.
Qed.

(** * The cache *)

Section cache_facts.
Context {T : Type}.
Implicit Types (self : cache.Cache T) (key : string) (now : Z).


Lemma get_live now self key (value : T) (expiry : Z) :
  cache._cache self !! key = Some (value, expiry) -> now < expiry ->
  cache.get now self key = (Some value, self).
Proof.
  unfold cache.get. intros -> H. apply Z.ltb_lt in H. rewrite H. reflexivity.
Qed.

Lemma get_expired now self key (value : T) (expiry : Z) :
  cache._cache self !! key = Some (value, expiry) -> expiry <= now ->
  cache.get now self key
  = (None, cache.mkCache (cache.ttl self) (delete key (cache._cache self))).
Proof.
  unfold cache.get. intros -> H. apply Z.ltb_ge in H. rewrite H. reflexivity.
Qed.

(** A miss leaves no entry under the key; a hit leaves the cache as it
    was, with the value under the key. *)
Lemma get_outcome now self key :
  match cache.get now self key with
  | (None, self') => cache._cache self' !! key = None
  | (Some value, self') =>
      self' = self /\ exists expiry,
        cache._cache self !! key = Some (value, expiry) /\ now < expiry
  end.
Proof.
  unfold cache.get.
  destruct (cache._cache self !! key) as [[value expiry]|] eqn:E.
  - destruct (now <? expiry) eqn:Hlt.
    + split; [reflexivity|]. exists expiry. split; [reflexivity|].
      now apply Z.ltb_lt.
    + simpl. apply lookup_delete_eq.
  - exact E.
Qed.

Lemma get_ttl now self key :
  cache.ttl (snd (cache.get now self key)) = cache.ttl self.
Proof.
  unfold cache.get.
  destruct (cache._cache self !! key) as [[value expiry]|]; [|reflexivity].
  destruct (now <? expiry); reflexivity.
Qed.

(** [Cache.set] returns when the time to live converts to a float, and
    raises [OverflowError] when it does not. *)
Lemma set_returns (L : PyLib) now self key (value : T) (seconds : Z) :
  float_of_int L (cache.ttl self) = Some seconds ->
  cache.set L now self key value
  = Return (cache.mkCache (cache.ttl self)
              (<[key := (value, float_add L now seconds)]> (cache._cache self))).
Proof. unfold cache.set, cache.expiry_at. intros ->. reflexivity. Qed.

Lemma set_raises (L : PyLib) now self key (value : T) :
  float_of_int L (cache.ttl self) = None ->
  cache.set L now self key value
  = Raise (Exn OverflowError "int too large to convert to float").
Proof. unfold cache.set, cache.expiry_at. intros ->. reflexivity. Qed.

Lemma set_outcome (L : PyLib) now self key (value : T) :
  (exists expiry,
      cache.set L now self key value
      = Return (cache.mkCache (cache.ttl self)
                  (<[key := (value, expiry)]> (cache._cache self)))) \/
  cache.set L now self key value
  = Raise (Exn OverflowError "int too large to convert to float").
Proof.
  destruct (float_of_int L (cache.ttl self)) as [seconds|] eqn:E.
  - left. eexists. apply set_returns. exact E.
  - right. apply set_raises. exact E.
Qed.

Lemma set_lookup (L : PyLib) now self self' key (value : T) :
  cache.set L now self key value = Return self' ->
  exists expiry, cache._cache self' !! key = Some (value, expiry).
Proof.
  destruct (set_outcome L now self key value) as [[expiry H]|H];
    rewrite H; [|discriminate].
  intros [= <-]. exists expiry. simpl. apply lookup_insert_eq.
Qed.

Lemma set_ttl_same (L : PyLib) now self self' key (value : T) :
  cache.set L now self key value = Return self' ->
  cache.ttl self' = cache.ttl self.
Proof.
  destruct (set_outcome L now self key value) as [[expiry H]|H];
    rewrite H; [|discriminate].
  intros [= <-]. reflexivity.
Qed.
End cache_facts.

(** The two outcomes of the [Cache.set] that a hypothesis or the goal
    mentions. *)
Ltac set_cases_in H :=
  match type of H with
  | context [cache.set ?L ?now ?self ?key ?value] =>
      let Hs := fresh "Hset" in
      let expiry := fresh "expiry" in
      destruct (set_outcome L now self key value) as [[expiry Hs]|Hs];
      rewrite Hs in H
  end.

Ltac set_cases :=
  match goal with
  | |- context [cache.set ?L ?now ?self ?key ?value] =>
      let Hs := fresh "Hset" in
      let expiry := fresh "expiry" in
      destruct (set_outcome L now self key value) as [[expiry Hs]|Hs];
      rewrite Hs
  end.

Section cached_facts.
Context {S T Args : Type}.
Variable L : PyLib.
Variable time_time : M S Z.
Variable ref : cache.cache_ref S T.
Variable key_func : Args -> string.
Variable func : Args -> M S T.

(** The cache object is a part of the state of its own, reading the clock
    returns and leaves the cache alone, and so does the wrapped
    function. *)
Hypothesis load_store : forall c s, cache.load ref (cache.store ref c s) = c.
Hypothesis clock_returns :
  forall s, exists now s',
    time_time s = (Return now, s') /\ cache.load ref s' = cache.load ref s.
Hypothesis func_frame :
  forall args s r s', func args s = (r, s') ->
    cache.load ref s' = cache.load ref s.

Local Abbreviation cache_get := (cache.cache_get time_time ref).
Local Abbreviation cache_set := (cache.cache_set L time_time ref).
Local Abbreviation cached := (cache.cached L time_time ref key_func func).
Local Abbreviation entries s := (cache._cache (cache.load ref s)).

Lemma cache_get_absent s key :
  entries s !! key = None -> cache_get key s = (Return None, s).
Proof.
  intros H. unfold cache.cache_get, mbind, gets, cache.contains.
  rewrite H. reflexivity.
Qed.

(** [Cache.get] returns; after a miss the key has no entry, after a hit
    the value is under the key. *)
Lemma cache_get_outcome s key :
  exists r s', cache_get key s = (Return r, s') /\
    match r with
    | None => entries s' !! key = None
    | Some value => exists expiry, entries s' !! key = Some (value, expiry)
    end.
Proof.
  unfold cache.cache_get, mbind, gets, cache.contains, modify, ret.
  destruct (entries s !! key) as [[value expiry]|] eqn:E.
  - destruct (clock_returns s) as (now & s' & Hclock & Hsame).
    rewrite Hclock, Hsame.
    pose proof (get_outcome now (cache.load ref s) key) as Hout.
    destruct (cache.get now (cache.load ref s) key) as [[v|] self'].
    + do 2 eexists. split; [reflexivity|].
      destruct Hout as (-> & exp & Hexp & _).
      rewrite load_store. eauto.
    + do 2 eexists. split; [reflexivity|]. now rewrite load_store.
  - do 2 eexists. split; [reflexivity|]. exact E.
Qed.

(** [Cache.set] reads the clock; it stores the value, or raises
    [OverflowError] and leaves the entries as they were. *)
Lemma cache_set_outcome s key (value : T) :
  (exists s' expiry,
      cache_set key value s = (Return tt, s') /\
      entries s' !! key = Some (value, expiry)) \/
  (exists s',
      cache_set key value s
      = (Raise (Exn OverflowError "int too large to convert to float"), s') /\
      cache.load ref s' = cache.load ref s).
Proof.
  unfold cache.cache_set, mbind, gets, modify, lift_result.
  destruct (clock_returns s) as (now & s' & Hclock & Hsame).
  rewrite Hclock.
  destruct (set_outcome L now (cache.load ref s') key value) as [[expiry H]|H];
    rewrite H.
  - left. do 2 eexists. split; [reflexivity|].
    rewrite load_store. simpl. apply lookup_insert_eq.
  - right. eexists. split; [reflexivity|exact Hsame].
Qed.

(** With no entry under the key the wrapper calls the function, and
    stores what it returns. *)
Lemma cached_absent args s :
  entries s !! key_func args = None ->
  cached args s
  = (result <- func args ;; cache_set (key_func args) result ;;; ret result)%M s.
Proof.
  intros H. unfold cache.cached. unfold mbind at 1.
  rewrite (cache_get_absent s _ H). reflexivity.
Qed.

(** What one call of the wrapper does: it returns the cached value
    without calling the function, or calls the function and either stores
    and returns its value, or raises what the function raised in the
    state the function left. *)
Lemma cached_run args s r s1 :
  cache_get (key_func args) s = (Return r, s1) ->
  cached args s
  = match r with
    | Some value => (Return value, s1)
    | None =>
        (result <- func args ;; cache_set (key_func args) result ;;;
         ret result)%M s1
    end.
Proof.
  intros Hget. unfold cache.cached. unfold mbind at 1. rewrite Hget.
  destruct r; reflexivity.
Qed.

Lemma cached_outcome args s :
  (exists value s', cached args s = (Return value, s') /\
     exists expiry, entries s' !! key_func args = Some (value, expiry)) \/
  (exists e s', cached args s = (Raise e, s') /\
     entries s' !! key_func args = None /\
     exists s1, cache_get (key_func args) s = (Return None, s1) /\
       (func args s1 = (Raise e, s') \/
        exists result s2,
          func args s1 = (Return result, s2) /\
          cache_set (key_func args) result s2 = (Raise e, s') /\
          class_of e = OverflowError)).
Proof.
  destruct (cache_get_outcome s (key_func args)) as (r & s1 & Hget & Hr).
  rewrite (cached_run args s r s1 Hget). destruct r as [value|].
  - left. exists value, s1. split; [reflexivity|exact Hr].
  - unfold mbind at 1 3. destruct (func args s1) as [[result|e] s2] eqn:Hf.
    + unfold mbind.
      destruct (cache_set_outcome s2 (key_func args) result)
        as [(s3 & expiry & Hset & Hentry)|(s3 & Hset & Hsame)];
        rewrite Hset.
      * left. exists result, s3. split; [reflexivity|]. eauto.
      * right. do 2 eexists. split; [reflexivity|].
        split; [rewrite Hsame, (func_frame _ _ _ _ Hf); exact Hr|].
        exists s1. split; [exact Hget|]. right.
        exists result, s2. repeat split; assumption.
    + right. exists e, s2. split; [reflexivity|].
      split; [rewrite (func_frame _ _ _ _ Hf); exact Hr|].
      exists s1. split; [exact Hget|]. left. exact Hf.
Qed.

(** C7.  A [get] after the expiry instant of the entry is a miss and
    removes the entry; an entry under the key after a call of the cached
    wrapper holds the value that call returned; when the wrapped function
    raises, the wrapper raises the same exception in the state the function
    left, with no entry under the key; and with no entry under the key the
    wrapper calls the function again. *)
Theorem cache_expiry_and_failures :
  (forall now (self : cache.Cache T) key value expiry,
      cache._cache self !! key = Some (value, expiry) -> expiry < now ->
      cache.get now self key
      = (None, cache.mkCache (cache.ttl self) (delete key (cache._cache self)))
      /\ cache._cache (snd (cache.get now self key)) !! key = None)
  /\ (forall args s out s' value expiry,
      cached args s = (out, s') ->
      entries s' !! key_func args = Some (value, expiry) ->
      out = Return value)
  /\ (forall args s s1 e s2,
      cache_get (key_func args) s = (Return None, s1) ->
      func args s1 = (Raise e, s2) ->
      cached args s = (Raise e, s2) /\ entries s2 !! key_func args = None)
  /\ (forall args s,
      entries s !! key_func args = None ->
      cached args s
      = (result <- func args ;; cache_set (key_func args) result ;;;
         ret result)%M s).
Proof.
  repeat split.
  - apply (get_expired now self key value expiry); [assumption|lia].
  - rewrite (get_expired now self key value expiry) by (assumption || lia).
    simpl. apply lookup_delete_eq.
  - intros args s out s' value expiry Hrun Hentry.
    destruct (cached_outcome args s)
      as [(v & s1 & Hret & exp & Hv)|(e & s2 & Hraise & Hnone & _)].
    + rewrite Hret in Hrun. injection Hrun as <- <-.
      rewrite Hv in Hentry. congruence.
    + rewrite Hraise in Hrun. injection Hrun as <- <-. congruence.
  - rewrite (cached_run args s None s1 H). unfold mbind at 1.
    rewrite H0. reflexivity.
  - rewrite (func_frame _ _ _ _ H0).
    destruct (cache_get_outcome s (key_func args)) as (r & s1' & Hget & Hr).
    rewrite H in Hget. injection Hget as <- <-. exact Hr.
  - intros args s. apply cached_absent.
Qed.
End cached_facts.

(** * How a computation changes the state *)

Section preserves_facts.
Context {S : Type} (R : S -> S -> Prop) `{!PreOrder R}.

Lemma preserves_ret {A : Type} (a : A) : preserves R (ret a).
Proof. intros s r s' H. injection H as _ <-. reflexivity. Qed.

Lemma preserves_mraise {A : Type} (e : exn) : preserves R (@mraise S A e).
Proof. intros s r s' H. injection H as _ <-. reflexivity. Qed.

Lemma preserves_lift_result {A : Type} (x : result A) :
  preserves R (@lift_result S A x).
Proof. intros s r s' H. injection H as _ <-. reflexivity. Qed.

Lemma preserves_gets {A : Type} (f : S -> A) : preserves R (gets f).
Proof. intros s r s' H. injection H as _ <-. reflexivity. Qed.

Lemma preserves_modify (f : S -> S) :
  (forall s, R s (f s)) -> preserves R (modify f).
Proof. intros Hf s r s' H. injection H as _ <-. apply Hf. Qed.

Lemma preserves_mbind {A B : Type} (c : M S A) (k : A -> M S B) :
  preserves R c -> (forall a, preserves R (k a)) -> preserves R (mbind c k).
Proof.
  intros Hc Hk s r s' H. unfold mbind in H.
  destruct (c s) as [[a|e] s1] eqn:E.
  - transitivity s1; [exact (Hc _ _ _ E)|exact (Hk _ _ _ _ H)].
  - injection H as _ <-. exact (Hc _ _ _ E).
Qed.

Lemma select_handler_In {H : Type} (e : exn) (clauses : list (clause H))
    (h : H) :
  select_handler e clauses = Some h -> exists cs, In (cs, h) clauses.
Proof.
  induction clauses as [|[cs h'] rest IH]; simpl; [discriminate|].
  destruct (clause_matches e (cs, h')).
  - intros [= <-]. exists cs. now left.
  - intros Hsel. destruct (IH Hsel) as [cs' Hin]. exists cs'. now right.
Qed.

Lemma preserves_mtry_except {A : Type} (body : M S A)
    (clauses : list (clause (exn -> M S A))) :
  preserves R body ->
  (forall cs h, In (cs, h) clauses -> forall e, preserves R (h e)) ->
  preserves R (mtry_except body clauses).
Proof.
  intros Hb Hh s r s' H. unfold mtry_except in H.
  destruct (body s) as [[a|e] s1] eqn:E.
  - injection H as _ <-. exact (Hb _ _ _ E).
  - destruct (select_handler e clauses) as [h|] eqn:Hsel.
    + destruct (select_handler_In _ _ _ Hsel) as [cs Hin].
      transitivity s1; [exact (Hb _ _ _ E)|exact (Hh _ _ Hin _ _ _ _ H)].
    + injection H as _ <-. exact (Hb _ _ _ E).
Qed.
End preserves_facts.

(** The wrapper of [cached] changes the state as the clock, the wrapped
    function and a store of a cache with the same time to live do. *)
Lemma preserves_cached {S T Args : Type} (R : S -> S -> Prop) `{!PreOrder R}
    (L : PyLib) (time_time : M S Z) (ref : cache.cache_ref S T)
    (key_func : Args -> string) (func : Args -> M S T) (args : Args) :
  preserves R time_time ->
  preserves R (func args) ->
  (forall s c, cache.ttl c = cache.ttl (cache.load ref s) ->
               R s (cache.store ref c s)) ->
  preserves R (cache.cached L time_time ref key_func func args).
Proof.
  intros Hclock Hfunc Hstore.
  assert (Hget : forall key, preserves R (cache.cache_get time_time ref key)).
  { intros key s r s' H. unfold cache.cache_get, mbind, gets in H.
    destruct (cache.contains (cache.load ref s) key).
    - destruct (time_time s) as [[now|e] s1] eqn:E.
      + pose proof (get_ttl now (cache.load ref s1) key) as Httl.
        destruct (cache.get now (cache.load ref s1) key) as [v self'].
        unfold modify, ret in H. injection H as _ <-.
        transitivity s1; [exact (Hclock _ _ _ E)|]. apply Hstore. exact Httl.
      + injection H as _ <-. exact (Hclock _ _ _ E).
    - injection H as _ <-. reflexivity. }
  assert (Hset : forall key v,
             preserves R (cache.cache_set L time_time ref key v)).
  { intros key v s r s' H.
    unfold cache.cache_set, mbind, gets, modify, lift_result in H.
    destruct (time_time s) as [[now|e] s1] eqn:E.
    - destruct (cache.set L now (cache.load ref s1) key v) as [self'|e]
        eqn:Hself; injection H as _ <-.
      + transitivity s1; [exact (Hclock _ _ _ E)|]. apply Hstore.
        exact (set_ttl_same _ _ _ _ _ _ Hself).
      + exact (Hclock _ _ _ E).
    - injection H as _ <-. exact (Hclock _ _ _ E). }
  unfold cache.cached. apply preserves_mbind; [assumption|apply Hget|].
  intros [v|].
  - now apply preserves_ret.
  - apply preserves_mbind; [assumption|assumption|]. intros v.
    apply preserves_mbind; [assumption|apply Hset|]. intros _.
    now apply preserves_ret.
Qed.

Lemma preserves_global (R : State -> State -> Prop) {A : Type}
    (c : M State A) :
  preserves R c -> preserves (on_state R) (api.global c).
Proof.
  intros Hc [s r0] r [s' r0'] H. unfold api.global in H. simpl in H.
  destruct (c s) as [x s1] eqn:E. injection H as _ <- _.
  exact (Hc _ _ _ E).
Qed.

(** [global c] leaves the response alone. *)
Lemma global_response {A : Type} (c : M State A) (f : api.Frame)
    (r : result A) (f' : api.Frame) :
  api.global c f = (r, f') -> snd f' = snd f /\ c (fst f) = (r, fst f').
Proof.
  destruct f as [s r0]. unfold api.global. simpl.
  destruct (c s) as [x s1]. intros [= <- <-]. split; reflexivity.
Qed.

(** * The steps of the package *)

Lemma try_body_unfold (L : PyLib) (W : World) (domain : string)
    (options : api.DomainSaleOptions) (f : api.Frame) :
  api.try_body L W domain options f
  = (looked_up <- lookup_phase L W domain options ;;
     after_lookup L W domain options looked_up)%M f.
Proof.
  unfold api.try_body, lookup_phase, after_lookup, mbind.
  destruct (api.global (resolver.__init__ W (api.timeout options)) f)
    as [[resolver|e] f1]; [|reflexivity].
  destruct (api.global (api._lookup_txt_records L W (resolver, domain)) f1)
    as [[[txt_records sources]|e] f2]; reflexivity.
Qed.

Section state_steps.
Variable L : PyLib.
Variable W : World.
Context (R : State -> State -> Prop) `{!PreOrder R}.

Lemma read_clock_preserves :
  (forall s, R s (tick_clock s)) -> preserves R (read_clock W).
Proof. intros Ht s r s' H. injection H as _ <-. apply Ht. Qed.

Lemma time_time_preserves :
  (forall s, R s (tick_clock s)) -> preserves R (time_time W).
Proof.
  intros Ht. unfold time_time. apply preserves_mbind; [assumption| |].
  - now apply read_clock_preserves.
  - intros now. now apply preserves_ret.
Qed.

Lemma datetime_now_date_preserves :
  (forall s, R s (tick_clock s)) -> preserves R (datetime_now_date W).
Proof.
  intros Ht. unfold datetime_now_date. apply preserves_mbind; [assumption| |].
  - now apply read_clock_preserves.
  - intros now. now apply preserves_ret.
Qed.

Lemma new_list_preserves (l : list string) :
  (forall s l, R s (set_heap (heap s ++ [l])%list s)) ->
  preserves R (new_list l).
Proof. intros Hn s r s' H. injection H as _ <-. apply Hn. Qed.

Lemma resolver_init_preserves (timeout : Z) :
  (forall s, R s (count_resolver s)) ->
  preserves R (resolver.__init__ W timeout).
Proof. intros Hc s r s' H. injection H as _ <-. apply Hc. Qed.

Lemma lookup_for_sale_record_preserves (self : resolver.DNSSecResolver)
    (domain : string) :
  (forall s, R s (count_dns_query s)) ->
  (forall s l, R s (set_heap (heap s ++ [l])%list s)) ->
  preserves R (resolver.lookup_for_sale_record L W self domain).
Proof.
  intros Hq Hn. unfold resolver.lookup_for_sale_record.
  apply preserves_mtry_except; [assumption| |].
  - apply preserves_mbind; [assumption| |intros answers].
    + unfold resolver._lookup_with_dnssec.
      apply preserves_mtry_except; [assumption| |].
      * intros s r s' H. injection H as _ <-. apply Hq.
      * intros cs h Hin e. simpl in Hin.
        destruct Hin as [[= <- <-]|[[= <- <-]|[[= <- <-]|[[= <- <-]|[]]]]];
          now apply preserves_mraise.
    + apply preserves_mbind; [assumption| |intros txt_records].
      * now apply preserves_lift_result.
      * apply preserves_mbind; [assumption| |intros sources].
        -- now apply new_list_preserves.
        -- now apply preserves_ret.
  - intros cs h Hin e. simpl in Hin.
    destruct Hin
      as [[= <- <-]|[[= <- <-]|[[= <- <-]|[[= <- <-]|[[= <- <-]|[]]]]]];
      try now apply preserves_mraise.
    + apply preserves_mbind; [assumption| |intros sources].
      * now apply new_list_preserves.
      * now apply preserves_ret.
    + apply preserves_mbind; [assumption| |intros sources].
      * now apply new_list_preserves.
      * now apply preserves_ret.
Qed.

Lemma lookup_txt_records_preserves (args : resolver.DNSSecResolver * string) :
  (forall s, R s (tick_clock s)) ->
  (forall s, R s (count_dns_query s)) ->
  (forall s l, R s (set_heap (heap s ++ [l])%list s)) ->
  (forall s c, cache.ttl c = cache.ttl (dns_cache s) -> R s (set_dns_cache c s)) ->
  preserves R (api._lookup_txt_records L W args).
Proof.
  intros Ht Hq Hn Hs. unfold api._lookup_txt_records.
  apply preserves_cached; [assumption| | |exact Hs].
  - now apply time_time_preserves.
  - now apply lookup_for_sale_record_preserves.
Qed.

Lemma check_rdap_status_preserves (args : rdap.RDAPClient * string) :
  (forall s, R s (tick_clock s)) ->
  (forall s, R s (count_rdap_query s)) ->
  (forall s c, cache.ttl c = cache.ttl (rdap_cache s) -> R s (set_rdap_cache c s)) ->
  preserves R (api._check_rdap_status L W args).
Proof.
  intros Ht Hq Hs. unfold api._check_rdap_status.
  apply preserves_cached; [assumption| | |exact Hs].
  - now apply time_time_preserves.
  - intros s r s' H. injection H as _ <-. apply Hq.
Qed.
End state_steps.

(** * Frames *)

#[local] Instance on_state_preorder (R : State -> State -> Prop)
  `{!PreOrder R} : PreOrder (on_state R).
Proof.
  split.
  - intros f. unfold on_state. reflexivity.
  - intros f g h Hfg Hgh. unfold on_state in *. now transitivity (fst g).
Qed.

#[local] Instance on_resp_preorder
  (Q : api.DomainSaleResponse -> api.DomainSaleResponse -> Prop)
  `{!PreOrder Q} : PreOrder (on_resp Q).
Proof.
  split.
  - intros f. unfold on_resp. reflexivity.
  - intros f g h Hfg Hgh. unfold on_resp in *. now transitivity (snd g).
Qed.

#[local] Instance errors_added_preorder : PreOrder errors_added.
Proof.
  split.
  - intros [d fs p u c e src errs]. exists []. simpl. now rewrite app_nil_r.
  - intros r1 r2 r3 [m1 ->] [m2 ->]. exists (m1 ++ m2)%list. simpl.
    now rewrite app_assoc.
Qed.

Lemma errors_added_append (msg : string) (r : api.DomainSaleResponse) :
  errors_added r (api.append_error msg r).
Proof. exists [msg]. reflexivity. Qed.

Lemma on_response_preserves_state (R : State -> State -> Prop) `{!PreOrder R}
    (g : api.DomainSaleResponse -> api.DomainSaleResponse) :
  preserves (on_state R) (api.on_response g).
Proof.
  intros [s r0] r f' H. injection H as _ <-. unfold on_state. reflexivity.
Qed.

Lemma on_response_preserves_resp
    (Q : api.DomainSaleResponse -> api.DomainSaleResponse -> Prop)
    (g : api.DomainSaleResponse -> api.DomainSaleResponse) :
  (forall r, Q r (g r)) -> preserves (on_resp Q) (api.on_response g).
Proof. intros Hg [s r0] r f' H. injection H as _ <-. apply Hg. Qed.

Lemma global_preserves_resp
    (Q : api.DomainSaleResponse -> api.DomainSaleResponse -> Prop)
    `{!PreOrder Q} {A : Type} (c : M State A) :
  preserves (on_resp Q) (api.global c).
Proof.
  intros f r f' H. destruct (global_response c f r f' H) as [Hr _].
  unfold on_resp. rewrite Hr. reflexivity.
Qed.

Section frame_steps.
Variable L : PyLib.
Variable W : World.

(** The loop over the texts reads the clock and adds errors. *)
Lemma try_record_preserves_state (R : State -> State -> Prop) `{!PreOrder R}
    (txt_record : string) :
  (forall s, R s (tick_clock s)) ->
  preserves (on_state R) (api.try_record L W txt_record).
Proof.
  intros Ht. unfold api.try_record.
  apply preserves_mtry_except; [typeclasses eauto| |].
  - apply preserves_mbind; [typeclasses eauto| |intros today].
    + apply preserves_global. now apply datetime_now_date_preserves.
    + apply preserves_mbind; [typeclasses eauto| |intros rd].
      * apply preserves_lift_result. typeclasses eauto.
      * apply preserves_ret. typeclasses eauto.
  - intros cs h Hin e. simpl in Hin. destruct Hin as [[= <- <-]|[]].
    apply preserves_mbind; [typeclasses eauto| |intros _].
    + now apply on_response_preserves_state.
    + apply preserves_ret. typeclasses eauto.
Qed.

Lemma try_record_preserves_resp (txt_record : string) :
  preserves (on_resp errors_added) (api.try_record L W txt_record).
Proof.
  unfold api.try_record.
  apply preserves_mtry_except; [typeclasses eauto| |].
  - apply preserves_mbind; [typeclasses eauto| |intros today].
    + apply global_preserves_resp. typeclasses eauto.
    + apply preserves_mbind; [typeclasses eauto| |intros rd].
      * apply preserves_lift_result. typeclasses eauto.
      * apply preserves_ret. typeclasses eauto.
  - intros cs h Hin e. simpl in Hin. destruct Hin as [[= <- <-]|[]].
    apply preserves_mbind; [typeclasses eauto| |intros _].
    + apply on_response_preserves_resp. apply errors_added_append.
    + apply preserves_ret. typeclasses eauto.
Qed.

Lemma process_records_preserves (RF : api.Frame -> api.Frame -> Prop)
    `{!PreOrder RF} (txt_records : list string) :
  (forall txt_record, preserves RF (api.try_record L W txt_record)) ->
  forall record_data,
    preserves RF (api.process_records L W txt_records record_data).
Proof.
  intros Hrec. induction txt_records as [|txt rest IH]; intros record_data; simpl.
  - now apply preserves_ret.
  - apply preserves_mbind; [assumption|apply Hrec|].
    intros [rd|[]].
    + destruct (truthy rd); [now apply preserves_ret|apply IH].
    + apply IH.
Qed.

Lemma rdap_step_preserves_state (R : State -> State -> Prop) `{!PreOrder R}
    (domain : string) (options : api.DomainSaleOptions) (sources : nat) :
  (forall s, R s (tick_clock s)) ->
  (forall s, R s (count_rdap_query s)) ->
  (forall s c, cache.ttl c = cache.ttl (rdap_cache s) -> R s (set_rdap_cache c s)) ->
  (forall s ref x,
      R s (set_heap (alter (fun l => (l ++ [x])%list) ref (heap s)) s)) ->
  preserves (on_state R) (api.rdap_step L W domain options sources).
Proof.
  intros Ht Hq Hs Ha. unfold api.rdap_step.
  destruct (api.enable_rdap_check options);
    [|apply preserves_ret; typeclasses eauto].
  apply preserves_mtry_except; [typeclasses eauto| |].
  - apply preserves_mbind; [typeclasses eauto| |intros b].
    + apply preserves_global. now apply check_rdap_status_preserves.
    + apply preserves_mbind; [typeclasses eauto| |intros _].
      * destruct b; [|apply preserves_ret; typeclasses eauto].
        apply preserves_global. apply preserves_modify. intros s. apply Ha.
      * apply preserves_ret. typeclasses eauto.
  - intros cs h Hin e. simpl in Hin. destruct Hin as [[= <- <-]|[]].
    apply preserves_mbind; [typeclasses eauto| |intros _].
    + now apply on_response_preserves_state.
    + apply preserves_ret. typeclasses eauto.
Qed.

Lemma rdap_step_preserves_resp (domain : string)
    (options : api.DomainSaleOptions) (sources : nat) :
  preserves (on_resp errors_added) (api.rdap_step L W domain options sources).
Proof.
  unfold api.rdap_step.
  destruct (api.enable_rdap_check options);
    [|apply preserves_ret; typeclasses eauto].
  apply preserves_mtry_except; [typeclasses eauto| |].
  - apply preserves_mbind; [typeclasses eauto| |intros b].
    + apply global_preserves_resp. typeclasses eauto.
    + apply preserves_mbind; [typeclasses eauto| |intros _].
      * destruct b; [|apply preserves_ret; typeclasses eauto].
        apply global_preserves_resp. typeclasses eauto.
      * apply preserves_ret. typeclasses eauto.
  - intros cs h Hin e. simpl in Hin. destruct Hin as [[= <- <-]|[]].
    apply preserves_mbind; [typeclasses eauto| |intros _].
    + apply on_response_preserves_resp. apply errors_added_append.
    + apply preserves_ret. typeclasses eauto.
Qed.

Lemma lookup_phase_preserves_state (R : State -> State -> Prop)
    `{!PreOrder R} (domain : string) (options : api.DomainSaleOptions) :
  (forall s, R s (tick_clock s)) ->
  (forall s, R s (count_resolver s)) ->
  (forall s, R s (count_dns_query s)) ->
  (forall s l, R s (set_heap (heap s ++ [l])%list s)) ->
  (forall s c, cache.ttl c = cache.ttl (dns_cache s) -> R s (set_dns_cache c s)) ->
  preserves (on_state R) (lookup_phase L W domain options).
Proof.
  intros Ht Hr Hq Hn Hs. unfold lookup_phase.
  apply preserves_mbind; [typeclasses eauto| |intros resolver].
  - apply preserves_global. now apply resolver_init_preserves.
  - apply preserves_global. now apply lookup_txt_records_preserves.
Qed.

Lemma lookup_phase_response (domain : string)
    (options : api.DomainSaleOptions) (f : api.Frame)
    (r : result (list string * nat)) (f' : api.Frame) :
  lookup_phase L W domain options f = (r, f') -> snd f' = snd f.
Proof.
  unfold lookup_phase, mbind. intros H.
  destruct (api.global (resolver.__init__ W (api.timeout options)) f)
    as [[resolver|e] f1] eqn:E1.
  - apply global_response in E1 as [E1 _]. apply global_response in H as [H _].
    congruence.
  - apply global_response in E1 as [E1 _]. injection H as _ <-. exact E1.
Qed.
End frame_steps.

(** * The body of [get_domain_sale_status], step by step *)

Section body_facts.
Variable L : PyLib.
Variable W : World.

(** What the validator returns is [None] or a dictionary. *)
Lemma extract_returns (today : datetime.date) (txt_record : string)
    (v : pyval) :
  validator.extract_and_validate_record L today txt_record = Return v ->
  v = PNone \/ exists d, v = PDict d.
Proof.
  unfold validator.extract_and_validate_record.
  destruct (validator.MAX_TXT_SIZE <? String.length txt_record)%nat;
    [discriminate|].
  destruct (json.strip_prefix validator.VERSION_TAG txt_record)
    as [json_content|]; [|intros [= <-]; now left].
  intros H. apply try_except_Return in H.
  - apply bind_Return_inv in H as (record & _ & H).
    apply bind_Return_inv in H as ([] & Hschema & H).
    apply bind_Return_inv in H as ([] & _ & H).
    injection H as <-.
    destruct record as [| | | | |?|d]; try discriminate. right. eauto.
  - intros cs h Hin e. simpl in Hin.
    destruct Hin as [[= <- <-]|[[= <- <-]|[[= <- <-]|[]]]]; eexists;
      reflexivity.
Qed.

(** One turn of the loop. *)
Lemma try_record_eq (txt_record : string) (s : State)
    (r0 : api.DomainSaleResponse) :
  api.try_record L W txt_record (s, r0)
  = match validator.extract_and_validate_record L
            (today (clock W (clock_reads s))) txt_record with
    | Return record_data => (Return (inl record_data), (tick_clock s, r0))
    | Raise e =>
        if existsb (issubclass (class_of e))
             [SchemaValidationError; FieldValidationError; SizeExceededError]
        then (Return (inr tt), (tick_clock s, api.append_error (str e) r0))
        else (Raise e, (tick_clock s, r0))
    end.
Proof.
  unfold api.try_record, mtry_except, mbind, api.global, datetime_now_date,
    mbind, read_clock, ret, lift_result. simpl.
  destruct (validator.extract_and_validate_record L _ txt_record) as [rd|e];
    [reflexivity|].
  destruct e as [cls msg]. destruct cls; reflexivity.
Qed.

(** A true value that the loop leaves in [record_data] is one the validator
    returned for one of the texts. *)
Lemma process_records_accepts (txt_records : list string) :
  forall (record_data0 : pyval) (f : api.Frame) (record_data : pyval)
         (f' : api.Frame),
    api.process_records L W txt_records record_data0 f
    = (Return record_data, f') ->
    truthy record_data = true ->
    record_data = record_data0 \/
    exists txt_record today,
      In txt_record txt_records /\
      validator.extract_and_validate_record L today txt_record
      = Return record_data.
Proof.
  induction txt_records as [|txt rest IH]; intros rd0 [s r0] rd f' H Ht.
  - simpl in H. injection H as <- _. now left.
  - simpl in H. unfold mbind in H. rewrite try_record_eq in H.
    destruct (validator.extract_and_validate_record L _ txt) as [rd1|e] eqn:E.
    + destruct (truthy rd1) eqn:Ht1.
      * injection H as <- _. right. exists txt. eexists. split; [now left|exact E].
      * destruct (IH _ _ _ _ H Ht) as [->|(t & d & Hin & Hex)].
        -- congruence.
        -- right. exists t, d. split; [now right|exact Hex].
    + destruct (existsb _ _).
      * destruct (IH _ _ _ _ H Ht) as [->|(t & d & Hin & Hex)].
        -- now left.
        -- right. exists t, d. split; [now right|exact Hex].
      * discriminate.
Qed.

(** The RDAP step. *)
Lemma rdap_step_eq (domain : string) (options : api.DomainSaleOptions)
    (sources : nat) (s : State) (r0 : api.DomainSaleResponse) :
  api.rdap_step L W domain options sources (s, r0)
  = if api.enable_rdap_check options then
      match api._check_rdap_status L W
              (rdap.__init__ (api.timeout options), domain) s with
      | (Return true, s') =>
          (Return true,
           (set_heap (alter (fun l => (l ++ ["rdap"])%list) sources (heap s')) s',
            r0))
      | (Return false, s') => (Return false, (s', r0))
      | (Raise e, s') =>
          if existsb (issubclass (class_of e)) [RDAPError; TimeoutError]
          then (Return false,
                (s', api.append_error ("RDAP check failed: " +:+ str e) r0))
          else (Raise e, (s', r0))
      end
    else (Return false, (s, r0)).
Proof.
  unfold api.rdap_step. destruct (api.enable_rdap_check options); [|reflexivity].
  unfold mtry_except, mbind, api.global. simpl.
  destruct (api._check_rdap_status L W _ s) as [[[|]|e] s']; try reflexivity.
  destruct e as [cls msg]. destruct cls; reflexivity.
Qed.

(** The block after the lookup, case by case. *)
Lemma after_lookup_cases (domain : string) (options : api.DomainSaleOptions)
    (txt_records : list string) (sources : nat) (f1 : api.Frame)
    (out : result unit) (f' : api.Frame) :
  after_lookup L W domain options (txt_records, sources) f1 = (out, f') ->
  exists loop_result f2,
    api.process_records L W txt_records PNone f1 = (loop_result, f2) /\
    match loop_result with
    | Raise e => out = Raise e /\ f' = f2
    | Return record_data =>
        if truthy record_data then
          exists d, record_data = PDict d /\
          (exists txt_record today,
              In txt_record txt_records /\
              validator.extract_and_validate_record L today txt_record
              = Return record_data) /\
          exists rdap_result f3,
            api.rdap_step L W domain options sources f2 = (rdap_result, f3) /\
            match rdap_result with
            | Raise e => out = Raise e /\ f' = f3
            | Return rdap_for_sale =>
                out = Return tt /\
                f' = if api.enable_rdap_check options && negb rdap_for_sale
                     then f3
                     else (fst f3,
                           api.set_for_sale
                             (dict_get_default "price" d)
                             (dict_get_default "url" d)
                             (dict_get_default "contact" d)
                             (dict_get_default "expires" d)
                             sources (snd f3))
            end
        else out = Return tt /\ f' = f2
    end.
Proof.
  unfold after_lookup. unfold mbind at 1. intros H.
  destruct (api.process_records L W txt_records PNone f1)
    as [[record_data|e] f2] eqn:Hloop.
  - exists (Return record_data), f2. split; [reflexivity|].
    destruct (truthy record_data) eqn:Ht; simpl in H.
    + destruct (process_records_accepts _ _ _ _ _ Hloop Ht)
        as [->|(txt & day & Hin & Hex)]; [discriminate|].
      destruct (extract_returns _ _ _ Hex) as [->|[d ->]]; [discriminate|].
      exists d. split; [reflexivity|]. split; [eauto|].
      unfold mbind at 1 in H.
      destruct (api.rdap_step L W domain options sources f2)
        as [[b|e] f3] eqn:Hrdap.
      * exists (Return b), f3. split; [reflexivity|].
        destruct (api.enable_rdap_check options && negb b).
        -- injection H as <- <-. split; reflexivity.
        -- unfold mbind, lift_result, api.get_method, api.on_response, modify
             in H. simpl in H. injection H as <- <-. split; reflexivity.
      * exists (Raise e), f3. split; [reflexivity|].
        injection H as <- <-. split; reflexivity.
    + injection H as <- <-. split; reflexivity.
  - exists (Raise e), f2. split; [reflexivity|].
    injection H as <- <-. split; reflexivity.
Qed.
End body_facts.

(** * One call of [get_domain_sale_status] *)

Section call_facts.
Variable L : PyLib.
Variable W : World.

(** The call returns the response of the frame the [try] block left, with
    the text of the exception added when the block raised. *)
Lemma call_eq (domain : string) (options : option api.DomainSaleOptions)
    (s : State) :
  api.get_domain_sale_status L W domain options s
  = match api.try_body L W domain (options_of options)
            (api.update_cache_ttl (options_of options) s,
             api.new_response domain) with
    | (Return _, (s', response)) => (Return response, s')
    | (Raise e, (s', response)) =>
        (Return (api.append_error (recorded_text e) response), s')
    end.
Proof.
  unfold api.get_domain_sale_status, options_of, mtry_except.
  destruct (api.try_body L W domain _ _) as [[[]|e] [s' response]];
    [reflexivity|].
  destruct e as [cls msg]. unfold recorded_text.
  destruct cls; reflexivity.
Qed.

Lemma after_lookup_preserves (R : State -> State -> Prop) `{!PreOrder R}
    (domain : string) (options : api.DomainSaleOptions)
    (looked_up : list string * nat) :
  step_closed R ->
  preserves (on_state R) (after_lookup L W domain options looked_up).
Proof.
  intros HR. destruct looked_up as [txt_records sources]. unfold after_lookup.
  apply preserves_mbind; [typeclasses eauto| |intros record_data].
  - apply process_records_preserves; [typeclasses eauto|].
    intros txt. apply try_record_preserves_state; [assumption|apply HR].
  - destruct (negb (truthy record_data));
      [apply preserves_ret; typeclasses eauto|].
    apply preserves_mbind; [typeclasses eauto| |intros b].
    + apply rdap_step_preserves_state; [assumption|apply HR..].
    + destruct (api.enable_rdap_check options && negb b);
        [apply preserves_ret; typeclasses eauto|].
      repeat (apply preserves_mbind;
              [typeclasses eauto
              |apply preserves_lift_result; typeclasses eauto
              |intros ?]).
      now apply on_response_preserves_state.
Qed.

Lemma try_body_preserves (R : State -> State -> Prop) `{!PreOrder R}
    (domain : string) (options : api.DomainSaleOptions) :
  step_closed R ->
  preserves (on_state R) (api.try_body L W domain options).
Proof.
  intros HR f r f' H. rewrite try_body_unfold in H. revert f r f' H.
  apply preserves_mbind; [typeclasses eauto| |intros looked_up].
  - apply lookup_phase_preserves_state; [assumption|apply HR..].
  - now apply after_lookup_preserves.
Qed.

(** A relation that holds across the steps holds from the state with the
    time to live updated to the state the call leaves. *)
Lemma call_preserves (R : State -> State -> Prop) `{!PreOrder R}
    (domain : string) (options : option api.DomainSaleOptions)
    (s : State) (r : result api.DomainSaleResponse) (s' : State) :
  step_closed R ->
  api.get_domain_sale_status L W domain options s = (r, s') ->
  R (api.update_cache_ttl (options_of options) s) s'.
Proof.
  intros HR. rewrite call_eq.
  destruct (api.try_body L W domain _ _) as [[[]|e] [s1 response]] eqn:E;
    intros [= _ <-];
    exact (try_body_preserves R domain _ HR _ _ _ E).
Qed.
End call_facts.

#[local] Instance same_ttl_preorder : PreOrder same_ttl.
Proof.
  split.
  - intros s. split; reflexivity.
  - intros a b c [H1 H2] [H3 H4]. split; congruence.
Qed.

Lemma same_ttl_steps : step_closed same_ttl.
Proof.
  split; intros; split; simpl; try reflexivity; congruence.
Qed.

(** C2.  Every call returns a response.  An exception that leaves the
    [try] block is recorded: the response returned is the one the block
    left with the text of the handler added at the end of its errors, and
    nothing else changed.  An [RDAPError] or [TimeoutError] of the RDAP
    check is recorded by the RDAP step in the same way, under the text
    ["RDAP check failed: ..."], and the step returns. *)
Theorem never_raises (L : PyLib) (W : World) (domain : string)
    (options : option api.DomainSaleOptions) (s : State) :
  exists response s',
    api.get_domain_sale_status L W domain options s = (Return response, s')
    /\ (forall e f,
           api.try_body L W domain (options_of options)
             (api.update_cache_ttl (options_of options) s,
              api.new_response domain) = (Raise e, f) ->
           s' = fst f /\
           response
           = api.mkResponse (api.domain (snd f)) (api.for_sale (snd f))
               (api.price (snd f)) (api.url (snd f)) (api.contact (snd f))
               (api.expires (snd f)) (api.source (snd f))
               (api.errors (snd f) ++ [recorded_text e])%list /\
           In (recorded_text e) (api.errors response))
    /\ (forall sources s0 r0 e s1,
           api.enable_rdap_check (options_of options) = true ->
           api._check_rdap_status L W
             (rdap.__init__ (api.timeout (options_of options)), domain) s0
           = (Raise e, s1) ->
           class_of e = RDAPError \/ class_of e = TimeoutError ->
           api.rdap_step L W domain (options_of options) sources (s0, r0)
           = (Return false,
              (s1,
               api.mkResponse (api.domain r0) (api.for_sale r0) (api.price r0)
                 (api.url r0) (api.contact r0) (api.expires r0) (api.source r0)
                 (api.errors r0 ++ ["RDAP check failed: " +:+ str e])%list))).
Proof.
  rewrite call_eq.
  destruct (api.try_body L W domain _ _) as [[[]|e] [s1 response]] eqn:E.
  - do 2 eexists. split; [reflexivity|]. split; [discriminate|].
    intros sources s0 r0 e s2 Hen Hcheck Hcls.
    rewrite rdap_step_eq, Hen, Hcheck.
    destruct Hcls as [-> | ->]; reflexivity.
  - do 2 eexists. split; [reflexivity|]. split.
    + intros e' f [= <- <-]. split; [reflexivity|]. split; [reflexivity|].
      unfold api.append_error. cbn [api.errors snd].
      apply in_or_app. right. left. reflexivity.
    + intros sources s0 r0 e' s2 Hen Hcheck Hcls.
      rewrite rdap_step_eq, Hen, Hcheck.
      destruct Hcls as [-> | ->]; reflexivity.
Qed.

Lemma call_ttl (L : PyLib) (W : World) (domain : string)
    (options : option api.DomainSaleOptions) (s : State) :
  same_ttl (api.update_cache_ttl (options_of options) s)
           (snd (api.get_domain_sale_status L W domain options s)).
Proof.
  destruct (api.get_domain_sale_status L W domain options s) as [r s'] eqn:E.
  exact (call_preserves L W same_ttl domain options s r s' same_ttl_steps E).
Qed.

Lemma default_ttl_calls (L : PyLib) (W : World)
    (calls : list (string * option api.DomainSaleOptions)) :
  Forall (fun call => api.cache_ttl (options_of (snd call))
                      = api.DEFAULT_CACHE_TTL) calls ->
  forall s, same_ttl s (after_calls L W calls s).
Proof.
  induction 1 as [|[domain options] rest Hd _ IH]; intros s; simpl.
  - reflexivity.
  - etransitivity; [|apply IH].
    pose proof (call_ttl L W domain options s) as Hcall.
    unfold api.update_cache_ttl in Hcall. simpl in Hd. rewrite Hd in Hcall.
    exact Hcall.
Qed.

(** C10.  A call whose [cache_ttl] is not the default sets the time to
    live of both caches to it, and the value stays through every later call
    that passes the default [cache_ttl]: none of them puts 300 back. *)
Theorem cache_ttl_sticks (L : PyLib) (W : World) (domain : string)
    (options : api.DomainSaleOptions)
    (later : list (string * option api.DomainSaleOptions)) (s : State) :
  api.cache_ttl options <> api.DEFAULT_CACHE_TTL ->
  Forall (fun call => api.cache_ttl (options_of (snd call))
                      = api.DEFAULT_CACHE_TTL) later ->
  cache.ttl (dns_cache
               (snd (api.get_domain_sale_status L W domain (Some options) s)))
  = api.cache_ttl options
  /\ cache.ttl (rdap_cache
               (snd (api.get_domain_sale_status L W domain (Some options) s)))
     = api.cache_ttl options
  /\ cache.ttl (dns_cache
               (after_calls L W later
                  (snd (api.get_domain_sale_status L W domain (Some options) s))))
     = api.cache_ttl options
  /\ cache.ttl (rdap_cache
               (after_calls L W later
                  (snd (api.get_domain_sale_status L W domain (Some options) s))))
     = api.cache_ttl options.
Proof.
  intros Hne Hlater.
  pose proof (call_ttl L W domain (Some options) s) as [Hd Hr].
  unfold api.update_cache_ttl, options_of in Hd, Hr. simpl in Hd, Hr.
  apply Z.eqb_neq in Hne. rewrite Hne in Hd, Hr. simpl in Hd, Hr.
  pose proof (default_ttl_calls L W later Hlater
                (snd (api.get_domain_sale_status L W domain (Some options) s)))
    as [Hd' Hr'].
  repeat split; congruence.
Qed.

(** * The lookup through the cache *)

Section lookup_facts.
Variable L : PyLib.
Variable W : World.

Lemma collect_txt_raises (answers : list (list string)) :
  forall (txt_records : list string) (e : exn),
    resolver.collect_txt L answers txt_records = Raise e ->
    class_of e = UnicodeDecodeError.
Proof.
  induction answers as [|rdata rest IH]; intros txts e; simpl; [discriminate|].
  unfold resolver.decode_utf8.
  destruct (resolver.utf8_valid (String.concat "" rdata)); simpl.
  - destruct (resolver.MAX_TXT_SIZE <? _)%nat; apply IH.
  - intros [= <-]. reflexivity.
Qed.

(** The lookup of the resolver: one query, and the texts with a new list
    of sources, or the exception. *)
Lemma lookup_for_sale_record_eq (self : resolver.DNSSecResolver)
    (domain : string) (s : State) :
  resolver.lookup_for_sale_record L W self domain s
  = match lookup_texts L domain
            (next_answer W s (resolver.timeout self) domain) with
    | Return txt_records =>
        (Return (txt_records, length (heap s)),
         set_heap (heap s ++ [["dns"]])%list (count_dns_query s))
    | Raise e => (Raise e, count_dns_query s)
    end.
Proof.
  unfold resolver.lookup_for_sale_record, resolver._lookup_with_dnssec,
    resolver.resolver_resolve, lookup_texts, next_answer.
  unfold mtry_except at 1. unfold mbind at 1. unfold mtry_except at 1.
  destruct (resolve W (dns_queries s) (resolver.timeout self) _)
    as [answers|e].
  - unfold mbind, lift_result, new_list, ret.
    destruct (resolver.collect_txt L answers []) as [txts|e] eqn:E;
      [reflexivity|].
    apply collect_txt_raises in E. destruct e as [cls msg]. simpl in E.
    subst cls. reflexivity.
  - destruct e as [cls msg]. destruct cls; reflexivity.
Qed.

(** Reading and writing one of the two caches of the process. *)
Lemma cache_get_eq {T : Type} (ref : cache.cache_ref State T) (key : string)
    (s : State) :
  (forall s, cache.load ref (tick_clock s) = cache.load ref s) ->
  cache.cache_get (time_time W) ref key s
  = if cache.contains (cache.load ref s) key then
      (Return (fst (cache.get (epoch (clock W (clock_reads s)))
                      (cache.load ref s) key)),
       cache.store ref
         (snd (cache.get (epoch (clock W (clock_reads s)))
                 (cache.load ref s) key))
         (tick_clock s))
    else (Return None, s).
Proof.
  intros Htick. unfold cache.cache_get, mbind, gets, time_time, mbind,
    read_clock, ret, modify.
  destruct (cache.contains (cache.load ref s) key); [|reflexivity].
  rewrite Htick.
  destruct (cache.get _ (cache.load ref s) key) as [v c']. reflexivity.
Qed.

Lemma cache_set_eq {T : Type} (ref : cache.cache_ref State T) (key : string)
    (value : T) (s : State) :
  (forall s, cache.load ref (tick_clock s) = cache.load ref s) ->
  cache.cache_set L (time_time W) ref key value s
  = match cache.set L (epoch (clock W (clock_reads s))) (cache.load ref s)
            key value with
    | Return self' => (Return tt, cache.store ref self' (tick_clock s))
    | Raise e => (Raise e, tick_clock s)
    end.
Proof.
  intros Htick. unfold cache.cache_set, mbind, gets, time_time, mbind,
    read_clock, ret, modify, lift_result. rewrite Htick.
  destruct (cache.set L _ (cache.load ref s) key value); reflexivity.
Qed.

Lemma contains_false_get {T : Type} (now : Z) (c : cache.Cache T)
    (key : string) :
  cache.contains c key = false -> cache.get now c key = (None, c).
Proof.
  unfold cache.contains, cache.get.
  destruct (cache._cache c !! key) as [[v e]|]; [discriminate|reflexivity].
Qed.

Lemma after_dns_get_parts (s : State) (domain : string) :
  heap (after_dns_get W s domain) = heap s /\
  dns_queries (after_dns_get W s domain) = dns_queries s /\
  rdap_queries (after_dns_get W s domain) = rdap_queries s /\
  rdap_cache (after_dns_get W s domain) = rdap_cache s /\
  resolvers_made (after_dns_get W s domain) = resolvers_made s /\
  (clock_reads s <= clock_reads (after_dns_get W s domain))%nat /\
  cache.ttl (dns_cache (after_dns_get W s domain)) = cache.ttl (dns_cache s).
Proof.
  unfold after_dns_get.
  destruct (cache.contains (dns_cache s) _); simpl;
    repeat split; try reflexivity; try lia.
  apply get_ttl.
Qed.

(** A lookup that is due asks the resolver, and stores what it returns. *)
Lemma lookup_txt_records_due (self : resolver.DNSSecResolver)
    (domain : string) (s : State) :
  dns_lookup_due W s domain ->
  api._lookup_txt_records L W (self, domain) s
  = match lookup_texts L domain
            (next_answer W (after_dns_get W s domain)
               (resolver.timeout self) domain) with
    | Return txt_records =>
        let s1 := set_heap (heap (after_dns_get W s domain) ++ [["dns"]])%list
                    (count_dns_query (after_dns_get W s domain)) in
        let found := (txt_records, length (heap (after_dns_get W s domain))) in
        match cache.set L (epoch (clock W (clock_reads s1))) (dns_cache s1)
                ("dns:" +:+ domain) found with
        | Return self' => (Return found, set_dns_cache self' (tick_clock s1))
        | Raise e => (Raise e, tick_clock s1)
        end
    | Raise e => (Raise e, count_dns_query (after_dns_get W s domain))
    end.
Proof.
  intros Hdue. unfold api._lookup_txt_records.
  assert (Hget : cache.cache_get (time_time W) api.dns_cache_ref
                   ("dns:" +:+ domain) s
                 = (Return None, after_dns_get W s domain)).
  { rewrite cache_get_eq by reflexivity. unfold after_dns_get. simpl.
    destruct (cache.contains (dns_cache s) _); [|reflexivity].
    unfold dns_lookup_due in Hdue. rewrite Hdue. reflexivity. }
  rewrite (cached_run _ _ _ _ _ (self, domain) s None _ Hget).
  unfold mbind at 1. simpl fst. simpl snd.
  rewrite lookup_for_sale_record_eq.
  destruct (lookup_texts L domain _) as [txts|e]; [|reflexivity].
  unfold mbind. rewrite cache_set_eq by reflexivity. cbn [cache.load api.dns_cache_ref cache.store].
  destruct (cache.set L _ _ _ _); reflexivity.
Qed.
End lookup_facts.

(** * The lookup phase and the list of sources *)

#[local] Instance heap_same_preorder : PreOrder heap_same.
Proof.
  split; [intros s; reflexivity|].
  intros a b c H1 H2. unfold heap_same in *. congruence.
Qed.

#[local] Instance dns_side_same_preorder : PreOrder dns_side_same.
Proof.
  split; [intros s; split; reflexivity|].
  intros a b c [H1 H2] [H3 H4]. split; congruence.
Qed.

Section source_facts.
Variable L : PyLib.
Variable W : World.

Lemma lookup_phase_eq (domain : string) (options : api.DomainSaleOptions)
    (s : State) (r0 : api.DomainSaleResponse) :
  lookup_phase L W domain options (s, r0)
  = match make_resolver W (resolvers_made s) with
    | Return _ =>
        (fst (api._lookup_txt_records L W
                (resolver.mkResolver (api.timeout options), domain)
                (count_resolver s)),
         (snd (api._lookup_txt_records L W
                 (resolver.mkResolver (api.timeout options), domain)
                 (count_resolver s)), r0))
    | Raise e => (Raise e, (count_resolver s, r0))
    end.
Proof.
  unfold lookup_phase, mbind, api.global, resolver.__init__. simpl.
  destruct (make_resolver W (resolvers_made s)) as [[]|e]; simpl;
    [|reflexivity].
  destruct (api._lookup_txt_records L W _ (count_resolver s)) as [res s'].
  reflexivity.
Qed.

Lemma get_fst_map {T : Type} (now : Z) (c c' : cache.Cache T) (key : string) :
  cache._cache c = cache._cache c' ->
  fst (cache.get now c key) = fst (cache.get now c' key).
Proof.
  unfold cache.get. intros ->.
  destruct (cache._cache c' !! key) as [[v e]|]; [|reflexivity].
  destruct (now <? e); reflexivity.
Qed.

Lemma update_cache_ttl_parts (options : api.DomainSaleOptions) (s : State) :
  cache._cache (dns_cache (api.update_cache_ttl options s))
  = cache._cache (dns_cache s) /\
  cache._cache (rdap_cache (api.update_cache_ttl options s))
  = cache._cache (rdap_cache s) /\
  heap (api.update_cache_ttl options s) = heap s /\
  clock_reads (api.update_cache_ttl options s) = clock_reads s /\
  resolvers_made (api.update_cache_ttl options s) = resolvers_made s /\
  dns_queries (api.update_cache_ttl options s) = dns_queries s /\
  rdap_queries (api.update_cache_ttl options s) = rdap_queries s.
Proof.
  unfold api.update_cache_ttl.
  destruct (negb (api.cache_ttl options =? api.DEFAULT_CACHE_TTL));
    repeat split; reflexivity.
Qed.

Lemma due_at_start (domain : string) (options : api.DomainSaleOptions)
    (s : State) :
  dns_lookup_due W s domain ->
  dns_lookup_due W (count_resolver (api.update_cache_ttl options s)) domain.
Proof.
  unfold dns_lookup_due. intros H.
  destruct (update_cache_ttl_parts options s) as (Hm & _ & _ & Hc & _).
  simpl. rewrite Hc.
  rewrite (get_fst_map _ _ (dns_cache s) _ Hm). exact H.
Qed.

(** The texts that a call whose lookup is due works with. *)
Lemma call_start_answer (domain : string) (options : api.DomainSaleOptions)
    (s : State) :
  next_answer W
    (after_dns_get W (count_resolver (api.update_cache_ttl options s)) domain)
    (api.timeout options) domain
  = next_answer W s (api.timeout options) domain.
Proof.
  unfold next_answer.
  destruct (after_dns_get_parts W
              (count_resolver (api.update_cache_ttl options s)) domain)
    as (_ & -> & _).
  destruct (update_cache_ttl_parts options s) as (_ & _ & _ & _ & _ & Hq & _).
  simpl. rewrite Hq. reflexivity.
Qed.
End source_facts.

(** C5, as amended.  When the lookup of a call is made, the answer is one
    record whose strings make a text of more than 255 bytes, and the time
    to live of the DNS cache converts to a float (so that [Cache.set] does
    not raise), the resolver drops the text: the call returns the response
    it started with, not for sale and with no error. *)
Theorem oversize_text_dropped (L : PyLib) (W : World) (domain : string)
    (options : option api.DomainSaleOptions) (s : State)
    (strings : list string) :
  make_resolver W (resolvers_made s) = Return tt ->
  dns_lookup_due W s domain ->
  next_answer W s (api.timeout (options_of options)) domain
  = Return [strings] ->
  resolver.utf8_valid (String.concat "" strings) = true ->
  (resolver.MAX_TXT_SIZE < String.length (String.concat "" strings))%nat ->
  float_of_int L
    (cache.ttl (dns_cache (api.update_cache_ttl (options_of options) s)))
  <> None ->
  exists s',
    api.get_domain_sale_status L W domain options s
    = (Return (api.new_response domain), s')
    /\ api.for_sale (api.new_response domain) = false
    /\ api.errors (api.new_response domain) = [].
Proof.
  intros Hres Hdue Hanswer Hvalid Hsize Hfloat.
  rewrite call_eq, try_body_unfold. unfold mbind at 1.
  rewrite lookup_phase_eq.
  assert (Hr : resolvers_made (api.update_cache_ttl (options_of options) s)
               = resolvers_made s)
    by apply update_cache_ttl_parts.
  rewrite Hr, Hres.
  rewrite (lookup_txt_records_due L W _ domain _
             (due_at_start W domain (options_of options) s Hdue)).
  simpl resolver.timeout. rewrite call_start_answer, Hanswer.
  unfold lookup_texts. simpl resolver.collect_txt.
  unfold resolver.decode_utf8. rewrite Hvalid. rewrite bind_Return.
  apply Nat.ltb_lt in Hsize. rewrite Hsize.
  cbv zeta.
  destruct (float_of_int L _) as [seconds|] eqn:Hsec; [|congruence].
  rewrite (set_returns L _ _ _ _ seconds).
  - simpl fst. simpl snd. unfold after_lookup. simpl.
    eexists. repeat split.
  - cbn [dns_cache set_heap count_dns_query tick_clock].
    destruct (after_dns_get_parts W
                (count_resolver
                   (api.update_cache_ttl (options_of options) s)) domain)
      as (_ & _ & _ & _ & _ & _ & ->).
    exact Hsec.
Qed.

(** * The shape of the response *)

Section shape_facts.
Variable L : PyLib.
Variable W : World.

(** A call, from the frame it starts with to the response. *)
Lemma call_cases (domain : string) (options : option api.DomainSaleOptions)
    (s : State) (result : result api.DomainSaleResponse) (s' : State) :
  api.get_domain_sale_status L W domain options s = (result, s') ->
  exists lookup_result f1,
    lookup_phase L W domain (options_of options)
      (api.update_cache_ttl (options_of options) s, api.new_response domain)
    = (lookup_result, f1) /\
    snd f1 = api.new_response domain /\
    match lookup_result with
    | Raise e =>
        result = Return (api.append_error (recorded_text e)
                           (api.new_response domain)) /\
        s' = fst f1
    | Return looked_up =>
        exists out f',
          after_lookup L W domain (options_of options) looked_up f1
          = (out, f') /\
          s' = fst f' /\
          result = Return match out with
                          | Return _ => snd f'
                          | Raise e => api.append_error (recorded_text e) (snd f')
                          end
    end.
Proof.
  rewrite call_eq, try_body_unfold. unfold mbind at 1.
  destruct (lookup_phase L W domain _ _) as [[looked_up|e] f1] eqn:Hl.
  - intros H. exists (Return looked_up), f1. split; [reflexivity|].
    split; [exact (lookup_phase_response L W _ _ _ _ _ Hl)|].
    destruct (after_lookup L W domain _ looked_up f1)
      as [[[]|e] [s1 r1]] eqn:Ha; injection H as <- <-;
      do 2 eexists; repeat split; reflexivity.
  - pose proof (lookup_phase_response L W _ _ _ _ _ Hl) as Hr.
    destruct f1 as [s1 r1]. simpl in Hr. subst r1.
    intros [= <- <-]. exists (Raise e), (s1, api.new_response domain).
    repeat split; reflexivity.
Qed.

Lemma process_records_errors (txt_records : list string)
    (record_data0 : pyval) (f : api.Frame) (r : result pyval)
    (f' : api.Frame) :
  api.process_records L W txt_records record_data0 f = (r, f') ->
  errors_added (snd f) (snd f').
Proof.
  apply (process_records_preserves L W (on_resp errors_added)).
  apply try_record_preserves_resp.
Qed.

Lemma errors_added_fields (r r' : api.DomainSaleResponse) :
  errors_added r r' ->
  api.for_sale r' = api.for_sale r /\ api.source r' = api.source r /\
  api.domain r' = api.domain r.
Proof. intros [more ->]. repeat split; reflexivity. Qed.

Lemma errors_added_error (msg : string) (r r' : api.DomainSaleResponse) :
  errors_added r r' -> errors_added r (api.append_error msg r').
Proof.
  intros H. etransitivity; [exact H|apply errors_added_append].
Qed.

(** Not for sale, the response is the one the call started with and
    errors; for sale, it is one such response with the fields of the record
    and the list of sources set. *)
Lemma call_response (domain : string) (options : option api.DomainSaleOptions)
    (s : State) (response : api.DomainSaleResponse) (s' : State) :
  api.get_domain_sale_status L W domain options s = (Return response, s') ->
  errors_added (api.new_response domain) response \/
  exists p u c e sources r,
    errors_added (api.new_response domain) r /\
    response = api.set_for_sale p u c e sources r.
Proof.
  intros H. apply call_cases in H as (lres & f1 & Hl & Hr1 & H).
  destruct lres as [[txts ref]|e].
  - destruct H as (out & f' & Ha & _ & [= ->]).
    apply after_lookup_cases in Ha as (loop & f2 & Hloop & Ha).
    pose proof (process_records_errors _ _ _ _ _ Hloop) as He2.
    rewrite Hr1 in He2. destruct loop as [rd|e].
    + destruct (truthy rd).
      * destruct Ha as (d & _ & _ & rres & f3 & Hrdap & Ha).
        pose proof (rdap_step_preserves_resp L W _ _ _ _ _ _ Hrdap) as He3.
        unfold on_resp in He3.
        assert (He : errors_added (api.new_response domain) (snd f3))
          by (etransitivity; eassumption).
        destruct rres as [b|e].
        -- destruct Ha as (-> & ->).
           destruct (api.enable_rdap_check _ && negb b); [now left|].
           right. simpl. do 6 eexists. split; [exact He|reflexivity].
        -- destruct Ha as (-> & ->). left. now apply errors_added_error.
      * destruct Ha as (-> & ->). now left.
    + destruct Ha as (-> & ->). left. now apply errors_added_error.
  - destruct H as ([= ->] & _). left. apply errors_added_append.
Qed.
End shape_facts.

Lemma deref_last (h : list (list string)) (l : list string) :
  deref (h ++ [l])%list (length h) = l.
Proof.
  unfold deref. rewrite lookup_app_r by lia.
  replace (length h - length h)%nat with 0%nat by lia. reflexivity.
Qed.

Lemma deref_alter_last (h : list (list string)) (l : list string)
    (f : list string -> list string) :
  deref (alter f (length h) (h ++ [l])%list) (length h) = f l.
Proof.
  unfold deref. rewrite list_lookup_alter_eq.
  rewrite lookup_app_r by lia.
  replace (length h - length h)%nat with 0%nat by lia. reflexivity.
Qed.

Section heap_facts.
Variable L : PyLib.
Variable W : World.

Lemma process_records_heap (txt_records : list string) (record_data0 : pyval)
    (f : api.Frame) (r : result pyval) (f' : api.Frame) :
  api.process_records L W txt_records record_data0 f = (r, f') ->
  heap (fst f') = heap (fst f).
Proof.
  apply (process_records_preserves L W (on_state heap_same)).
  intros txt. apply try_record_preserves_state; [typeclasses eauto|].
  intros s. reflexivity.
Qed.

Lemma check_rdap_status_heap (args : rdap.RDAPClient * string) (s : State)
    (r : result bool) (s' : State) :
  api._check_rdap_status L W args s = (r, s') -> heap s' = heap s.
Proof.
  apply (check_rdap_status_preserves L W heap_same); intros; reflexivity.
Qed.

(** After a lookup that was due and returned, the list of sources is the
    last list object, and holds ["dns"]. *)
Lemma lookup_phase_due (domain : string) (options : api.DomainSaleOptions)
    (s : State) (r0 : api.DomainSaleResponse) (txt_records : list string)
    (sources : nat) (f1 : api.Frame) :
  dns_lookup_due W s domain ->
  lookup_phase L W domain options (api.update_cache_ttl options s, r0)
  = (Return (txt_records, sources), f1) ->
  exists h,
    heap (fst f1) = (h ++ [["dns"]])%list /\ sources = length h /\
    lookup_texts L domain (next_answer W s (api.timeout options) domain)
    = Return txt_records.
Proof.
  intros Hdue. rewrite lookup_phase_eq.
  destruct (make_resolver W _) as [[]|e]; [|discriminate].
  rewrite (lookup_txt_records_due L W _ domain _
             (due_at_start W domain options s Hdue)).
  simpl resolver.timeout. rewrite call_start_answer.
  destruct (lookup_texts L domain _) as [txts|e]; [|discriminate].
  cbv zeta. destruct (cache.set L _ _ _ _) as [self'|e]; [|discriminate].
  simpl. intros [= <- <- <-].
  eexists. repeat split; reflexivity.
Qed.
End heap_facts.

(** C9, as amended.  The source of a response that is not for sale is the
    string "dns"; the source of a response that is for sale is a list, and
    the list that the lookup of the same call made holds "dns", followed by
    "rdap" when the RDAP check is enabled. *)
Theorem source_shape (L : PyLib) (W : World) (domain : string)
    (options : option api.DomainSaleOptions) (s : State)
    (response : api.DomainSaleResponse) (s' : State) :
  api.get_domain_sale_status L W domain options s = (Return response, s') ->
  (api.for_sale response = false ->
   api.source response = api.SourceStr "dns") /\
  (api.for_sale response = true ->
   exists ref,
     api.source response = api.SourceList ref /\
     (dns_lookup_due W s domain ->
      deref (heap s') ref
      = if api.enable_rdap_check (options_of options)
        then ["dns"; "rdap"] else ["dns"])).
Proof.
  intros Hcall. split.
  - intros Hfs.
    destruct (call_response L W _ _ _ _ _ Hcall)
      as [He|(p & u & c & e & src & r & _ & ->)]; [|discriminate].
    now apply errors_added_fields in He as (_ & -> & _).
  - intros Hfs.
    apply call_cases in Hcall as (lres & f1 & Hl & Hr1 & H).
    destruct lres as [[txts ref]|e].
    2:{ destruct H as ([= ->] & _). discriminate. }
    destruct H as (out & f' & Ha & -> & [= ->]).
    apply after_lookup_cases in Ha as (loop & f2 & Hloop & Ha).
    pose proof (process_records_errors L W _ _ _ _ _ Hloop) as He2.
    pose proof (process_records_heap L W _ _ _ _ _ Hloop) as Hh2.
    rewrite Hr1 in He2.
    destruct loop as [rd|e].
    2:{ destruct Ha as (-> & ->).
        apply (errors_added_error (recorded_text e)) in He2.
        apply errors_added_fields in He2 as (He2 & _). simpl in He2, Hfs.
        congruence. }
    destruct (truthy rd).
    2:{ destruct Ha as (-> & ->).
        apply errors_added_fields in He2 as (He2 & _). simpl in He2, Hfs.
        congruence. }
    destruct Ha as (d & _ & _ & rres & f3 & Hrdap & Ha).
    pose proof (rdap_step_preserves_resp L W _ _ _ _ _ _ Hrdap) as He3.
    unfold on_resp in He3.
    assert (He : errors_added (api.new_response domain) (snd f3))
      by (etransitivity; eassumption).
    destruct f2 as [s2 r2]. rewrite rdap_step_eq in Hrdap.
    destruct rres as [b|e].
    2:{ destruct Ha as (-> & ->).
        apply (errors_added_error (recorded_text e)) in He.
        apply errors_added_fields in He as (He & _). simpl in He, Hfs.
        congruence. }
    destruct Ha as (-> & ->).
    destruct (api.enable_rdap_check (options_of options)) eqn:Hen.
    + destruct b; simpl in Hfs |- *.
      2:{ apply errors_added_fields in He as (He & _). simpl in He, Hfs.
          congruence. }
      exists ref. split; [reflexivity|]. intros Hdue.
      destruct (lookup_phase_due L W _ _ _ _ _ _ _ Hdue Hl)
        as (h & Hh & -> & _).
      destruct (api._check_rdap_status L W _ s2) as [[[|]|e] s3] eqn:Hc;
        try discriminate.
      * injection Hrdap as <-. simpl.
        rewrite (check_rdap_status_heap L W _ _ _ _ Hc).
        simpl in Hh2. rewrite Hh2, Hh.
        exact (deref_alter_last h ["dns"] (fun l => (l ++ ["rdap"])%list)).
      * destruct (existsb _ _); discriminate.
    + injection Hrdap as <- <-. simpl in Hfs |- *.
      exists ref. split; [reflexivity|]. intros Hdue.
      destruct (lookup_phase_due L W _ _ _ _ _ _ _ Hdue Hl)
        as (h & Hh & -> & _).
      simpl in Hh2. rewrite Hh2, Hh. apply deref_last.
Qed.

(** * The lists of sources stay valid *)

Section refs_facts.
Variable L : PyLib.
Variable W : World.

Lemma refs_valid_same_parts (s s' : State) :
  cache._cache (dns_cache s') = cache._cache (dns_cache s) ->
  length (heap s') = length (heap s) ->
  refs_valid s -> refs_valid s'.
Proof.
  intros Hm Hh Hv key txts ref expiry Hk. rewrite Hm in Hk. rewrite Hh.
  exact (Hv key txts ref expiry Hk).
Qed.

Lemma get_submap {T : Type} (now : Z) (c : cache.Cache T) (key k : string)
    (x : T * Z) :
  cache._cache (snd (cache.get now c key)) !! k = Some x ->
  cache._cache c !! k = Some x.
Proof.
  unfold cache.get. destruct (cache._cache c !! key) as [[v e]|]; [|trivial].
  destruct (now <? e); [trivial|]. simpl.
  intros H. apply lookup_delete_Some in H as [_ H]. exact H.
Qed.

(** The cached lookup keeps the references of the DNS cache valid, and
    returns a valid one. *)
Lemma lookup_txt_records_valid (self : resolver.DNSSecResolver)
    (domain : string) (s : State) (r : result (list string * nat))
    (s' : State) :
  refs_valid s ->
  api._lookup_txt_records L W (self, domain) s = (r, s') ->
  refs_valid s' /\
  forall txt_records ref,
    r = Return (txt_records, ref) -> (ref < length (heap s'))%nat.
Proof.
  intros Hv. unfold api._lookup_txt_records.
  destruct (cache.cache_get (time_time W) api.dns_cache_ref
              ("dns:" +:+ domain) s) as [got sg] eqn:Hget.
  rewrite cache_get_eq in Hget by reflexivity. simpl in Hget.
  assert (Hvg : refs_valid sg /\
                exists o, got = Return o /\
                  forall v, o = Some v ->
                    exists expiry,
                      cache._cache (dns_cache sg) !! ("dns:" +:+ domain)
                      = Some (v, expiry)).
  { destruct (cache.contains (dns_cache s) _) eqn:Hc.
    - injection Hget as <- <-. split.
      + intros key txts ref expiry Hk. simpl in Hk.
        apply get_submap in Hk. exact (Hv key txts ref expiry Hk).
      + eexists. split; [reflexivity|]. intros v Hsome.
        pose proof (get_outcome (epoch (clock W (clock_reads s)))
                      (dns_cache s) ("dns:" +:+ domain)) as Hout.
        destruct (cache.get _ (dns_cache s) _) as [[v'|] c']; simpl in *;
          [|discriminate].
        injection Hsome as ->. destruct Hout as (-> & expiry & Hk & _).
        eauto.
    - injection Hget as <- <-. split; [exact Hv|].
      eexists. split; [reflexivity|]. discriminate. }
  destruct Hvg as (Hvg & o & -> & Ho).
  intros Hrun.
  rewrite (cached_run _ _ _ _ _ (self, domain) s o sg) in Hrun
    by (rewrite cache_get_eq by reflexivity; simpl; rewrite <- Hget;
        reflexivity).
  destruct o as [[txts ref]|].
  - injection Hrun as <- <-. split; [exact Hvg|].
    intros txts' ref' [= <- <-].
    destruct (Ho _ eq_refl) as [expiry Hk]. exact (Hvg _ _ _ _ Hk).
  - unfold mbind at 1 in Hrun. simpl fst in Hrun. simpl snd in Hrun.
    rewrite lookup_for_sale_record_eq in Hrun.
    destruct (lookup_texts L domain _) as [txts|e].
    + unfold mbind in Hrun. rewrite cache_set_eq in Hrun by reflexivity.
      set_cases_in Hrun; injection Hrun as <- <-.
      * split.
        -- intros key txts' ref expiry' Hk. simpl in Hk. simpl.
           rewrite length_app. simpl.
           destruct (decide (("dns:" +:+ domain) = key)) as [<-|Hne].
           ++ rewrite lookup_insert_eq in Hk. injection Hk as _ <- _. lia.
           ++ rewrite lookup_insert_ne in Hk by exact Hne.
              pose proof (Hvg _ _ _ _ Hk). lia.
        -- intros txts' ref [= _ <-]. simpl. rewrite length_app. simpl. lia.
      * split; [|discriminate].
        intros key txts' ref expiry' Hk. simpl in Hk. simpl.
        rewrite length_app. simpl.
        pose proof (Hvg _ _ _ _ Hk). lia.
    + injection Hrun as <- <-. split; [|discriminate].
      apply (refs_valid_same_parts sg); [reflexivity..|exact Hvg].
Qed.

Lemma lookup_phase_valid (domain : string) (options : api.DomainSaleOptions)
    (s : State) (r0 : api.DomainSaleResponse)
    (r : result (list string * nat)) (f1 : api.Frame) :
  refs_valid s ->
  lookup_phase L W domain options (api.update_cache_ttl options s, r0)
  = (r, f1) ->
  refs_valid (fst f1) /\
  forall txt_records ref,
    r = Return (txt_records, ref) -> (ref < length (heap (fst f1)))%nat.
Proof.
  intros Hv. rewrite lookup_phase_eq.
  assert (Hv0 : refs_valid (count_resolver (api.update_cache_ttl options s))).
  { apply (refs_valid_same_parts s); [| |exact Hv].
    - apply update_cache_ttl_parts.
    - simpl. f_equal. apply update_cache_ttl_parts. }
  destruct (make_resolver W _) as [[]|e].
  - destruct (api._lookup_txt_records L W _ _) as [res s1] eqn:Hl.
    intros [= <- <-]. exact (lookup_txt_records_valid _ _ _ _ _ Hv0 Hl).
  - intros [= <- <-]. split; [exact Hv0|discriminate].
Qed.

Lemma dns_side_same_valid (s s' : State) :
  dns_side_same s s' -> refs_valid s -> refs_valid s'.
Proof.
  intros [Hc Hh]. apply refs_valid_same_parts; [now rewrite Hc|exact Hh].
Qed.

Lemma dns_side_same_after (domain : string) (options : api.DomainSaleOptions)
    (looked_up : list string * nat) :
  preserves (on_state dns_side_same)
            (after_lookup L W domain options looked_up).
Proof.
  destruct looked_up as [txt_records sources]. unfold after_lookup.
  apply preserves_mbind; [typeclasses eauto| |intros record_data].
  - apply process_records_preserves; [typeclasses eauto|].
    intros txt. apply try_record_preserves_state; [typeclasses eauto|].
    intros s. split; reflexivity.
  - destruct (negb (truthy record_data));
      [apply preserves_ret; typeclasses eauto|].
    apply preserves_mbind; [typeclasses eauto| |intros b].
    + apply rdap_step_preserves_state; [typeclasses eauto|..];
        intros; split; simpl; try reflexivity.
      apply length_alter.
    + destruct (api.enable_rdap_check options && negb b);
        [apply preserves_ret; typeclasses eauto|].
      repeat (apply preserves_mbind;
              [typeclasses eauto
              |apply preserves_lift_result; typeclasses eauto
              |intros ?]).
      apply on_response_preserves_state. typeclasses eauto.
Qed.

(** A call keeps the references of the DNS cache valid. *)
Lemma call_refs_valid (domain : string)
    (options : option api.DomainSaleOptions) (s : State)
    (r : result api.DomainSaleResponse) (s' : State) :
  refs_valid s ->
  api.get_domain_sale_status L W domain options s = (r, s') ->
  refs_valid s'.
Proof.
  intros Hv Hcall. apply call_cases in Hcall as (lres & f1 & Hl & _ & H).
  destruct (lookup_phase_valid _ _ _ _ _ _ Hv Hl) as [Hv1 _].
  destruct lres as [looked_up|e].
  - destruct H as (out & f' & Ha & -> & _).
    apply (dns_side_same_valid (fst f1)); [|exact Hv1].
    exact (dns_side_same_after _ _ _ _ _ _ Ha).
  - destruct H as (_ & ->). exact Hv1.
Qed.
End refs_facts.

Lemma initial_refs_valid : refs_valid initial_state.
Proof. intros key txts ref expiry Hk. simpl in Hk. discriminate. Qed.

Lemma deref_alter_valid (h : list (list string)) (ref : nat)
    (f : list string -> list string) :
  (ref < length h)%nat -> deref (alter f ref h) ref = f (deref h ref).
Proof.
  intros Hlt. unfold deref. rewrite list_lookup_alter_eq.
  destruct (lookup_lt_is_Some_2 h ref Hlt) as [l ->]. reflexivity.
Qed.

(** C3.  With the RDAP check enabled, in a process whose cached references
    are valid: a response that is for sale comes from a looked-up text that
    the validator returned as a record and from an RDAP check that returned
    true, and "rdap" is in its list of sources; and when a record validated
    and the RDAP check returned false, the response is the one the loop
    over the texts left, not for sale, with no error added. *)
Theorem rdap_policy (L : PyLib) (W : World) (domain : string)
    (options : api.DomainSaleOptions) (s : State)
    (response : api.DomainSaleResponse) (s' : State) :
  api.enable_rdap_check options = true ->
  refs_valid s ->
  api.get_domain_sale_status L W domain (Some options) s
  = (Return response, s') ->
  (api.for_sale response = true ->
   exists txt_records sources f1 record_data f2 s3,
     lookup_phase L W domain options
       (api.update_cache_ttl options s, api.new_response domain)
     = (Return (txt_records, sources), f1) /\
     api.process_records L W txt_records PNone f1 = (Return record_data, f2) /\
     (exists txt_record today,
         In txt_record txt_records /\
         validator.extract_and_validate_record L today txt_record
         = Return record_data) /\
     truthy record_data = true /\
     api._check_rdap_status L W (rdap.__init__ (api.timeout options), domain)
       (fst f2) = (Return true, s3) /\
     api.source response = api.SourceList sources /\
     In "rdap" (deref (heap s') sources))
  /\
  (forall txt_records sources f1 record_data f2 s3,
      lookup_phase L W domain options
        (api.update_cache_ttl options s, api.new_response domain)
      = (Return (txt_records, sources), f1) ->
      api.process_records L W txt_records PNone f1 = (Return record_data, f2) ->
      truthy record_data = true ->
      api._check_rdap_status L W (rdap.__init__ (api.timeout options), domain)
        (fst f2) = (Return false, s3) ->
      response = snd f2 /\ api.for_sale response = false /\
      api.errors response = api.errors (snd f2) /\ s' = s3).
Proof.
  intros Hen Hv Hcall.
  apply call_cases in Hcall as (lres & f1 & Hl & Hr1 & H).
  unfold options_of in *. simpl default in *.
  destruct (lookup_phase_valid L W _ _ _ _ _ _ Hv Hl) as [_ Href].
  split.
  - intros Hfs. destruct lres as [[txts ref]|e].
    2:{ destruct H as ([= ->] & _). discriminate. }
    destruct H as (out & f' & Ha & -> & [= ->]).
    apply after_lookup_cases in Ha as (loop & f2 & Hloop & Ha).
    pose proof (process_records_errors L W _ _ _ _ _ Hloop) as He2.
    pose proof (process_records_heap L W _ _ _ _ _ Hloop) as Hh2.
    rewrite Hr1 in He2.
    destruct loop as [rd|e].
    2:{ destruct Ha as (-> & ->).
        apply (errors_added_error (recorded_text e)) in He2.
        apply errors_added_fields in He2 as (He2 & _). simpl in He2, Hfs.
        congruence. }
    destruct (truthy rd) eqn:Ht.
    2:{ destruct Ha as (-> & ->).
        apply errors_added_fields in He2 as (He2 & _). simpl in He2, Hfs.
        congruence. }
    destruct Ha as (d & -> & Hacc & rres & f3 & Hrdap & Ha).
    pose proof (rdap_step_preserves_resp L W _ _ _ _ _ _ Hrdap) as He3.
    unfold on_resp in He3.
    assert (He : errors_added (api.new_response domain) (snd f3))
      by (etransitivity; eassumption).
    destruct f2 as [s2 r2]. rewrite rdap_step_eq, Hen in Hrdap.
    destruct rres as [b|e].
    2:{ destruct Ha as (-> & ->).
        apply (errors_added_error (recorded_text e)) in He.
        apply errors_added_fields in He as (He & _). simpl in He, Hfs.
        congruence. }
    destruct Ha as (-> & ->). rewrite Hen in Hfs |- *.
    destruct b; simpl in Hfs |- *.
    2:{ apply errors_added_fields in He as (He & _). simpl in He, Hfs.
        congruence. }
    destruct (api._check_rdap_status L W _ s2) as [[[|]|e] s3] eqn:Hc;
      try discriminate.
    2:{ destruct (existsb _ _); discriminate. }
    injection Hrdap as <-.
    exists txts, ref, f1, (PDict d), (s2, r2), s3.
    repeat split; try assumption; try reflexivity.
    simpl. rewrite deref_alter_valid.
    + apply in_or_app. right. now left.
    + rewrite (check_rdap_status_heap L W _ _ _ _ Hc). simpl in Hh2.
      rewrite Hh2. exact (Href _ _ eq_refl).
  - intros txts ref f1' rd f2 s3 Hl' Hloop Ht Hc.
    rewrite Hl in Hl'. injection Hl' as -> <-.
    destruct H as (out & f' & Ha & -> & [= ->]).
    apply after_lookup_cases in Ha as (loop & f2' & Hloop' & Ha).
    rewrite Hloop in Hloop'. injection Hloop' as <- <-.
    rewrite Ht in Ha.
    destruct Ha as (d & -> & _ & rres & f3 & Hrdap & Ha).
    pose proof (process_records_errors L W _ _ _ _ _ Hloop) as He2.
    rewrite Hr1 in He2.
    destruct f2 as [s2 r2]. rewrite rdap_step_eq, Hen in Hrdap.
    simpl fst in Hc. rewrite Hc in Hrdap. injection Hrdap as <- <-.
    destruct Ha as (-> & ->). rewrite Hen. simpl.
    repeat split.
    apply errors_added_fields in He2 as (He2 & _). exact He2.
Qed.

(** * [html.escape] *)

Lemma append_assoc (a b c : string) : (a +:+ b) +:+ c = a +:+ (b +:+ c).
Proof.
  induction a as [|x a IH]; [reflexivity|].
  change (String x ((a +:+ b) +:+ c) = String x (a +:+ (b +:+ c))).
  now rewrite IH.
Qed.

Lemma append_nil_r (a : string) : a +:+ "" = a.
Proof.
  induction a as [|x a IH]; [reflexivity|].
  change (String x (a +:+ "") = String x a). now rewrite IH.
Qed.

Lemma replace_append (c : ascii) (t a b : string) :
  html.replace c t (a +:+ b) = html.replace c t a +:+ html.replace c t b.
Proof.
  induction a as [|x a IH]; [reflexivity|].
  change (html.replace c t (String x (a +:+ b))
          = html.replace c t (String x a) +:+ html.replace c t b).
  cbn [html.replace]. rewrite IH. destruct (Ascii.eqb x c).
  - now rewrite append_assoc.
  - reflexivity.
Qed.

Lemma replace_cons (c : ascii) (t : string) (x : ascii) (r : string) :
  html.replace c t (String x r)
  = (if Ascii.eqb x c then t else String x EmptyString) +:+ html.replace c t r.
Proof. cbn [html.replace]. destruct (Ascii.eqb x c); reflexivity. Qed.

(** The five replacements of [html.escape], done one after the other, are
    the substitution character by character. *)
Lemma escape_by_char (s : string) : html.escape s = escape_chars s.
Proof.
  unfold html.escape. induction s as [|x r IH]; [reflexivity|].
  cbn [escape_chars]. rewrite <- IH. clear IH.
  rewrite (replace_cons "&"). rewrite !replace_append.
  f_equal. unfold escape_char.
  destruct (Ascii.eqb x "&") eqn:E1; [reflexivity|].
  destruct (Ascii.eqb x "<") eqn:E2.
  { apply Ascii.eqb_eq in E2. subst x. reflexivity. }
  destruct (Ascii.eqb x ">") eqn:E3.
  { apply Ascii.eqb_eq in E3. subst x. reflexivity. }
  destruct (Ascii.eqb x "034") eqn:E4.
  { apply Ascii.eqb_eq in E4. subst x. reflexivity. }
  destruct (Ascii.eqb x "'") eqn:E5.
  { apply Ascii.eqb_eq in E5. subst x. reflexivity. }
  cbn [html.replace]. rewrite E2. cbn [html.replace]. rewrite E3.
  cbn [html.replace]. rewrite E4. cbn [html.replace]. rewrite E5.
  reflexivity.
Qed.

Lemma string_forall_append (p : ascii -> bool) (a b : string) :
  string_forall p (a +:+ b) = string_forall p a && string_forall p b.
Proof.
  induction a as [|x a IH]; [reflexivity|].
  change (p x && string_forall p (a +:+ b)
          = p x && string_forall p a && string_forall p b).
  rewrite IH. now rewrite andb_assoc.
Qed.

Lemma escape_char_no_markup (c : ascii) :
  string_forall no_markup (escape_char c) = true.
Proof.
  unfold escape_char.
  destruct (Ascii.eqb c "&"); [reflexivity|].
  destruct (Ascii.eqb c "<") eqn:E2; [reflexivity|].
  destruct (Ascii.eqb c ">") eqn:E3; [reflexivity|].
  destruct (Ascii.eqb c "034") eqn:E4; [reflexivity|].
  destruct (Ascii.eqb c "'") eqn:E5; [reflexivity|].
  cbn [string_forall]. unfold no_markup. rewrite E2, E3, E4, E5. reflexivity.
Qed.

(** The escaped text has none of the characters [<], [>], the double quote
    and the apostrophe. *)
Lemma escape_no_markup (s : string) :
  string_forall no_markup (html.escape s) = true.
Proof.
  rewrite escape_by_char. induction s as [|x r IH]; [reflexivity|].
  cbn [escape_chars]. rewrite string_forall_append, escape_char_no_markup, IH.
  reflexivity.
Qed.

(** Text without markup characters, read as text or inside a quoted
    attribute value, stays there. *)
Lemma no_markup_stays (p : position) (s : string) :
  string_forall no_markup s = true ->
  p = Data \/ (exists raw name, p = AttrValueDQ raw name) ->
  run p s = p /\ inside p s = text_or_value p || match s with
                                                 | EmptyString => true
                                                 | _ => false
                                                 end.
Proof.
  intros Hs Hp. induction s as [|c r IH].
  - split; [reflexivity|]. cbn. now rewrite orb_true_r.
  - cbn [string_forall] in Hs. apply andb_true_iff in Hs as [Hc Hr].
    assert (Hstep : step p c = p).
    { unfold no_markup in Hc. apply negb_true_iff in Hc.
      apply orb_false_iff in Hc as [Hc _].
      apply orb_false_iff in Hc as [Hc Hq].
      apply orb_false_iff in Hc as [Hlt _].
      destruct Hp as [->|(raw & name & ->)]; cbn [step].
      - now rewrite Hlt.
      - now rewrite Hq. }
    cbn [run inside]. rewrite Hstep. destruct (IH Hr) as [Hrun Hin].
    split; [exact Hrun|]. rewrite Hin, orb_false_r.
    destruct (text_or_value p); [|reflexivity].
    destruct r; reflexivity.
Qed.

Lemma escaped_in_text (value : string) :
  inside Data (html.escape value) = true /\
  run Data (html.escape value) = Data.
Proof.
  destruct (no_markup_stays Data _ (escape_no_markup value)) as [Hr Hi];
    [now left|].
  split; [|exact Hr]. rewrite Hi. reflexivity.
Qed.

Lemma escaped_in_value (raw : bool) (name value : string) :
  event_handler name = false ->
  inside (AttrValueDQ raw name) (html.escape value) = true /\
  run (AttrValueDQ raw name) (html.escape value) = AttrValueDQ raw name.
Proof.
  intros Hn.
  destruct (no_markup_stays (AttrValueDQ raw name) _ (escape_no_markup value))
    as [Hr Hi]; [right; eauto|].
  split; [|exact Hr]. rewrite Hi. cbn [text_or_value]. rewrite Hn. reflexivity.
Qed.

(** * The HTML renderer *)

Lemma run_append (p : position) (a b : string) :
  run p (a +:+ b) = run (run p a) b.
Proof.
  revert p. induction a as [|x a IH]; intros p; [reflexivity|].
  change (run (step p x) (a +:+ b) = run (run (step p x) a) b). apply IH.
Qed.

Lemma line_text_app (a b : list segment) :
  line_text (a ++ b) = line_text a +:+ line_text b.
Proof.
  induction a as [|g a IH]; [reflexivity|].
  cbn [line_text app]. now rewrite IH, append_assoc.
Qed.

Lemma walk_app (p : position) (a b : list segment) :
  walk p (a ++ b) = walk p a && walk (run p (line_text a)) b.
Proof.
  revert p. induction a as [|g a IH]; intros p; [reflexivity|].
  destruct g as [s|v]; cbn [walk line_text segment_text app].
  - now rewrite IH, run_append.
  - now rewrite IH, run_append, andb_assoc.
Qed.

Lemma line_ok_app (a b : list segment) :
  line_ok a -> line_ok b -> line_ok (a ++ b).
Proof.
  intros [Ha1 Ha2] [Hb1 Hb2]. split.
  - now rewrite walk_app, Ha1, Ha2, Hb1.
  - now rewrite line_text_app, run_append, Ha2, Hb2.
Qed.

Lemma join_lines_ok (lines : list (list segment)) :
  Forall line_ok lines -> line_ok (join_lines lines).
Proof.
  induction 1 as [|l rest Hl Hrest IH]; [split; reflexivity|].
  destruct rest as [|l' rest']; [exact Hl|].
  change (line_ok (l ++ ([Lit renderer.nl] ++ join_lines (l' :: rest')))).
  apply line_ok_app; [exact Hl|].
  apply line_ok_app; [split; reflexivity|exact IH].
Qed.

Lemma join_line_text (lines : list (list segment)) :
  join renderer.nl (map line_text lines) = line_text (join_lines lines).
Proof.
  induction lines as [|l rest IH]; [reflexivity|].
  destruct rest as [|l' rest']; [reflexivity|].
  change (line_text l +:+ renderer.nl +:+ join renderer.nl (map line_text (l' :: rest'))
          = line_text (l ++ Lit renderer.nl :: join_lines (l' :: rest'))).
  rewrite IH, line_text_app. reflexivity.
Qed.

Lemma text_line_ok (before after value : string) :
  run Data before = Data -> run Data after = Data ->
  line_ok [Lit before; Esc value; Lit after].
Proof.
  intros Hb Ha. split.
  - cbn [walk]. rewrite Hb, (proj1 (escaped_in_text _)). reflexivity.
  - cbn [line_text segment_text]. rewrite !run_append, Hb.
    rewrite (proj2 (escaped_in_text _)), Ha. reflexivity.
Qed.

Lemma link_line_ok (before middle after value label : string) :
  run Data before = AttrValueDQ false "href" ->
  run (AttrValueDQ false "href") middle = Data ->
  run Data after = Data ->
  line_ok [Lit before; Esc value; Lit middle; Esc label; Lit after].
Proof.
  intros Hb Hm Ha. split.
  - cbn [walk]. rewrite Hb.
    rewrite (proj1 (escaped_in_value false "href" value eq_refl)).
    rewrite (proj2 (escaped_in_value false "href" value eq_refl)).
    rewrite Hm, (proj1 (escaped_in_text _)). reflexivity.
  - cbn [line_text segment_text]. rewrite !run_append, Hb.
    rewrite (proj2 (escaped_in_value false "href" value eq_refl)), Hm.
    rewrite (proj2 (escaped_in_text _)), Ha. reflexivity.
Qed.

Lemma literal_line_ok (s : string) : run Data s = Data -> line_ok [Lit s].
Proof.
  intros H. split; [reflexivity|].
  cbn [line_text segment_text]. now rewrite append_nil_r.
Qed.

Lemma one_line_ok (l : list segment) : line_ok l -> Forall line_ok [l].
Proof. intros H. constructor; [exact H|constructor]. Qed.

Lemma sale_info_lines_ok (sale_info : list (string * pyval)) :
  Forall line_ok (sale_info_lines sale_info).
Proof.
  unfold sale_info_lines.
  apply Forall_app_2; [|apply Forall_app_2; [|apply Forall_app_2;
    [|apply Forall_app_2; [|apply Forall_app_2; [|apply Forall_app_2]]]]].
  - unfold domain_lines. destruct (dict_contains "domain" sale_info);
      apply one_line_ok.
    + now apply text_line_ok.
    + now apply literal_line_ok.
  - apply one_line_ok. now apply literal_line_ok.
  - unfold price_lines. destruct (truthy _); [|constructor].
    apply one_line_ok. now apply text_line_ok.
  - unfold contact_lines. destruct (truthy _); [|constructor].
    destruct (json.strip_prefix _ _); apply one_line_ok.
    + now apply link_line_ok.
    + now apply text_line_ok.
  - unfold url_lines. destruct (truthy _); [|constructor].
    apply one_line_ok. now apply link_line_ok.
  - unfold expires_lines. destruct (truthy _); [|constructor].
    apply one_line_ok. now apply text_line_ok.
  - apply one_line_ok. now apply literal_line_ok.
Qed.

Lemma escape_returns (text : pyval) (out : string) :
  renderer._escape text = Return out -> out = html.escape (str_of text).
Proof. destruct text; try discriminate. now intros [= <-]. Qed.

Ltac render_step :=
  match goal with
  | |- Raise _ = Return _ -> _ => discriminate
  | |- context [bind (Return _) _] => rewrite bind_Return; cbv beta zeta
  | |- context [bind (Raise _) _] => rewrite bind_Raise
  | |- context [if ?c then _ else _] => destruct c
  | |- context [renderer._escape ?v] =>
      let E := fresh "E" in
      destruct (renderer._escape v) as [?|?] eqn:E;
      [apply escape_returns in E; subst|]
  | |- context [json.strip_prefix ?a ?b] => destruct (json.strip_prefix a b)
  end.

(** What [render_sale_info] returns is the text of its lines. *)
Lemma render_sale_info_lines (sale_info : list (string * pyval))
    (out : string) :
  renderer.render_sale_info sale_info = Return out ->
  out = line_text (join_lines (sale_info_lines sale_info)).
Proof.
  rewrite <- join_line_text.
  unfold renderer.render_sale_info, sale_info_lines, domain_lines, price_lines,
    contact_lines, url_lines, expires_lines, class_line.
  cbv zeta.
  repeat render_step.
  all: intros [= <-]; unfold renderer.attr;
    cbn [map app line_text segment_text str_of join];
    rewrite ?append_assoc, ?append_nil_r; reflexivity.
Qed.

Lemma render_error_line (error_message : pyval) (out : string) :
  renderer.render_error error_message = Return out ->
  out = line_text (error_line (str_of error_message)).
Proof.
  unfold renderer.render_error, error_line.
  repeat render_step.
  intros [= <-]. unfold renderer.attr. cbn [line_text segment_text].
  rewrite ?append_assoc, ?append_nil_r. reflexivity.
Qed.

Lemma error_line_ok (message : string) : line_ok (error_line message).
Proof. now apply text_line_ok. Qed.

Lemma escaped_clean_all (line : list segment) : Forall escaped_clean line.
Proof.
  induction line as [|g line IH]; constructor; [|exact IH].
  destruct g as [s|value]; [exact I|]. apply escape_no_markup.
Qed.

(** C6. What the HTML renderer returns, for a listing or for an error
    message, is the text of fixed pieces and of escaped fields: every field
    (domain, price, contact, url, expires, the error message) enters through
    [html.escape], whose result has no [<], [>], double quote or apostrophe;
    read by an HTML tokenizer from the start of the output, every character
    of an escaped field is text or part of the double-quoted value of [href],
    never part of the name of an element or attribute, of a script or of an
    event handler; and the output ends as text. *)
Theorem rendered_fields_escaped (sale_info : list (string * pyval))
    (error_message : pyval) (out : string) (line : list segment) :
  (renderer.render_sale_info sale_info = Return out /\
   line = join_lines (sale_info_lines sale_info)) \/
  (renderer.render_error error_message = Return out /\
   line = error_line (str_of error_message)) ->
  out = line_text line /\
  walk Data line = true /\
  run Data out = Data /\
  Forall escaped_clean line.
Proof.
  intros [[H ->]|[H ->]].
  - apply render_sale_info_lines in H. subst out.
    destruct (join_lines_ok _ (sale_info_lines_ok sale_info)) as [Hw Hr].
    repeat split; try assumption. apply escaped_clean_all.
  - apply render_error_line in H. subst out.
    destruct (error_line_ok (str_of error_message)) as [Hw Hr].
    repeat split; try assumption. apply escaped_clean_all.
Qed.

Lemma rendered_fields_escaped_witness :
  line_text (join_lines (sale_info_lines hostile_sale_info))
  = line_text (join_lines (sale_info_lines hostile_sale_info)) /\
  walk Data (join_lines (sale_info_lines hostile_sale_info)) = true /\
  run Data (line_text (join_lines (sale_info_lines hostile_sale_info))) = Data /\
  Forall escaped_clean (join_lines (sale_info_lines hostile_sale_info)).
Proof.
  apply (rendered_fields_escaped hostile_sale_info PNone).
  left. split; [vm_compute|]; reflexivity.
Defined.

(** * The claims on sample calls *)

Lemma rdap_policy_witness :
  api.for_sale (response_of sold_call) = true /\
  exists sources,
    api.source (response_of sold_call) = api.SourceList sources /\
    In "rdap" (deref (heap (snd sold_call)) sources).
Proof.
  split; [vm_compute; reflexivity|].
  destruct (rdap_policy quiet_lib sold_world "example.com" rdap_on
              initial_state (response_of sold_call) (snd sold_call))
    as [Hsale _].
  - reflexivity.
  - intros key txt_records ref expiry H. vm_compute in H. discriminate.
  - vm_compute. reflexivity.
  - destruct Hsale as (txts & sources & f1 & rd & f2 & s3 & _ & _ & _ & _ & _
                       & Hsrc & Hin); [vm_compute; reflexivity|].
    exists sources. split; assumption.
Defined.

Lemma oversize_text_dropped_witness :
  exists s',
    api.get_domain_sale_status quiet_lib oversize_world "example.com" None
      initial_state
    = (Return (api.new_response "example.com"), s')
    /\ api.for_sale (api.new_response "example.com") = false
    /\ api.errors (api.new_response "example.com") = [].
Proof.
  apply (oversize_text_dropped quiet_lib oversize_world "example.com" None
           initial_state [bytes_130; bytes_130]).
  - reflexivity.
  - vm_compute. reflexivity.
  - reflexivity.
  - vm_compute. reflexivity.
  - apply Nat.ltb_lt. vm_compute. reflexivity.
  - vm_compute. discriminate.
Defined.

(** C5, as stated, fails: the only text of the answer has 260 bytes, and
    the response has no error. *)
Lemma oversize_text_no_error :
  String.length (String.concat "" [bytes_130; bytes_130]) = 260%nat /\
  fst (api.get_domain_sale_status quiet_lib oversize_world "example.com" None
         initial_state)
  = Return (api.new_response "example.com") /\
  api.for_sale (api.new_response "example.com") = false /\
  api.errors (api.new_response "example.com") = [].
Proof. repeat split; vm_compute; reflexivity. Qed.

Lemma cache_expiry_and_failures_witness :
  cache._cache
    (snd (cache.get 400
            (cache.mkCache 300 (<["rdap:example.com" := (true, 300)]> ∅))
            "rdap:example.com"))
  !! "rdap:example.com" = None.
Proof.
  destruct (cache_expiry_and_failures quiet_lib (time_time sold_world)
              api.rdap_cache_ref
              (fun args : rdap.RDAPClient * string => "rdap:" +:+ snd args)
              (fun args => rdap.check_for_sale_status sold_world (fst args)
                             (snd args)))
    as [Hexpired _].
  - intros c s. reflexivity.
  - intros s. eexists _, _. split; reflexivity.
  - intros args s r s' H. injection H as _ <-. reflexivity.
  - apply (Hexpired 400 _ "rdap:example.com" true 300);
      [vm_compute; reflexivity|lia].
Defined.

Lemma source_shape_witness :
  exists ref,
    api.source (response_of sold_call) = api.SourceList ref /\
    deref (heap (snd sold_call)) ref = ["dns"; "rdap"].
Proof.
  destruct (source_shape quiet_lib sold_world "example.com" (Some rdap_on)
              initial_state (response_of sold_call) (snd sold_call))
    as [_ Hsale].
  - vm_compute. reflexivity.
  - destruct Hsale as (ref & Hsrc & Hlist); [vm_compute; reflexivity|].
    exists ref. split; [exact Hsrc|]. apply Hlist. vm_compute. reflexivity.
Defined.

(** C9, as stated, fails: the name has no text, and the source of the
    response is the string "dns". *)
Lemma unlisted_source_is_string :
  fst (api.get_domain_sale_status quiet_lib unlisted_world "example.com" None
         initial_state)
  = Return (api.new_response "example.com") /\
  api.for_sale (api.new_response "example.com") = false /\
  api.source (api.new_response "example.com") = api.SourceStr "dns".
Proof. repeat split; vm_compute; reflexivity. Qed.

Lemma cache_ttl_sticks_witness :
  cache.ttl
    (dns_cache
       (after_calls quiet_lib sold_world [("example.com", None)]
          (snd (api.get_domain_sale_status quiet_lib sold_world "example.org"
                  (Some (api.mkOptions false 60 5)) initial_state))))
  = 60.
Proof.
  destruct (cache_ttl_sticks quiet_lib sold_world "example.org"
              (api.mkOptions false 60 5) [("example.com", None)]
              initial_state)
    as (_ & _ & Hlater & _).
  - discriminate.
  - constructor; [reflexivity|constructor].
  - exact Hlater.
Defined.

(** * Two calls in a row *)

#[local] Instance clock_le_preorder : PreOrder clock_le.
Proof.
  split; [intros s; unfold clock_le; lia|].
  intros a b c H1 H2. unfold clock_le in *. lia.
Qed.


Lemma ticks_parts (k : nat) :
  forall s,
    dns_cache (ticks k s) = dns_cache s /\
    rdap_cache (ticks k s) = rdap_cache s /\
    heap (ticks k s) = heap s /\
    clock_reads (ticks k s) = (clock_reads s + k)%nat /\
    resolvers_made (ticks k s) = resolvers_made s /\
    dns_queries (ticks k s) = dns_queries s /\
    rdap_queries (ticks k s) = rdap_queries s.
Proof.
  induction k as [|k IH]; intros s; simpl.
  - repeat split; try reflexivity. lia.
  - destruct (IH (tick_clock s)) as (-> & -> & -> & -> & -> & -> & ->).
    simpl. repeat split; try reflexivity. lia.
Qed.

Lemma more_errors_nil (r : api.DomainSaleResponse) : more_errors [] r = r.
Proof. destruct r. unfold more_errors. simpl. now rewrite app_nil_r. Qed.

Lemma more_errors_cons (msg : string) (msgs : list string)
    (r : api.DomainSaleResponse) :
  more_errors msgs (api.append_error msg r) = more_errors (msg :: msgs) r.
Proof. unfold more_errors. simpl. now rewrite <- app_assoc. Qed.



Section loop_facts.
Variable L : PyLib.


End loop_facts.

Section two_calls.
Variable L : PyLib.
Variable W : World.

Local Abbreviation loop :=
  (loop_outcome L (fun n => today (clock W n))).

(** The loop over the texts reads the clock and records errors, as
    [loop_outcome] says. *)
Lemma process_records_eq (txt_records : list string) :
  forall (rd : pyval) (s : State) (r : api.DomainSaleResponse),
    api.process_records L W txt_records rd (s, r)
    = (fst (loop (clock_reads s) txt_records rd),
       (ticks (fst (snd (loop (clock_reads s) txt_records rd))) s,
        more_errors (snd (snd (loop (clock_reads s) txt_records rd))) r)).
Proof.
  induction txt_records as [|txt rest IH]; intros rd s r.
  - simpl. now rewrite more_errors_nil.
  - cbn [api.process_records loop_outcome]. unfold mbind.
    rewrite try_record_eq.
    destruct (validator.extract_and_validate_record L _ txt) as [rd'|e].
    + destruct (truthy rd').
      * simpl. now rewrite more_errors_nil.
      * rewrite IH. simpl clock_reads.
        destruct (loop (S (clock_reads s)) rest rd') as [out [k msgs]].
        reflexivity.
    + destruct (existsb (issubclass (class_of e)) _);
      [|simpl; now rewrite more_errors_nil].
      rewrite IH. simpl clock_reads.
      destruct (loop (S (clock_reads s)) rest rd) as [out [k msgs]].
      simpl. now rewrite more_errors_cons.
Qed.

(** The RDAP check through the cache, with no entry for the domain and
    with one. *)
Lemma check_rdap_status_absent (client : rdap.RDAPClient) (domain : string)
    (s : State) :
  cache._cache (rdap_cache s) !! ("rdap:" +:+ domain) = None ->
  api._check_rdap_status L W (client, domain) s
  = match check_for_sale_status W (rdap_queries s) (rdap.timeout client)
            domain with
    | Return b =>
        match cache.set L (epoch (clock W (clock_reads s))) (rdap_cache s)
                ("rdap:" +:+ domain) b with
        | Return self' =>
            (Return b, set_rdap_cache self' (tick_clock (count_rdap_query s)))
        | Raise e => (Raise e, tick_clock (count_rdap_query s))
        end
    | Raise e => (Raise e, count_rdap_query s)
    end.
Proof.
  intros H. unfold api._check_rdap_status.
  rewrite cached_absent by exact H.
  unfold mbind at 1. unfold rdap.check_for_sale_status. simpl fst. simpl snd.
  destruct (check_for_sale_status W _ _ _) as [b|e]; [|reflexivity].
  unfold mbind. rewrite cache_set_eq by reflexivity.
  cbn [cache.load api.rdap_cache_ref cache.store rdap_cache count_rdap_query
       clock_reads].
  destruct (cache.set L _ _ _ _); reflexivity.
Qed.


Lemma lookup_txt_records_present (self : resolver.DNSSecResolver)
    (domain : string) (s : State) (found : list string * nat) (expiry : Z)
    (res : result (list string * nat)) (s' : State) :
  cache._cache (dns_cache s) !! ("dns:" +:+ domain) = Some (found, expiry) ->
  api._lookup_txt_records L W (self, domain) s = (res, s') ->
  (clock_reads s < clock_reads s')%nat /\
  (epoch (clock W (clock_reads s)) < expiry ->
   res = Return found /\ s' = tick_clock s).
Proof.
  intros H. unfold api._lookup_txt_records.
  assert (Hget : cache.cache_get (time_time W) api.dns_cache_ref
                   ("dns:" +:+ domain) s
                 = (Return (fst (cache.get (epoch (clock W (clock_reads s)))
                                   (dns_cache s) ("dns:" +:+ domain))),
                    set_dns_cache
                      (snd (cache.get (epoch (clock W (clock_reads s)))
                              (dns_cache s) ("dns:" +:+ domain)))
                      (tick_clock s))).
  { rewrite cache_get_eq by reflexivity. unfold cache.contains. simpl.
    rewrite H. reflexivity. }
  rewrite (cached_run _ _ _ _ _ (self, domain) s _ _ Hget).
  unfold cache.get. rewrite H.
  destruct (epoch (clock W (clock_reads s)) <? expiry) eqn:Hlt.
  - intros [= <- <-]. split; [simpl; lia|]. intros _.
    split; [reflexivity|]. destruct s; reflexivity.
  - cbn [fst snd]. unfold mbind at 1. cbn [fst snd].
    rewrite lookup_for_sale_record_eq.
    destruct (lookup_texts L domain _) as [txts|e].
    + unfold mbind. rewrite cache_set_eq by reflexivity.
      destruct (cache.set L _ _ _ _);
        (intros [= <- <-]; split; [simpl; lia|];
         intros Hlt'; apply Z.ltb_lt in Hlt'; congruence).
    + intros [= <- <-]. split; [simpl; lia|].
      intros Hlt'. apply Z.ltb_lt in Hlt'. congruence.
Qed.
End two_calls.

(** * The second call *)

Section warm_call.
Variable L : PyLib.
Variable W : World.

Local Abbreviation loop :=
  (loop_outcome L (fun n => today (clock W n))).


End warm_call.

(** * Cache idempotence *)

Section idempotence_facts.
Variable L : PyLib.
Variable W : World.




End idempotence_facts.




(** * The validator, gate by gate *)

Lemma strip_prefix_app (p s rest : string) :
  json.strip_prefix p s = Some rest <-> s = p +:+ rest.
Proof.
  revert s. induction p as [|a p IH]; intros s; simpl.
  - split; [now intros [= ->]|now intros ->].
  - destruct s as [|b s]; [split; discriminate|].
    change (String a p +:+ rest) with (String a (p +:+ rest)).
    destruct (Ascii.eqb a b) eqn:E.
    + apply Ascii.eqb_eq in E. subst b. rewrite IH. split; congruence.
    + apply Ascii.eqb_neq in E. split; [discriminate|congruence].
Qed.

Lemma for_each_Return {A : Type} (l : list A) (body : A -> result unit) :
  for_each l body = Return tt <-> Forall (fun x => body x = Return tt) l.
Proof.
  induction l as [|x l IH]; simpl.
  - split; [constructor|reflexivity].
  - split.
    + intros H. apply bind_Return_inv in H as ([] & Hx & H).
      constructor; [exact Hx|now apply IH].
    + intros H. inversion H as [|? ? Hx Hl]; subst.
      rewrite Hx. simpl. now apply IH.
Qed.

Lemma for_each_Raise {A : Type} (l : list A) (body : A -> result unit)
    (e : exn) :
  for_each l body = Raise e -> exists x, In x l /\ body x = Raise e.
Proof.
  induction l as [|x l IH]; simpl; [discriminate|].
  destruct (body x) as [[]|e'] eqn:E; simpl.
  - intros H. destruct (IH H) as (y & Hy & Hb). eauto.
  - intros [= <-]. eauto.
Qed.

Lemma validate_schema_iff (record : pyval) :
  validator._validate_schema record = Return tt <->
  exists d, record = PDict d /\ schema_ok d.
Proof.
  unfold validator._validate_schema, schema_ok.
  destruct record as [| | | | | |d];
    try (split; [discriminate|intros (d & [=] & _)]).
  split.
  - intros H. apply bind_Return_inv in H as ([] & Hreq & Hkeys).
    exists d. split; [reflexivity|]. split.
    + apply for_each_Return in Hreq.
      eapply Forall_impl; [exact Hreq|]. cbv beta. intros k Hk.
      unfold validator.contains in Hk.
      destruct (dict_contains k d); [reflexivity|discriminate].
    + apply for_each_Return in Hkeys.
      eapply Forall_impl; [exact Hkeys|]. cbv beta. intros k Hk.
      destruct (validator.in_list k validator.ALLOWED_FIELDS);
        [reflexivity|discriminate].
  - intros (d' & [= <-] & Hreq & Hkeys).
    assert (H1 : for_each validator.REQUIRED_FIELDS
                   (fun field =>
                      if negb (validator.contains (PDict d) field)
                      then validator.raise SchemaValidationError
                             ("Missing required field: " +:+ field)
                      else Return tt) = Return tt).
    { apply for_each_Return. eapply Forall_impl; [exact Hreq|].
      cbv beta. intros k Hk. unfold validator.contains. now rewrite Hk. }
    rewrite H1, bind_Return. apply for_each_Return.
    eapply Forall_impl; [exact Hkeys|]. cbv beta. intros k Hk.
    now rewrite Hk.
Qed.

Lemma validate_schema_raises (record : pyval) (e : exn) :
  validator._validate_schema record = Raise e ->
  class_of e = SchemaValidationError.
Proof.
  unfold validator._validate_schema.
  destruct record as [| | | | | |d]; try (intros [= <-]; reflexivity).
  destruct (for_each validator.REQUIRED_FIELDS _) as [[]|e1] eqn:E1.
  - rewrite bind_Return. intros H.
    apply for_each_Raise in H as (k & _ & H).
    destruct (negb _); [injection H as <-; reflexivity|discriminate].
  - rewrite bind_Raise. intros [= <-].
    apply for_each_Raise in E1 as (k & _ & H).
    destruct (negb _); [injection H as <-; reflexivity|discriminate].
Qed.

(** X1.  The schema gate passes exactly the JSON objects that have the four
    required keys and no key beyond the allowed ones; whatever else it is
    given, it raises [SchemaValidationError]. *)
Theorem schema_gate (record : pyval) :
  (validator._validate_schema record = Return tt <->
   exists d, record = PDict d /\ schema_ok d) /\
  (forall e, validator._validate_schema record = Raise e ->
             class_of e = SchemaValidationError).
Proof.
  split; [apply validate_schema_iff|apply validate_schema_raises].
Qed.

Section gates.
Variable L : PyLib.
Variable today : datetime.date.

Lemma validate_url_iff (v : pyval) :
  validator._validate_url L v = Return tt <-> url_ok L v.
Proof.
  unfold validator._validate_url, url_ok. rewrite try_except_Exception.
  destruct (urllib.urlparse L v) as [[scheme netloc p1 p2 p3 p4|]|e]; simpl.
  - rewrite orb_false_r.
    destruct (String.eqb scheme "https") eqn:Es; simpl.
    + apply String.eqb_eq in Es. subst scheme.
      destruct (String.eqb netloc "") eqn:En; simpl.
      * apply String.eqb_eq in En. split; [discriminate|].
        intros (n & a & b & c & d & [= <- _ _ _ _] & Hn). congruence.
      * apply String.eqb_neq in En. split; [|reflexivity].
        intros _. exists netloc, p1, p2, p3, p4. split; [reflexivity|exact En].
    + apply String.eqb_neq in Es. split; [discriminate|].
      intros (n & a & b & c & d & [= -> _ _ _ _] & _). congruence.
  - split; [discriminate|intros (n & a & b & c & d & [=] & _)].
  - split; [discriminate|intros (n & a & b & c & d & [=] & _)].
Qed.

Lemma validate_contact_iff (v : pyval) :
  validator._validate_contact L v = Return tt <-> contact_ok L v.
Proof.
  unfold validator._validate_contact, contact_ok. rewrite try_except_Exception.
  destruct (urllib.urlparse L v) as [[scheme netloc p1 p2 p3 p4|]|e]; simpl.
  - rewrite orb_false_r.
    destruct (String.eqb scheme "mailto") eqn:Es; simpl.
    + apply String.eqb_eq in Es. subst scheme.
      destruct (String.eqb p1 "") eqn:En; simpl.
      * apply String.eqb_eq in En. split; [discriminate|].
        intros (n & a & b & c & d & [= _ <- _ _ _] & Hn). congruence.
      * apply String.eqb_neq in En. split; [|reflexivity].
        intros _. exists netloc, p1, p2, p3, p4. split; [reflexivity|exact En].
    + apply String.eqb_neq in Es. split; [discriminate|].
      intros (n & a & b & c & d & [= -> _ _ _ _] & _). congruence.
  - split; [discriminate|intros (n & a & b & c & d & [=] & _)].
  - split; [discriminate|intros (n & a & b & c & d & [=] & _)].
Qed.

Lemma validate_expires_iff (v : pyval) :
  validator._validate_expires L today v = Return tt <-> expires_ok L today v.
Proof.
  unfold validator._validate_expires, expires_ok, re.match_.
  destruct v as [| | | |s| |];
    try (split; [discriminate|intros (s' & d & [=] & _)]).
  rewrite bind_Return.
  destruct (re.date_pattern s) eqn:Hp; simpl negb; cbv iota.
  - destruct (datetime.strptime L (PStr s)) as [date|e] eqn:Hd.
    + rewrite bind_Return.
      destruct (datetime.date_lt date today) eqn:Hlt.
      * split; [discriminate|].
        intros (s' & d & [= <-] & _ & [= <-] & Hlt'). congruence.
      * split; [|reflexivity]. intros _. exists s, date. auto.
    + rewrite bind_Raise. split.
      * unfold try_except. destruct (select_handler e _) as [h|] eqn:Hsel;
          [|discriminate].
        simpl in Hsel. destruct (clause_matches e _); [|discriminate].
        injection Hsel as <-. discriminate.
      * intros (s' & d & _ & _ & [=] & _).
  - split; [discriminate|].
    intros (s' & d & [= <-] & Hp' & _). congruence.
Qed.

Lemma validate_fields_iff (d : list (string * pyval)) :
  validator._validate_fields L today (PDict d) = Return tt <->
  fields_ok L today d.
Proof.
  unfold validator._validate_fields, fields_ok, validator.getitem,
    validator.contains, dict_contains.
  destruct (dict_get "v" d) as [v|] eqn:Ev;
    [|split; [discriminate|intros ([=] & _)]].
  rewrite bind_Return.
  destruct (validator.is_str v "1") eqn:Hv; simpl negb; cbv iota.
  2:{ split; [discriminate|]. intros ([= ->] & _). discriminate. }
  assert (v = PStr "1") as ->.
  { destruct v; try discriminate. simpl in Hv.
    apply String.eqb_eq in Hv. now subst. }
  destruct (dict_get "price" d) as [price|] eqn:Ep;
    [|split; [discriminate|intros (_ & (p & [=] & _) & _)]].
  rewrite bind_Return. unfold re.match_.
  destruct price as [| | | |p| |];
    try (split; [discriminate|intros (_ & (p' & [=] & _) & _)]).
  rewrite bind_Return.
  destruct (re.price_pattern p) eqn:Hp; simpl negb; cbv iota.
  2:{ split; [discriminate|]. intros (_ & (p' & [= <-] & Hp') & _).
      congruence. }
  destruct (dict_get "url" d) as [url|] eqn:Eu;
    [|split; [discriminate|intros (_ & _ & (u & [=] & _) & _)]].
  rewrite bind_Return.
  destruct (validator._validate_url L url) as [[]|e] eqn:Hu.
  2:{ split; [discriminate|]. intros (_ & _ & (u & [= <-] & Hu') & _).
      apply validate_url_iff in Hu'. congruence. }
  apply validate_url_iff in Hu. rewrite bind_Return.
  destruct (dict_get "contact" d) as [contact|] eqn:Ec;
    [|split; [discriminate|intros (_ & _ & _ & (c & [=] & _) & _)]].
  rewrite bind_Return.
  destruct (validator._validate_contact L contact) as [[]|e] eqn:Hc.
  2:{ split; [discriminate|]. intros (_ & _ & _ & (c & [= <-] & Hc') & _).
      apply validate_contact_iff in Hc'. congruence. }
  apply validate_contact_iff in Hc. rewrite bind_Return.
  destruct (dict_get "expires" d) as [expires|] eqn:Ee.
  - rewrite bind_Return. rewrite validate_expires_iff. split.
    + intros He. repeat split; eauto. intros x [= <-]. exact He.
    + intros (_ & _ & _ & _ & He). now apply He.
  - split; [|reflexivity]. intros _. repeat split; eauto. discriminate.
Qed.

(** The handlers of [extract_and_validate_record] raise. *)
Lemma extract_handlers_raise (cs : list exn_class) (h : exn -> result pyval) :
  In (cs, h)
    [([JSONDecodeError],
      fun e => validator.raise SchemaValidationError
                 ("Failed to parse JSON content: " +:+ str e));
     ([SchemaValidationError; FieldValidationError], fun e => Raise e);
     ([Exception],
      fun e => validator.raise SchemaValidationError
                 ("Error validating TXT record: " +:+ str e))] ->
  forall e, exists e', h e = Raise e'.
Proof.
  intros Hin e. simpl in Hin.
  destruct Hin as [[= <- <-]|[[= <- <-]|[[= <- <-]|[]]]]; eexists;
    reflexivity.
Qed.

Lemma extract_accepts (txt_record : string) (d : list (string * pyval)) :
  validator.extract_and_validate_record L today txt_record = Return (PDict d)
  <->
  (String.length txt_record <= validator.MAX_TXT_SIZE)%nat /\
  (exists json_content,
      txt_record = validator.VERSION_TAG +:+ json_content /\
      json.loads L json_content = Return (PDict d)) /\
  schema_ok d /\ fields_ok L today d.
Proof.
  unfold validator.extract_and_validate_record. split.
  - destruct (validator.MAX_TXT_SIZE <? String.length txt_record)%nat eqn:Hs;
      [discriminate|].
    apply Nat.ltb_ge in Hs.
    destruct (json.strip_prefix validator.VERSION_TAG txt_record)
      as [json_content|] eqn:Hp; [|discriminate].
    apply strip_prefix_app in Hp. intros H.
    apply try_except_Return in H; [|apply extract_handlers_raise].
    apply bind_Return_inv in H as (record & Hloads & H).
    apply bind_Return_inv in H as ([] & Hschema & H).
    apply bind_Return_inv in H as ([] & Hfields & H).
    injection H as ->.
    apply validate_schema_iff in Hschema as (d' & [= <-] & Hschema).
    apply validate_fields_iff in Hfields.
    split; [exact Hs|]. split; [eauto|]. split; assumption.
  - intros (Hs & (json_content & -> & Hloads) & Hschema & Hfields).
    apply Nat.ltb_ge in Hs. rewrite Hs.
    rewrite (proj2 (strip_prefix_app _ _ json_content) eq_refl).
    rewrite Hloads, bind_Return.
    rewrite (proj2 (validate_schema_iff (PDict d))) by eauto.
    rewrite bind_Return.
    rewrite (proj2 (validate_fields_iff d) Hfields).
    reflexivity.
Qed.

Lemma extract_raises (txt_record : string) (e : exn) :
  validator.extract_and_validate_record L today txt_record = Raise e ->
  class_of e = SizeExceededError \/ class_of e = SchemaValidationError \/
  class_of e = FieldValidationError.
Proof.
  unfold validator.extract_and_validate_record.
  destruct (validator.MAX_TXT_SIZE <? String.length txt_record)%nat;
    [intros [= <-]; now left|].
  destruct (json.strip_prefix validator.VERSION_TAG txt_record)
    as [json_content|]; [|discriminate].
  destruct (_ <- json.loads L json_content ;; _)%result as [record|e0];
    [discriminate|].
  destruct e0 as [cls msg].
  destruct cls; simpl; intros [= <-]; simpl; auto.
Qed.
End gates.

(** X2.  The validator returns a dictionary exactly for the texts of at
    most 255 bytes that are the version tag followed by a JSON object with
    the four required keys and no unknown key, whose [v] is the string 1,
    whose price is a string that matches the price pattern, whose url parses
    with the scheme https and a host, whose contact parses with the scheme
    mailto and an address, and whose expires, when present, is a string
    that matches the date pattern, names a date of the calendar and is not
    before today. *)
Theorem accepted_records (L : PyLib) (today : datetime.date)
    (txt_record : string) (d : list (string * pyval)) :
  validator.extract_and_validate_record L today txt_record = Return (PDict d)
  <->
  (String.length txt_record <= validator.MAX_TXT_SIZE)%nat /\
  (exists json_content,
      txt_record = validator.VERSION_TAG +:+ json_content /\
      json.loads L json_content = Return (PDict d)) /\
  schema_ok d /\ fields_ok L today d.
Proof. apply extract_accepts. Qed.

(** X3.  On a text that has a UTF-8 encoding, whatever the validator
    raises is a [SizeExceededError], a [SchemaValidationError] or a
    [FieldValidationError]: every other exception of the parser or of a
    field check is turned into a [SchemaValidationError].  (A [str] with a
    lone surrogate has no encoding: there the size check of the source
    raises [UnicodeEncodeError] before the [try] block is entered.) *)
Theorem validator_error_classes (L : PyLib) (today : datetime.date)
    (txt_record : string) (e : exn) :
  resolver.utf8_valid txt_record = true ->
  validator.extract_and_validate_record L today txt_record = Raise e ->
  class_of e = SizeExceededError \/ class_of e = SchemaValidationError \/
  class_of e = FieldValidationError.
Proof. intros _. apply extract_raises. Qed.

Lemma validator_error_classes_witness :
  class_of (Exn FieldValidationError
              "Invalid URL: Invalid URL scheme: http. Must be one of: https")
  = SizeExceededError \/
  class_of (Exn FieldValidationError
              "Invalid URL: Invalid URL scheme: http. Must be one of: https")
  = SchemaValidationError \/
  class_of (Exn FieldValidationError
              "Invalid URL: Invalid URL scheme: http. Must be one of: https")
  = FieldValidationError.
Proof.
  apply (validator_error_classes quiet_lib a_day record_http).
  - vm_compute. reflexivity.
  - vm_compute. reflexivity.
Defined.

(** X4.  A record that passes the schema gate with the version 1 and a
    price that is no string (a JSON number, say) is refused with a
    [SchemaValidationError], not a [FieldValidationError]: the [TypeError]
    of the pattern match is caught by the last handler. *)
Theorem price_of_wrong_type (L : PyLib) (today : datetime.date)
    (json_content : string) (d : list (string * pyval)) (price : pyval) :
  (String.length (validator.VERSION_TAG +:+ json_content)
   <= validator.MAX_TXT_SIZE)%nat ->
  json.loads L json_content = Return (PDict d) ->
  schema_ok d ->
  dict_get "v" d = Some (PStr "1") ->
  dict_get "price" d = Some price ->
  (forall s, price <> PStr s) ->
  validator.extract_and_validate_record L today
    (validator.VERSION_TAG +:+ json_content)
  = Raise (Exn SchemaValidationError
             ("Error validating TXT record: "
              +:+ error_text L "re.match" price)).
Proof.
  intros Hs Hloads Hschema Hv Hprice Hstr.
  unfold validator.extract_and_validate_record.
  apply Nat.ltb_ge in Hs. rewrite Hs.
  rewrite (proj2 (strip_prefix_app _ _ json_content) eq_refl).
  rewrite Hloads, bind_Return.
  rewrite (proj2 (validate_schema_iff (PDict d))) by eauto.
  rewrite bind_Return.
  unfold validator._validate_fields, validator.getitem.
  rewrite Hv, bind_Return. simpl negb. cbv iota.
  rewrite Hprice, bind_Return.
  destruct price as [| | | |s| |]; try reflexivity.
  now destruct (Hstr s).
Qed.

Lemma price_of_wrong_type_witness :
  validator.extract_and_validate_record quiet_lib a_day
    (validator.VERSION_TAG +:+ number_price_content)
  = Raise (Exn SchemaValidationError
             ("Error validating TXT record: "
              +:+ error_text quiet_lib "re.match" (PInt 1000))).
Proof.
  apply (price_of_wrong_type quiet_lib a_day number_price_content
           [("v", PStr "1"); ("price", PInt 1000);
            ("url", PStr "https://sale.example");
            ("contact", PStr "mailto:o@example.com")] (PInt 1000)).
  - apply Nat.leb_le. vm_compute. reflexivity.
  - vm_compute. reflexivity.
  - split; repeat constructor.
  - reflexivity.
  - reflexivity.
  - discriminate.
Defined.

(** * The cache as a map *)

Section cache_map.
Context {T : Type}.
Implicit Types (self : cache.Cache T) (key : string) (now : Z).

Lemma get_served now self key :
  fst (cache.get now self key) = served now (cache._cache self !! key).
Proof.
  unfold cache.get, served.
  destruct (cache._cache self !! key) as [[value expiry]|]; [|reflexivity].
  destruct (now <? expiry); reflexivity.
Qed.

(** A [get] from the cache with one more entry. *)
Lemma get_after_insert now' self key key' (value : T) (expiry : Z) :
  fst (cache.get now'
         (cache.mkCache (cache.ttl self)
            (<[key := (value, expiry)]> (cache._cache self))) key')
  = if String.eqb key' key
    then (if now' <? expiry then Some value else None)
    else fst (cache.get now' self key').
Proof.
  rewrite !get_served. cbn [cache._cache].
  destruct (String.eqb_spec key' key) as [->|Hne].
  - rewrite lookup_insert_eq. reflexivity.
  - rewrite lookup_insert_ne by congruence. reflexivity.
Qed.

(** What [Cache.set] does: when the time to live converts to a float, the
    entry is stored with the float sum for its expiry instant, and a [get]
    returns the value before that instant; when it does not convert,
    [OverflowError] is raised. *)
Lemma set_effect (L : PyLib) now now' self key (value : T) :
  match float_of_int L (cache.ttl self) with
  | Some seconds =>
      exists self',
        cache.set L now self key value = Return self' /\
        cache.ttl self' = cache.ttl self /\
        cache._cache self'
        = <[key := (value, float_add L now seconds)]> (cache._cache self) /\
        forall key',
          fst (cache.get now' self' key')
          = if String.eqb key' key
            then (if now' <? float_add L now seconds then Some value else None)
            else fst (cache.get now' self key')
  | None =>
      cache.set L now self key value
      = Raise (Exn OverflowError "int too large to convert to float")
  end.
Proof.
  destruct (float_of_int L (cache.ttl self)) as [seconds|] eqn:E.
  - eexists. split; [exact (set_returns L now self key value seconds E)|].
    split; [reflexivity|]. split; [reflexivity|].
    intros key'. apply get_after_insert.
  - exact (set_raises L now self key value E).
Qed.

Lemma len_entries now self (key : string) (entry : T * Z) :
  cache._cache (snd (cache.__len__ now self)) !! key = Some entry <->
  cache._cache self !! key = Some entry /\ now < snd entry.
Proof.
  unfold cache.__len__. cbn [snd cache._cache].
  rewrite map_lookup_filter_Some. reflexivity.
Qed.

Lemma len_get now self key :
  fst (cache.get now (snd (cache.__len__ now self)) key)
  = fst (cache.get now self key).
Proof.
  rewrite !get_served.
  destruct (cache._cache (snd (cache.__len__ now self)) !! key)
    as [[value expiry]|] eqn:E.
  - apply len_entries in E as [-> _]. reflexivity.
  - destruct (cache._cache self !! key) as [[value expiry]|] eqn:E';
      [|reflexivity].
    cbn [served]. destruct (now <? expiry) eqn:Hlt; [|reflexivity].
    apply Z.ltb_lt in Hlt.
    assert (H : cache._cache (snd (cache.__len__ now self)) !! key
                = Some (value, expiry)) by (apply len_entries; auto).
    congruence.
Qed.
End cache_map.

(** X5.  [Cache.set] adds the time to live to the time as floats.  When
    the time to live converts to a float, the value is stored under the key
    with the float sum as its expiry instant, the time to live and the
    other entries are as they were, and a later [get] returns the value
    for the key when its time is before that instant and nothing
    otherwise, and for every other key what it returned before the [set].
    When the time to live does not convert, [set] raises [OverflowError]
    and stores nothing. *)
Theorem set_then_get {T : Type} (L : PyLib) (now now' : Z)
    (self : cache.Cache T) (key : string) (value : T) :
  match float_of_int L (cache.ttl self) with
  | Some seconds =>
      exists self',
        cache.set L now self key value = Return self' /\
        cache.ttl self' = cache.ttl self /\
        cache._cache self'
        = <[key := (value, float_add L now seconds)]> (cache._cache self) /\
        forall key',
          fst (cache.get now' self' key')
          = if String.eqb key' key
            then (if now' <? float_add L now seconds then Some value else None)
            else fst (cache.get now' self key')
  | None =>
      cache.set L now self key value
      = Raise (Exn OverflowError "int too large to convert to float")
  end.
Proof. apply set_effect. Qed.

(** X6.  [invalidate] removes the entry of its key and no other, [clear]
    removes every entry, and both leave the time to live as it was: after
    them a [get] returns nothing for the key (for any key), and [len] of a
    cleared cache is zero. *)
Theorem invalidate_and_clear {T : Type} (now : Z) (self : cache.Cache T)
    (key key' : string) :
  fst (cache.get now (cache.invalidate self key) key')
  = (if String.eqb key' key then None else fst (cache.get now self key')) /\
  fst (cache.get now (cache.clear self) key') = None /\
  fst (cache.__len__ now (cache.clear self)) = 0%nat /\
  cache.ttl (cache.invalidate self key) = cache.ttl self /\
  cache.ttl (cache.clear self) = cache.ttl self.
Proof.
  split; [|split; [|split; [|split; reflexivity]]].
  - rewrite !get_served. unfold cache.invalidate. cbn [cache._cache].
    destruct (String.eqb_spec key' key) as [->|Hne].
    + now rewrite lookup_delete_eq.
    + now rewrite lookup_delete_ne by congruence.
  - rewrite get_served. unfold cache.clear. cbn [cache._cache].
    now rewrite lookup_empty.
  - unfold cache.__len__, cache.clear. cbn [fst cache._cache].
    rewrite map_filter_empty. apply map_size_empty.
Qed.

(** X7.  [len] counts the entries that have not expired and drops the
    others: the entries left are those whose expiry instant is after now,
    their number is what is returned and is at most the number of entries
    there were, a [get] at the same instant returns what it would have
    returned before, and a second [len] at the same instant changes
    nothing. *)
Theorem len_drops_expired {T : Type} (now : Z) (self : cache.Cache T) :
  (forall key entry,
      cache._cache (snd (cache.__len__ now self)) !! key = Some entry <->
      cache._cache self !! key = Some entry /\ now < snd entry) /\
  fst (cache.__len__ now self)
  = size (cache._cache (snd (cache.__len__ now self))) /\
  (fst (cache.__len__ now self) <= size (cache._cache self))%nat /\
  (forall key,
      fst (cache.get now (snd (cache.__len__ now self)) key)
      = fst (cache.get now self key)) /\
  cache.__len__ now (snd (cache.__len__ now self)) = cache.__len__ now self.
Proof.
  split; [apply len_entries|]. split; [reflexivity|].
  split; [apply map_subseteq_size, map_filter_subseteq|].
  split; [apply len_get|].
  unfold cache.__len__. cbn [snd cache._cache cache.ttl].
  assert (H : filter (fun kv : string * (T * Z) => now < snd (snd kv))
                (filter (fun kv : string * (T * Z) => now < snd (snd kv))
                        (cache._cache self))
              = filter (fun kv : string * (T * Z) => now < snd (snd kv))
                       (cache._cache self)).
  { apply map_filter_id. intros i x Hx.
    apply map_lookup_filter_Some in Hx as [_ Hx]. exact Hx. }
  rewrite H. reflexivity.
Qed.

(** X8.  Changing the time to live does not change the entries: a [get]
    returns what it returned under the old time to live, and only a later
    [set] uses the new one, for the expiry instant of the entry it stores;
    when the new time to live does not convert to a float, that [set]
    raises [OverflowError]. *)
Theorem set_ttl_keeps_entries {T : Type} (L : PyLib) (now now' : Z)
    (new_ttl : Z) (self : cache.Cache T) (key : string) (value : T) :
  cache._cache (cache.set_ttl new_ttl self) = cache._cache self /\
  fst (cache.get now (cache.set_ttl new_ttl self) key)
  = fst (cache.get now self key) /\
  match float_of_int L new_ttl with
  | Some seconds =>
      exists self',
        cache.set L now (cache.set_ttl new_ttl self) key value = Return self' /\
        cache.ttl self' = new_ttl /\
        fst (cache.get now' self' key)
        = (if now' <? float_add L now seconds then Some value else None)
  | None =>
      cache.set L now (cache.set_ttl new_ttl self) key value
      = Raise (Exn OverflowError "int too large to convert to float")
  end.
Proof.
  split; [reflexivity|]. split; [rewrite !get_served; reflexivity|].
  pose proof (set_effect L now now' (cache.set_ttl new_ttl self) key value)
    as H.
  cbn [cache.ttl cache.set_ttl] in H.
  destruct (float_of_int L new_ttl) as [seconds|]; [|exact H].
  destruct H as (self' & Hset & Httl & _ & Hget).
  exists self'. split; [exact Hset|]. split; [exact Httl|].
  rewrite Hget, String.eqb_refl. reflexivity.
Qed.

(** * The wrapper on a live entry, and the resolver *)

Section cached_entry.
Context {S T Args : Type}.
Variable L : PyLib.
Variable time_time : M S Z.
Variable ref : cache.cache_ref S T.
Variable key_func : Args -> string.
Variable func : Args -> M S T.

Hypothesis clock_returns :
  forall s, exists now s',
    time_time s = (Return now, s') /\ cache.load ref s' = cache.load ref s.

(** X9.  With an entry under the key, the wrapper of [cached] reads the
    clock.  Before the expiry instant it returns the stored value and does
    not call the function.  From the expiry instant on it deletes the
    entry and calls the function: when the function raises, so does the
    wrapper, with the entry gone; when the function returns, the clock is
    read again and the result is stored under the key with the float sum
    of that time and the time to live for its expiry instant, and returned;
    when the time to live does not convert to a float, the wrapper raises
    [OverflowError] instead, and the result is lost. *)
Theorem cached_on_entry (args : Args) (s : S) (value : T) (expiry : Z) :
  cache._cache (cache.load ref s) !! key_func args = Some (value, expiry) ->
  exists now s1,
    time_time s = (Return now, s1) /\
    (now < expiry ->
     cache.cached L time_time ref key_func func args s
     = (Return value, cache.store ref (cache.load ref s) s1)) /\
    (expiry <= now ->
     match func args
             (cache.store ref
                (cache.mkCache (cache.ttl (cache.load ref s))
                   (delete (key_func args) (cache._cache (cache.load ref s))))
                s1) with
     | (Raise e, s2) =>
         cache.cached L time_time ref key_func func args s = (Raise e, s2)
     | (Return result, s2) =>
         exists now2 s3,
           time_time s2 = (Return now2, s3) /\
           match float_of_int L (cache.ttl (cache.load ref s3)) with
           | Some seconds =>
               cache.cached L time_time ref key_func func args s
               = (Return result,
                  cache.store ref
                    (cache.mkCache (cache.ttl (cache.load ref s3))
                       (<[key_func args
                          := (result, float_add L now2 seconds)]>
                          (cache._cache (cache.load ref s3))))
                    s3)
           | None =>
               cache.cached L time_time ref key_func func args s
               = (Raise (Exn OverflowError
                           "int too large to convert to float"), s3)
           end
     end).
Proof.
  intros Hentry. destruct (clock_returns s) as (now & s1 & Hclock & Hsame).
  exists now, s1. split; [exact Hclock|].
  assert (Hget : cache.cache_get time_time ref (key_func args) s
                 = (Return (fst (cache.get now (cache.load ref s)
                                   (key_func args))),
                    cache.store ref
                      (snd (cache.get now (cache.load ref s) (key_func args)))
                      s1)).
  { unfold cache.cache_get, mbind, gets, cache.contains, modify, ret.
    rewrite Hentry, Hclock, Hsame.
    destruct (cache.get now (cache.load ref s) (key_func args)).
    reflexivity. }
  rewrite (cached_run _ _ _ _ _ args s _ _ Hget). split.
  - intros Hlt. rewrite (get_live _ _ _ _ _ Hentry Hlt). reflexivity.
  - intros Hge. rewrite (get_expired _ _ _ _ _ Hentry Hge). cbn [fst snd].
    unfold mbind.
    destruct (func args _) as [[result|e] s2]; [|reflexivity].
    destruct (clock_returns s2) as (now2 & s3 & Hclock2 & _).
    exists now2, s3. split; [exact Hclock2|].
    unfold cache.cache_set, mbind, gets, lift_result, modify, ret.
    rewrite Hclock2.
    destruct (float_of_int L (cache.ttl (cache.load ref s3))) as [seconds|]
      eqn:E.
    + rewrite (set_returns L _ _ _ _ seconds E). reflexivity.
    + rewrite (set_raises L _ _ _ _ E). reflexivity.
Qed.
End cached_entry.

Lemma cached_on_entry_witness :
  api._check_rdap_status quiet_lib sold_world (rdap.__init__ 5, "example.com")
    (snd sold_call)
  = (Return true,
     set_rdap_cache (rdap_cache (snd sold_call)) (tick_clock (snd sold_call))).
Proof.
  destruct (cached_on_entry quiet_lib (time_time sold_world)
              api.rdap_cache_ref
              (fun args : rdap.RDAPClient * string => "rdap:" +:+ snd args)
              (fun args => rdap.check_for_sale_status sold_world (fst args)
                             (snd args))
              (fun s => ex_intro _ _ (ex_intro _ _ (conj eq_refl eq_refl)))
              (rdap.__init__ 5, "example.com") (snd sold_call) true 1300)
    as (now & s1 & Hclock & Hlive & _).
  - vm_compute. reflexivity.
  - injection Hclock as <- <-. apply Hlive. vm_compute. reflexivity.
Defined.

Section resolver_facts.
Variable L : PyLib.
Variable W : World.

(** The texts that the loop over the answer collects. *)
Lemma collect_txt_bounded (answers : list (list string)) :
  forall (txt_records txts : list string),
    Forall (fun t => (String.length t <= resolver.MAX_TXT_SIZE)%nat /\
                     resolver.utf8_valid t = true) txt_records ->
    resolver.collect_txt L answers txt_records = Return txts ->
    Forall (fun t => (String.length t <= resolver.MAX_TXT_SIZE)%nat /\
                     resolver.utf8_valid t = true) txts.
Proof.
  induction answers as [|rdata rest IH]; intros acc txts Hacc; simpl.
  - now intros [= <-].
  - unfold resolver.decode_utf8.
    destruct (resolver.utf8_valid (String.concat "" rdata)) eqn:Hv;
      [|discriminate].
    rewrite bind_Return.
    destruct (resolver.MAX_TXT_SIZE <? _)%nat eqn:Hs.
    + now apply IH.
    + apply IH. apply Forall_app. split; [exact Hacc|].
      constructor; [|constructor]. apply Nat.ltb_ge in Hs. auto.
Qed.

Lemma lookup_texts_raises (domain : string)
    (answer : result (list (list string))) (e : exn) :
  lookup_texts L domain answer = Raise e ->
  class_of e = TimeoutError \/ class_of e = DNSSECValidationError \/
  class_of e = UnicodeDecodeError.
Proof.
  unfold lookup_texts. destruct answer as [answers|e0].
  - intros H. apply collect_txt_raises in H. auto.
  - destruct (class_of e0); intros [= <-]; simpl; auto.
Qed.

Lemma extract_size_error (today : datetime.date) (txt_record : string)
    (e : exn) :
  validator.extract_and_validate_record L today txt_record = Raise e ->
  class_of e = SizeExceededError ->
  (validator.MAX_TXT_SIZE < String.length txt_record)%nat.
Proof.
  unfold validator.extract_and_validate_record.
  destruct (validator.MAX_TXT_SIZE <? String.length txt_record)%nat eqn:Hs;
    [intros _ _; now apply Nat.ltb_lt|].
  destruct (json.strip_prefix validator.VERSION_TAG txt_record)
    as [json_content|]; [|discriminate].
  destruct (_ <- json.loads L json_content ;; _)%result as [record|e0];
    [discriminate|].
  destruct e0 as [cls msg].
  destruct cls; simpl; intros [= <-]; simpl; discriminate.
Qed.
End resolver_facts.

(** X10.  One lookup of the resolver makes one query.  It raises only a
    [TimeoutError], a [DNSSECValidationError] or the [UnicodeDecodeError]
    of a text that is not UTF-8.  A [ValidationFailure] of the resolver
    is reported under the message of [_lookup_with_dnssec], so the handler
    for it in [lookup_for_sale_record] never runs.  The texts returned are
    valid UTF-8 of at most 255 bytes, and come with a new list that holds
    "dns". *)
Theorem resolver_outcomes (L : PyLib) (W : World)
    (self : resolver.DNSSecResolver) (domain : string) (s : State)
    (r : result (list string * nat)) (s' : State) :
  resolver.lookup_for_sale_record L W self domain s = (r, s') ->
  dns_queries s' = S (dns_queries s) /\
  (forall e, r = Raise e ->
     class_of e = TimeoutError \/ class_of e = DNSSECValidationError \/
     class_of e = UnicodeDecodeError) /\
  (forall e,
     next_answer W s (resolver.timeout self) domain = Raise e ->
     class_of e = dns_ValidationFailure ->
     r = Raise (Exn DNSSECValidationError
                  ("DNS lookup or DNSSEC validation failed for "
                   +:+ resolver.FOR_SALE_PREFIX +:+ "." +:+ domain
                   +:+ ": " +:+ str e))) /\
  (forall txt_records sources,
     r = Return (txt_records, sources) ->
     Forall (fun t => (String.length t <= resolver.MAX_TXT_SIZE)%nat /\
                      resolver.utf8_valid t = true) txt_records /\
     sources = length (heap s) /\
     deref (heap s') sources = ["dns"]).
Proof.
  rewrite lookup_for_sale_record_eq.
  destruct (lookup_texts L domain _) as [txts|e0] eqn:Ht;
    intros [= <- <-]; (split; [reflexivity|]); split.
  - discriminate.
  - split.
    + intros e He Hcls. unfold lookup_texts in Ht. rewrite He, Hcls in Ht.
      discriminate.
    + intros txts' ref [= <- <-]. split; [|split].
      * unfold lookup_texts in Ht.
        destruct (next_answer W s _ domain) as [answers|e].
        -- exact (collect_txt_bounded L answers [] txts (Forall_nil_2 _) Ht).
        -- destruct (class_of e); try discriminate;
             injection Ht as <-; constructor.
      * reflexivity.
      * apply deref_last.
  - intros e [= <-]. exact (lookup_texts_raises L domain _ _ Ht).
  - split.
    + intros e He Hcls. unfold lookup_texts in Ht. rewrite He, Hcls in Ht.
      injection Ht as <-. reflexivity.
    + discriminate.
Qed.

Lemma resolver_outcomes_witness :
  dns_queries
    (snd (resolver.lookup_for_sale_record quiet_lib oversize_world
            (resolver.mkResolver 5) "example.com" initial_state))
  = 1%nat /\
  fst (resolver.lookup_for_sale_record quiet_lib oversize_world
         (resolver.mkResolver 5) "example.com" initial_state)
  = Return ([], 0%nat).
Proof.
  destruct (resolver_outcomes quiet_lib oversize_world (resolver.mkResolver 5)
              "example.com" initial_state
              (fst (resolver.lookup_for_sale_record quiet_lib oversize_world
                      (resolver.mkResolver 5) "example.com" initial_state))
              (snd (resolver.lookup_for_sale_record quiet_lib oversize_world
                      (resolver.mkResolver 5) "example.com" initial_state)))
    as (Hq & _).
  - vm_compute. reflexivity.
  - split; [exact Hq|vm_compute; reflexivity].
Defined.

(** X11.  No text that the resolver returns makes the validator raise
    [SizeExceededError]: the resolver has dropped the texts of more than
    255 bytes, so the size check of the validator never fails on a text
    looked up. *)
Theorem looked_up_texts_fit (L : PyLib) (W : World)
    (self : resolver.DNSSecResolver) (domain : string) (s : State)
    (txt_records : list string) (sources : nat) (s' : State)
    (today : datetime.date) (txt_record : string) (e : exn) :
  resolver.lookup_for_sale_record L W self domain s
  = (Return (txt_records, sources), s') ->
  In txt_record txt_records ->
  validator.extract_and_validate_record L today txt_record = Raise e ->
  class_of e = SchemaValidationError \/ class_of e = FieldValidationError.
Proof.
  rewrite lookup_for_sale_record_eq.
  destruct (lookup_texts L domain _) as [txts|e0] eqn:Ht; [|discriminate].
  intros [= <- _ _] Hin Hraise.
  assert (Hfit : Forall (fun t =>
                           (String.length t <= resolver.MAX_TXT_SIZE)%nat /\
                           resolver.utf8_valid t = true) txts).
  { unfold lookup_texts in Ht.
    destruct (next_answer W s _ domain) as [answers|e1].
    - exact (collect_txt_bounded L answers [] txts (Forall_nil_2 _) Ht).
    - destruct (class_of e1); try discriminate; injection Ht as <-;
        constructor. }
  rewrite Forall_forall in Hfit. apply list_elem_of_In in Hin.
  destruct (Hfit _ Hin) as [Hlen _].
  destruct (extract_raises L today _ _ Hraise) as [Hc|Hc]; [|exact Hc].
  pose proof (extract_size_error L today _ _ Hraise Hc) as Hbig.
  unfold resolver.MAX_TXT_SIZE in Hlen.
  unfold validator.MAX_TXT_SIZE in Hbig. lia.
Qed.

Lemma looked_up_texts_fit_witness :
  class_of (raised (validator.extract_and_validate_record quiet_lib a_day
                      "v=FORSALE1;{"))
  = SchemaValidationError \/
  class_of (raised (validator.extract_and_validate_record quiet_lib a_day
                      "v=FORSALE1;{"))
  = FieldValidationError.
Proof.
  apply (looked_up_texts_fit quiet_lib broken_world (resolver.mkResolver 5)
           "example.com" initial_state ["v=FORSALE1;{"] 0%nat
           (snd (resolver.lookup_for_sale_record quiet_lib broken_world
                   (resolver.mkResolver 5) "example.com" initial_state))
           a_day "v=FORSALE1;{").
  - vm_compute. reflexivity.
  - now left.
  - vm_compute. reflexivity.
Defined.

(** * What one call does *)

Section call_counts.
Variable L : PyLib.
Variable W : World.

(** The RDAP check through the cache: at most one check, and nothing on
    the DNS side. *)
Lemma check_rdap_status_counts (args : rdap.RDAPClient * string) (s : State)
    (res : result bool) (s' : State) :
  api._check_rdap_status L W args s = (res, s') ->
  dns_counts_same s s' /\
  (rdap_queries s <= rdap_queries s' <= S (rdap_queries s))%nat.
Proof.
  destruct args as [client domain].
  destruct (cache._cache (rdap_cache s) !! ("rdap:" +:+ domain))
    as [[b expiry]|] eqn:E.
  - unfold api._check_rdap_status.
    assert (Hget : cache.cache_get (time_time W) api.rdap_cache_ref
                     ("rdap:" +:+ domain) s
                   = (Return (fst (cache.get (epoch (clock W (clock_reads s)))
                                     (rdap_cache s) ("rdap:" +:+ domain))),
                      set_rdap_cache
                        (snd (cache.get (epoch (clock W (clock_reads s)))
                                (rdap_cache s) ("rdap:" +:+ domain)))
                        (tick_clock s))).
    { rewrite cache_get_eq by reflexivity. unfold cache.contains. simpl.
      rewrite E. reflexivity. }
    rewrite (cached_run _ _ _ _ _ (client, domain) s _ _ Hget).
    unfold cache.get. rewrite E.
    destruct (epoch (clock W (clock_reads s)) <? expiry).
    + intros [= <- <-]. split; [repeat split|simpl; lia].
    + cbn [fst snd]. unfold mbind at 1. unfold rdap.check_for_sale_status.
      cbn [fst snd].
      destruct (check_for_sale_status W _ _ _) as [b'|e].
      * unfold mbind. rewrite cache_set_eq by reflexivity.
        destruct (cache.set L _ _ _ _);
          (intros [= <- <-]; split; [repeat split|simpl; lia]).
      * intros [= <- <-]. split; [repeat split|simpl; lia].
  - rewrite check_rdap_status_absent by exact E.
    destruct (check_for_sale_status W _ _ _) as [b'|e];
      [destruct (cache.set L _ _ _ _)|];
      intros [= <- <-]; (split; [repeat split|simpl; lia]).
Qed.

(** The lookup through the cache: at most one query, and nothing on the
    RDAP side. *)
Lemma lookup_txt_records_counts (args : resolver.DNSSecResolver * string)
    (s : State) (res : result (list string * nat)) (s' : State) :
  api._lookup_txt_records L W args s = (res, s') ->
  rdap_side_same s s' /\
  (dns_queries s <= dns_queries s' <= S (dns_queries s))%nat.
Proof.
  destruct args as [self domain].
  destruct (cache._cache (dns_cache s) !! ("dns:" +:+ domain))
    as [[found expiry]|] eqn:E.
  - unfold api._lookup_txt_records.
    assert (Hget : cache.cache_get (time_time W) api.dns_cache_ref
                     ("dns:" +:+ domain) s
                   = (Return (fst (cache.get (epoch (clock W (clock_reads s)))
                                     (dns_cache s) ("dns:" +:+ domain))),
                      set_dns_cache
                        (snd (cache.get (epoch (clock W (clock_reads s)))
                                (dns_cache s) ("dns:" +:+ domain)))
                        (tick_clock s))).
    { rewrite cache_get_eq by reflexivity. unfold cache.contains. simpl.
      rewrite E. reflexivity. }
    rewrite (cached_run _ _ _ _ _ (self, domain) s _ _ Hget).
    unfold cache.get. rewrite E.
    destruct (epoch (clock W (clock_reads s)) <? expiry).
    + intros [= <- <-]. split; [repeat split|simpl; lia].
    + cbn [fst snd]. unfold mbind at 1. cbn [fst snd].
      rewrite lookup_for_sale_record_eq.
      destruct (lookup_texts L domain _) as [txts|e].
      * unfold mbind. rewrite cache_set_eq by reflexivity.
        destruct (cache.set L _ _ _ _);
          (intros [= <- <-]; split; [repeat split|simpl; lia]).
      * intros [= <- <-]. split; [repeat split|simpl; lia].
  - unfold api._lookup_txt_records. rewrite cached_absent by exact E.
    unfold mbind at 1. cbn [fst snd]. rewrite lookup_for_sale_record_eq.
    destruct (lookup_texts L domain _) as [txts|e].
    + unfold mbind. rewrite cache_set_eq by reflexivity.
      destruct (cache.set L _ _ _ _);
        (intros [= <- <-]; split; [repeat split|simpl; lia]).
    + intros [= <- <-]. split; [repeat split|simpl; lia].
Qed.

(** The block after the lookup: nothing on the DNS side, at most one RDAP
    check, and none with the check disabled or without a record. *)
Lemma after_lookup_counts (domain : string) (options : api.DomainSaleOptions)
    (txt_records : list string) (sources : nat) (s : State)
    (r0 : api.DomainSaleResponse) (out : result unit) (f' : api.Frame) :
  after_lookup L W domain options (txt_records, sources) (s, r0) = (out, f') ->
  dns_queries (fst f') = dns_queries s /\
  resolvers_made (fst f') = resolvers_made s /\
  (rdap_queries s <= rdap_queries (fst f') <= S (rdap_queries s))%nat /\
  (api.enable_rdap_check options = false ->
   rdap_queries (fst f') = rdap_queries s /\
   rdap_cache (fst f') = rdap_cache s).
Proof.
  intros H. apply after_lookup_cases in H as (lres & f2 & Hloop & H).
  rewrite process_records_eq in Hloop. injection Hloop as <- <-.
  destruct (loop_outcome L _ (clock_reads s) txt_records PNone)
    as [out0 [k msgs]].
  cbn [fst snd] in H.
  destruct (ticks_parts k s) as (Hd & Hr & Hh & Hc & Hm & Hq & Hp).
  assert (Hdone : forall f,
             f = (ticks k s, more_errors msgs r0) ->
             dns_queries (fst f) = dns_queries s /\
             resolvers_made (fst f) = resolvers_made s /\
             (rdap_queries s <= rdap_queries (fst f) <= S (rdap_queries s))%nat /\
             (api.enable_rdap_check options = false ->
              rdap_queries (fst f) = rdap_queries s /\
              rdap_cache (fst f) = rdap_cache s)).
  { intros f ->. cbn [fst]. rewrite Hq, Hm, Hp, Hr. repeat split; lia. }
  destruct out0 as [rd|e]; [|destruct H as (_ & ->); now apply Hdone].
  destruct (truthy rd); [|destruct H as (_ & ->); now apply Hdone].
  destruct H as (d & _ & _ & rres & f3 & Hrdap & H).
  assert (Hf : fst f' = fst f3).
  { destruct rres as [b|e]; [|now destruct H as (_ & ->)].
    destruct H as (_ & ->).
    now destruct (api.enable_rdap_check options && negb b). }
  rewrite Hf. clear H Hf. rewrite rdap_step_eq in Hrdap.
  destruct (api.enable_rdap_check options).
  - cbn [fst] in Hrdap.
    destruct (api._check_rdap_status L W _ (ticks k s)) as [res s3] eqn:Hcheck.
    apply check_rdap_status_counts in Hcheck
      as ((Hq3 & Hm3 & _ & _) & Hp3).
    assert (Hs3 : dns_queries (fst f3) = dns_queries s3 /\
                  resolvers_made (fst f3) = resolvers_made s3 /\
                  rdap_queries (fst f3) = rdap_queries s3).
    { destruct res as [[|]|e].
      - injection Hrdap as _ <-. repeat split.
      - injection Hrdap as _ <-. repeat split.
      - destruct (existsb (issubclass (class_of e)) _);
          injection Hrdap as _ <-; repeat split. }
    destruct Hs3 as (-> & -> & ->). rewrite Hq3, Hm3, Hq, Hm.
    repeat split; try lia; discriminate.
  - injection Hrdap as _ <-. now apply Hdone.
Qed.
End call_counts.

(** X12.  One call makes one resolver, at most one DNS query and at most
    one RDAP check; with the RDAP check disabled it makes no RDAP check and
    leaves the entries of the RDAP cache as they were. *)
Theorem call_counts (L : PyLib) (W : World) (domain : string)
    (options : option api.DomainSaleOptions) (s : State) :
  resolvers_made (snd (api.get_domain_sale_status L W domain options s))
  = S (resolvers_made s) /\
  (dns_queries s
   <= dns_queries (snd (api.get_domain_sale_status L W domain options s))
   <= S (dns_queries s))%nat /\
  (rdap_queries s
   <= rdap_queries (snd (api.get_domain_sale_status L W domain options s))
   <= S (rdap_queries s))%nat /\
  (api.enable_rdap_check (options_of options) = false ->
   rdap_queries (snd (api.get_domain_sale_status L W domain options s))
   = rdap_queries s /\
   cache._cache
     (rdap_cache (snd (api.get_domain_sale_status L W domain options s)))
   = cache._cache (rdap_cache s)).
Proof.
  destruct (api.get_domain_sale_status L W domain options s) as [r s'] eqn:H.
  cbn [snd].
  destruct (update_cache_ttl_parts (options_of options) s)
    as (_ & Hrc & _ & _ & Hm & Hq & Hp).
  apply call_cases in H as (lres & f1 & Hl & _ & H).
  rewrite lookup_phase_eq in Hl. cbn [fst snd] in Hl.
  destruct (make_resolver W _) as [[]|e].
  - destruct (api._lookup_txt_records L W _ _) as [res sB] eqn:HlB.
    cbn [fst snd] in Hl. injection Hl as <- <-.
    apply lookup_txt_records_counts in HlB as ((HpB & HcB & HmB) & HqB).
    cbn [rdap_queries rdap_cache resolvers_made dns_queries count_resolver]
      in HpB, HcB, HmB, HqB.
    destruct res as [[txts ref]|e].
    + destruct H as (out & f' & Ha & -> & _).
      apply after_lookup_counts in Ha as (Hq' & Hm' & Hp' & Hoff).
      cbn [fst] in Hq', Hm', Hp', Hoff.
      rewrite Hq', Hm', HmB. rewrite Hq in HqB. rewrite HpB, Hp in Hp'.
      repeat split; try lia.
      * destruct (Hoff H) as [-> _]. rewrite HpB. exact Hp.
      * destruct (Hoff H) as [_ ->]. rewrite HcB. exact Hrc.
    + destruct H as (_ & ->). cbn [fst]. rewrite HmB, HpB, HcB.
      rewrite Hq in HqB. repeat split; try lia. exact Hrc.
  - injection Hl as <- <-. destruct H as (_ & ->). cbn [fst].
    cbn [rdap_queries rdap_cache resolvers_made dns_queries count_resolver].
    rewrite Hm, Hq, Hp. repeat split; try lia. exact Hrc.
Qed.

(** * The response of a call *)

Section response_facts.
Variable L : PyLib.
Variable W : World.

(** A response with errors added has the fields it had. *)
Lemma errors_added_values (r r' : api.DomainSaleResponse) :
  errors_added r r' ->
  api.price r' = api.price r /\ api.url r' = api.url r /\
  api.contact r' = api.contact r /\ api.expires r' = api.expires r.
Proof. intros [more ->]. repeat split. Qed.

(** The fields of the response of a call: those of the response it started
    with, or those of a record that the validator returned. *)
Lemma call_fields (domain : string) (options : option api.DomainSaleOptions)
    (s : State) (response : api.DomainSaleResponse) (s' : State) :
  api.get_domain_sale_status L W domain options s = (Return response, s') ->
  api.domain response = domain /\
  (api.for_sale response = false /\
   api.price response = PNone /\ api.url response = PNone /\
   api.contact response = PNone /\ api.expires response = PNone
   \/
   api.for_sale response = true /\
   exists d today txt_record,
     validator.extract_and_validate_record L today txt_record
     = Return (PDict d) /\
     api.price response = dict_get_default "price" d /\
     api.url response = dict_get_default "url" d /\
     api.contact response = dict_get_default "contact" d /\
     api.expires response = dict_get_default "expires" d).
Proof.
  intros H.
  assert (Hnew : forall r,
             errors_added (api.new_response domain) r ->
             api.domain r = domain /\
             (api.for_sale r = false /\
              api.price r = PNone /\ api.url r = PNone /\
              api.contact r = PNone /\ api.expires r = PNone
              \/
              api.for_sale r = true /\
              exists d today txt_record,
                validator.extract_and_validate_record L today txt_record
                = Return (PDict d) /\
                api.price r = dict_get_default "price" d /\
                api.url r = dict_get_default "url" d /\
                api.contact r = dict_get_default "contact" d /\
                api.expires r = dict_get_default "expires" d)).
  { intros r [more ->]. split; [reflexivity|]. left. repeat split. }
  apply call_cases in H as (lres & f1 & Hl & Hr1 & H).
  destruct lres as [[txts ref]|e].
  2:{ destruct H as ([= ->] & _). apply Hnew. apply errors_added_append. }
  destruct H as (out & f' & Ha & _ & [= ->]).
  apply after_lookup_cases in Ha as (loop & f2 & Hloop & Ha).
  pose proof (process_records_errors L W _ _ _ _ _ Hloop) as He2.
  rewrite Hr1 in He2. destruct loop as [rd|e].
  2:{ destruct Ha as (-> & ->). apply Hnew. now apply errors_added_error. }
  destruct (truthy rd).
  2:{ destruct Ha as (-> & ->). now apply Hnew. }
  destruct Ha as (d & -> & (txt & day & _ & Hex) & rres & f3 & Hrdap & Ha).
  pose proof (rdap_step_preserves_resp L W _ _ _ _ _ _ Hrdap) as He3.
  unfold on_resp in He3.
  assert (He : errors_added (api.new_response domain) (snd f3))
    by (etransitivity; eassumption).
  destruct rres as [b|e].
  2:{ destruct Ha as (-> & ->). apply Hnew. now apply errors_added_error. }
  destruct Ha as (-> & ->).
  destruct (api.enable_rdap_check _ && negb b); [now apply Hnew|].
  cbn [snd]. destruct He as [more ->]. split; [reflexivity|].
  right. split; [reflexivity|]. exists d, day, txt. repeat split. exact Hex.
Qed.

(** A value that [urlparse] takes for a string is a string. *)
Lemma urlparse_str (v : pyval) (scheme netloc path params query fragment : string) :
  urllib.urlparse L v
  = Return (urllib.ParseResult scheme netloc path params query fragment) ->
  exists s, v = PStr s.
Proof.
  destruct v as [| | | |s| |]; simpl; eauto;
    try discriminate;
    match goal with
    | |- context [if ?c then _ else _] => destruct c; discriminate
    end.
Qed.

(** The fields of a record that the validator returned are strings, but
    for [expires], which may be missing. *)
Lemma fields_ok_strings (today : datetime.date) (d : list (string * pyval)) :
  fields_ok L today d ->
  (exists s, dict_get_default "price" d = PStr s /\
             re.price_pattern s = true) /\
  (exists s, dict_get_default "url" d = PStr s) /\
  (exists s, dict_get_default "contact" d = PStr s) /\
  (dict_get_default "expires" d = PNone \/
   exists s, dict_get_default "expires" d = PStr s).
Proof.
  intros (_ & (p & Hp & Hpat) & (u & Hu & Hurl) & (c & Hc & Hcon) & He).
  unfold dict_get_default. rewrite Hp, Hu, Hc.
  destruct Hurl as (n & a & b & q & f & Hparse & _).
  apply urlparse_str in Hparse as [su ->].
  destruct Hcon as (n' & a' & b' & q' & f' & Hparse' & _).
  apply urlparse_str in Hparse' as [sc ->].
  repeat split; eauto.
  destruct (dict_get "expires" d) as [e|]; [|now left].
  destruct (He e eq_refl) as (se & date & -> & _). right. eauto.
Qed.
End response_facts.

(** X13.  The response of a call names the domain asked for.  When it is
    not for sale its price, url, contact and expires are [None]; when it is
    for sale they are the fields of one record that the validator returned
    for a text and a date: the price is a string that matches the price
    pattern, the url and the contact are strings that parse with the
    schemes https and mailto, and expires is [None] or a string that names
    a date not before that date. *)
Theorem response_fields (L : PyLib) (W : World) (domain : string)
    (options : option api.DomainSaleOptions) (s : State)
    (response : api.DomainSaleResponse) (s' : State) :
  api.get_domain_sale_status L W domain options s = (Return response, s') ->
  api.domain response = domain /\
  (api.for_sale response = false ->
   api.price response = PNone /\ api.url response = PNone /\
   api.contact response = PNone /\ api.expires response = PNone) /\
  (api.for_sale response = true ->
   exists d today,
     schema_ok d /\ fields_ok L today d /\
     api.price response = dict_get_default "price" d /\
     api.url response = dict_get_default "url" d /\
     api.contact response = dict_get_default "contact" d /\
     api.expires response = dict_get_default "expires" d /\
     (exists p, api.price response = PStr p /\ re.price_pattern p = true) /\
     (exists u, api.url response = PStr u) /\
     (exists c, api.contact response = PStr c) /\
     (api.expires response = PNone \/ exists e, api.expires response = PStr e)).
Proof.
  intros H. apply call_fields in H as (Hd & H). split; [exact Hd|].
  destruct H as [(Hfs & Hnone)|(Hfs & d & today & txt & Hex & Hp & Hu & Hc & He)].
  - split; [intros _; exact Hnone|]. congruence.
  - split; [congruence|]. intros _.
    apply extract_accepts in Hex as (_ & _ & Hschema & Hfields).
    exists d, today.
    destruct (fields_ok_strings L today d Hfields) as (Hps & Hus & Hcs & Hes).
    rewrite Hp, Hu, Hc, He.
    split; [exact Hschema|]. split; [exact Hfields|].
    do 4 (split; [reflexivity|]).
    split; [exact Hps|]. split; [exact Hus|]. split; [exact Hcs|exact Hes].
Qed.

Lemma response_fields_witness :
  api.domain (response_of sold_call) = "example.com" /\
  exists p, api.price (response_of sold_call) = PStr p /\
            re.price_pattern p = true.
Proof.
  destruct (response_fields quiet_lib sold_world "example.com" (Some rdap_on)
              initial_state (response_of sold_call) (snd sold_call))
    as (Hd & _ & Hsale).
  - vm_compute. reflexivity.
  - split; [exact Hd|].
    destruct Hsale as (d & today & _ & _ & _ & _ & _ & _ & Hp & _);
      [vm_compute; reflexivity|exact Hp].
Defined.

(** X14.  The loop over the texts stops at the first text for which the
    validator returns a record: the texts after it are not validated, add
    no error and read no clock, whatever they are. *)
Theorem first_record_wins (L : PyLib) (W : World)
    (txt_records later : list string) (record_data0 record_data : pyval)
    (f f' : api.Frame) :
  truthy record_data0 = false ->
  api.process_records L W txt_records record_data0 f
  = (Return record_data, f') ->
  truthy record_data = true ->
  api.process_records L W (txt_records ++ later) record_data0 f
  = (Return record_data, f').
Proof.
  revert record_data0 f.
  induction txt_records as [|txt rest IH]; intros rd0 f Hrd0 H Ht.
  - simpl in H. injection H as <- _. congruence.
  - cbn [app api.process_records] in H |- *. unfold mbind in H |- *.
    destruct (api.try_record L W txt f) as [[[rd'|[]]|e] f1];
      [|now apply IH|discriminate].
    destruct (truthy rd') eqn:Ht'; [exact H|now apply IH].
Qed.

Lemma first_record_wins_witness :
  api.process_records quiet_lib sold_world
    ([record_for_sale] ++ [record_http; "v=FORSALE1;{"]) PNone
    (initial_state, api.new_response "example.com")
  = api.process_records quiet_lib sold_world [record_for_sale] PNone
      (initial_state, api.new_response "example.com").
Proof.
  rewrite (first_record_wins quiet_lib sold_world [record_for_sale]
             [record_http; "v=FORSALE1;{"] PNone
             (match fst (api.process_records quiet_lib sold_world
                           [record_for_sale] PNone
                           (initial_state, api.new_response "example.com"))
              with Return rd => rd | Raise _ => PNone end)
             (initial_state, api.new_response "example.com")
             (snd (api.process_records quiet_lib sold_world
                     [record_for_sale] PNone
                     (initial_state, api.new_response "example.com")))).
  - vm_compute. reflexivity.
  - reflexivity.
  - vm_compute. reflexivity.
  - vm_compute. reflexivity.
Defined.

(** * The list of sources of a cached lookup *)

(** X15.  The list of sources of a cached lookup is one list object, which
    every call that is for sale with the RDAP check enabled appends "rdap"
    to: when the DNS cache holds a live entry for the domain, the source of
    such a response is the list of that entry, and after the call the list
    is what it was with one more "rdap" at its end. *)
Theorem source_list_grows (L : PyLib) (W : World) (domain : string)
    (options : option api.DomainSaleOptions) (s : State)
    (response : api.DomainSaleResponse) (s' : State)
    (txt_records : list string) (sources : nat) (expiry : Z) :
  refs_valid s ->
  cache._cache (dns_cache s) !! ("dns:" +:+ domain)
  = Some ((txt_records, sources), expiry) ->
  epoch (clock W (clock_reads s)) < expiry ->
  api.enable_rdap_check (options_of options) = true ->
  api.get_domain_sale_status L W domain options s = (Return response, s') ->
  api.for_sale response = true ->
  api.source response = api.SourceList sources /\
  deref (heap s') sources = (deref (heap s) sources ++ ["rdap"])%list.
Proof.
  intros Hvalid Hentry Hlive Hen Hcall Hsale.
  assert (Hnot : forall r,
             errors_added (api.new_response domain) r ->
             api.for_sale r = true -> False).
  { intros r Hr Hfs. apply errors_added_fields in Hr as (Hr & _).
    rewrite Hr in Hfs. discriminate. }
  destruct (update_cache_ttl_parts (options_of options) s)
    as (Hdc & _ & Hh & Hc & _).
  apply call_cases in Hcall as (lres & f1 & Hl & Hr1 & H).
  rewrite lookup_phase_eq in Hl. cbn [fst snd] in Hl.
  destruct (make_resolver W _) as [[]|e].
  2:{ injection Hl as <- <-. destruct H as ([= ->] & _).
      destruct (Hnot _ (errors_added_append _ _) Hsale). }
  destruct (api._lookup_txt_records L W _ _) as [res sB] eqn:HlB.
  cbn [fst snd] in Hl. injection Hl as <- <-.
  assert (HentryB : cache._cache
                      (dns_cache
                         (count_resolver
                            (api.update_cache_ttl (options_of options) s)))
                    !! ("dns:" +:+ domain)
                    = Some ((txt_records, sources), expiry)).
  { cbn [dns_cache count_resolver]. rewrite Hdc. exact Hentry. }
  destruct (lookup_txt_records_present L W _ _ _ _ _ _ _ HentryB HlB)
    as [_ Hhit].
  cbn [clock_reads count_resolver] in Hhit. rewrite Hc in Hhit.
  destruct (Hhit Hlive) as [-> ->]. clear Hhit HlB.
  destruct H as (out & f' & Ha & -> & [= ->]).
  apply after_lookup_cases in Ha as (loop & [s2 r2] & Hloop & Ha).
  pose proof (process_records_errors L W _ _ _ _ _ Hloop) as He2.
  pose proof (process_records_heap L W _ _ _ _ _ Hloop) as Hh2.
  cbn [fst snd] in He2, Hh2. cbn [heap tick_clock count_resolver] in Hh2.
  rewrite Hh in Hh2.
  destruct loop as [rd|e].
  2:{ destruct Ha as (-> & ->).
      destruct (Hnot _ (errors_added_error _ _ _ He2) Hsale). }
  destruct (truthy rd).
  2:{ destruct Ha as (-> & ->). destruct (Hnot _ He2 Hsale). }
  destruct Ha as (d & -> & _ & rres & f3 & Hrdap & Ha).
  pose proof (rdap_step_preserves_resp L W _ _ _ _ _ _ Hrdap) as He3.
  unfold on_resp in He3.
  assert (He : errors_added (api.new_response domain) (snd f3))
    by (etransitivity; eassumption).
  rewrite rdap_step_eq, Hen in Hrdap.
  destruct (api._check_rdap_status L W _ s2) as [cres s3] eqn:Hcheck.
  apply check_rdap_status_heap in Hcheck. rewrite Hh2 in Hcheck.
  destruct rres as [b|e].
  2:{ destruct Ha as (-> & ->).
      destruct (Hnot _ (errors_added_error _ _ _ He) Hsale). }
  destruct Ha as (-> & ->). rewrite Hen in Hsale |- *.
  destruct b; cbn [andb negb] in Hsale |- *;
    [|destruct (Hnot _ He Hsale)].
  cbn [fst snd]. split; [reflexivity|].
  destruct cres as [[|]|e].
  - injection Hrdap as <-. cbn [fst heap set_heap]. rewrite Hcheck.
    exact (deref_alter_valid (heap s) sources
             (fun l => (l ++ ["rdap"])%list) (Hvalid _ _ _ _ Hentry)).
  - discriminate.
  - destruct (existsb (issubclass (class_of e)) _); discriminate.
Qed.

Lemma source_list_grows_witness :
  api.source
    (response_of
       (api.get_domain_sale_status quiet_lib sold_world "example.com"
          (Some rdap_on) (snd sold_call)))
  = api.SourceList 0%nat /\
  deref
    (heap (snd (api.get_domain_sale_status quiet_lib sold_world "example.com"
                  (Some rdap_on) (snd sold_call)))) 0%nat
  = ["dns"; "rdap"; "rdap"].
Proof.
  destruct (source_list_grows quiet_lib sold_world "example.com"
              (Some rdap_on) (snd sold_call)
              (response_of
                 (api.get_domain_sale_status quiet_lib sold_world
                    "example.com" (Some rdap_on) (snd sold_call)))
              (snd (api.get_domain_sale_status quiet_lib sold_world
                      "example.com" (Some rdap_on) (snd sold_call)))
              [record_for_sale] 0%nat 1300)
    as [Hsrc Hlist].
  - apply (call_refs_valid quiet_lib sold_world "example.com"
             (Some rdap_on) initial_state (fst sold_call));
      [apply initial_refs_valid|apply surjective_pairing].
  - vm_compute. reflexivity.
  - vm_compute. reflexivity.
  - reflexivity.
  - vm_compute. reflexivity.
  - vm_compute. reflexivity.
  - split; [exact Hsrc|]. rewrite Hlist. vm_compute. reflexivity.
Defined.

(** * The HTML of a response *)

Lemma escape_is_string (v : pyval) :
  (exists out, renderer._escape v = Return out) <-> is_string v.
Proof.
  unfold is_string. destruct v; simpl; split;
    try (intros [x H]; discriminate); eauto.
Qed.

Lemma render_sale_info_total (sale_info : list (string * pyval)) :
  (exists out, renderer.render_sale_info sale_info = Return out) <->
  (dict_contains "domain" sale_info = true ->
   is_string (dict_get_default "domain" sale_info)) /\
  (forall field,
      In field rendered_fields ->
      truthy (dict_get_default field sale_info) = true ->
      is_string (dict_get_default field sale_info)).
Proof.
  unfold renderer.render_sale_info. cbv zeta. split.
  - intros [out H].
    apply bind_Return_inv in H as (h0 & H0 & H).
    apply bind_Return_inv in H as (h1 & H1 & H).
    apply bind_Return_inv in H as (h2 & H2 & H).
    apply bind_Return_inv in H as (h3 & H3 & H).
    apply bind_Return_inv in H as (h4 & H4 & _).
    split.
    + intros Hd. rewrite Hd in H0.
      apply bind_Return_inv in H0 as (x & Hx & _).
      apply escape_is_string. eauto.
    + intros field Hin Ht. simpl in Hin.
      destruct Hin as [<-|[<-|[<-|[<-|[]]]]]; apply escape_is_string.
      * rewrite Ht in H1. apply bind_Return_inv in H1 as (x & Hx & _). eauto.
      * rewrite Ht in H2. apply bind_Return_inv in H2 as (x & Hx & _). eauto.
      * rewrite Ht in H3. apply bind_Return_inv in H3 as (x & Hx & _). eauto.
      * rewrite Ht in H4. apply bind_Return_inv in H4 as (x & Hx & _). eauto.
  - intros [Hdomain Hfield].
    assert (Hesc : forall field,
               In field rendered_fields ->
               truthy (dict_get_default field sale_info) = true ->
               exists out,
                 renderer._escape (dict_get_default field sale_info)
                 = Return out).
    { intros field Hin Ht. apply escape_is_string. now apply Hfield. }
    assert (Hdom : dict_contains "domain" sale_info = true ->
                   exists out,
                     renderer._escape (dict_get_default "domain" sale_info)
                     = Return out).
    { intros Hd. apply escape_is_string. now apply Hdomain. }
    clear Hdomain Hfield.
    destruct (dict_contains "domain" sale_info);
      [destruct (Hdom eq_refl) as [x0 ->]|]; clear Hdom;
      (destruct (truthy (dict_get_default "price" sale_info)) eqn:T1;
       [destruct (Hesc "price") as [x1 ->]; [simpl; auto|exact T1|]|]);
      (destruct (truthy (dict_get_default "contact" sale_info)) eqn:T2;
       [destruct (Hesc "contact") as [x2 ->]; [simpl; auto|exact T2|]|]);
      (destruct (truthy (dict_get_default "url" sale_info)) eqn:T3;
       [destruct (Hesc "url") as [x3 ->]; [simpl; auto|exact T3|]|]);
      (destruct (truthy (dict_get_default "expires" sale_info)) eqn:T4;
       [destruct (Hesc "expires") as [x4 ->]; [simpl; auto 6|exact T4|]|]);
      cbn [bind];
      try (destruct (json.strip_prefix "mailto:" x2); cbn [bind renderer._escape]);
      eexists; reflexivity.
Qed.

(** X16.  [render_sale_info] returns exactly for the dictionaries whose
    domain, when the key is present, is a string, and whose price, contact,
    url and expires are strings whenever they are true; on any other
    dictionary it raises: the renderer escapes no value but a string. *)
Theorem render_sale_info_returns (sale_info : list (string * pyval)) :
  (exists out, renderer.render_sale_info sale_info = Return out) <->
  (dict_contains "domain" sale_info = true ->
   is_string (dict_get_default "domain" sale_info)) /\
  (forall field,
      In field rendered_fields ->
      truthy (dict_get_default field sale_info) = true ->
      is_string (dict_get_default field sale_info)).
Proof. apply render_sale_info_total. Qed.

(** X17.  The response of a call has an HTML form: [to_html] returns for
    it, since the fields of a response that is for sale are the strings of
    a validated record.  What it returns is the text of [response_line]:
    the lines of the listing for a response that is for sale, and else the
    error line, with the errors joined by a comma or the notice that the
    domain is not for sale.  In it every field enters through
    [html.escape], every character of an escaped field is text or part of
    the quoted value of [href] when the text is read from its start, and
    the text ends as text. *)
Theorem response_html (L : PyLib) (W : World) (domain : string)
    (options : option api.DomainSaleOptions) (s : State)
    (response : api.DomainSaleResponse) (s' : State) :
  api.get_domain_sale_status L W domain options s = (Return response, s') ->
  api.to_html (heap s') response
  = Return (line_text (response_line (heap s') response)) /\
  walk Data (response_line (heap s') response) = true /\
  run Data (line_text (response_line (heap s') response)) = Data /\
  Forall escaped_clean (response_line (heap s') response).
Proof.
  intros H. apply call_fields in H as (Hd & H).
  unfold api.to_html, response_line.
  assert (Herr : forall m,
             renderer.render_error (PStr m)
             = Return (line_text (error_line m)) /\
             walk Data (error_line m) = true /\
             run Data (line_text (error_line m)) = Data /\
             Forall escaped_clean (error_line m)).
  { intros m.
    assert (E : exists out, renderer.render_error (PStr m) = Return out)
      by (eexists; reflexivity).
    destruct E as [out E]. pose proof E as E'.
    apply render_error_line in E'. cbn [str_of] in E'. subst out.
    destruct (error_line_ok m) as [Hw Hr].
    split; [exact E|]. split; [exact Hw|]. split; [exact Hr|].
    apply escaped_clean_all. }
  destruct H as [(Hfs & _)|(Hfs & d & today & txt & Hex & Hp & Hu & Hc & He)];
    rewrite Hfs.
  - destruct (api.errors response); apply Herr.
  - apply extract_accepts in Hex as (_ & _ & _ & Hfields).
    destruct (fields_ok_strings L today d Hfields)
      as ((p & Hps & _) & (u & Hus) & (c & Hcs) & Hes).
    rewrite <- Hp in Hps. rewrite <- Hu in Hus. rewrite <- Hc in Hcs.
    rewrite <- He in Hes.
    assert (E : exists out,
               renderer.render_sale_info (api.to_dict (heap s') response)
               = Return out).
    { apply render_sale_info_total. split.
      - intros _. eexists. reflexivity.
      - intros field Hin Ht. simpl in Hin.
        destruct Hin as [<-|[<-|[<-|[<-|[]]]]].
        + exists p. exact Hps.
        + exists c. exact Hcs.
        + exists u. exact Hus.
        + destruct Hes as [Hn|[e Hes]]; [|exists e; exact Hes].
          exfalso.
          change (dict_get_default "expires"
                    (api.to_dict (heap s') response))
            with (api.expires response) in Ht.
          rewrite Hn in Ht. discriminate. }
    destruct E as [out E]. pose proof E as E'.
    apply render_sale_info_lines in E'. subst out.
    destruct (join_lines_ok _ (sale_info_lines_ok
                                 (api.to_dict (heap s') response)))
      as [Hw Hr].
    split; [exact E|]. split; [exact Hw|]. split; [exact Hr|].
    apply escaped_clean_all.
Qed.

Lemma response_html_witness :
  api.to_html (heap (snd sold_call)) (response_of sold_call)
  = Return (line_text (response_line (heap (snd sold_call))
                         (response_of sold_call))) /\
  walk Data (response_line (heap (snd sold_call)) (response_of sold_call))
  = true /\
  run Data (line_text (response_line (heap (snd sold_call))
                         (response_of sold_call))) = Data /\
  Forall escaped_clean
    (response_line (heap (snd sold_call)) (response_of sold_call)).
Proof.
  apply (response_html quiet_lib sold_world "example.com" (Some rdap_on)
           initial_state).
  vm_compute. reflexivity.
Defined.

Lemma escape_mailto (address : string) :
  html.escape ("mailto:" +:+ address) = "mailto:" +:+ html.escape address.
Proof. rewrite !escape_by_char. reflexivity. Qed.

Lemma join_mid (xs ys : list string) (x : string) :
  exists before after,
    join renderer.nl (xs ++ x :: ys)%list = before +:+ x +:+ after.
Proof.
  induction xs as [|a xs IH].
  - exists EmptyString. destruct ys as [|b ys].
    + exists EmptyString. cbn [app join]. now rewrite append_nil_r.
    + eexists. reflexivity.
  - destruct IH as (before & after & IH).
    exists (a +:+ renderer.nl +:+ before), after.
    cbn [app]. destruct (xs ++ x :: ys)%list as [|b rest] eqn:E.
    + now destruct xs.
    + change (join renderer.nl (a :: b :: rest))
        with (a +:+ renderer.nl +:+ join renderer.nl (b :: rest)).
      rewrite IH, !append_assoc. reflexivity.
Qed.

(** X18.  The address of a [mailto:] contact is escaped twice in the text
    of its link: the link goes to the contact escaped once, and the text
    shown is the address escaped and escaped again, so that an ampersand of
    the address is shown as [&amp;]. *)
Theorem mailto_text_escaped_twice (sale_info : list (string * pyval))
    (address out : string) :
  dict_get_default "contact" sale_info = PStr ("mailto:" +:+ address) ->
  renderer.render_sale_info sale_info = Return out ->
  exists before after,
    out = before
          +:+ ("<a href=" +:+ renderer.dq +:+ "mailto:"
               +:+ html.escape address +:+ renderer.dq +:+ ">"
               +:+ html.escape (html.escape address) +:+ "</a></div>")
          +:+ after.
Proof.
  intros Hc H. apply render_sale_info_lines in H. subst out.
  rewrite <- join_line_text. unfold sale_info_lines.
  assert (Hl : contact_lines sale_info
               = [(class_line "sale-contact" "Contact:"
                   ++ [Lit ("<a href=" +:+ renderer.dq);
                       Esc ("mailto:" +:+ address);
                       Lit (renderer.dq +:+ ">");
                       Esc (html.escape address);
                       Lit "</a></div>"])%list]).
  { unfold contact_lines. rewrite Hc. cbn [str_of].
    rewrite escape_mailto.
    rewrite (proj2 (strip_prefix_app "mailto:" _ (html.escape address))
               eq_refl).
    reflexivity. }
  rewrite Hl.
  set (contact_line := (class_line "sale-contact" "Contact:"
                        ++ [Lit ("<a href=" +:+ renderer.dq);
                            Esc ("mailto:" +:+ address);
                            Lit (renderer.dq +:+ ">");
                            Esc (html.escape address);
                            Lit "</a></div>"])%list).
  set (first_lines := (domain_lines sale_info
                       ++ [[Lit ("<div "
                                 +:+ renderer.attr "class" "domain-sale-info"
                                 +:+ ">")]]
                       ++ price_lines sale_info)%list).
  set (last_lines := (url_lines sale_info ++ expires_lines sale_info
                      ++ [[Lit "</div>"]])%list).
  assert (Hsplit :
            (domain_lines sale_info
             ++ [[Lit ("<div " +:+ renderer.attr "class" "domain-sale-info"
                       +:+ ">")]]
             ++ price_lines sale_info ++ [contact_line] ++ last_lines)%list
            = (first_lines ++ contact_line :: last_lines)%list).
  { unfold first_lines. rewrite <- !app_assoc. reflexivity. }
  rewrite Hsplit, map_app. cbn [map].
  destruct (join_mid (map line_text first_lines) (map line_text last_lines)
              (line_text contact_line)) as (before & after & ->).
  unfold contact_line.
  exists (before +:+ "<div " +:+ renderer.attr "class" "sale-contact"
          +:+ "><strong>Contact:</strong> "), after.
  cbn [class_line app line_text segment_text]. rewrite escape_mailto.
  unfold renderer.attr. rewrite !append_assoc, ?append_nil_r. reflexivity.
Qed.

Lemma mailto_text_escaped_twice_witness :
  exists before after,
    line_text (join_lines (sale_info_lines ampersand_sale_info))
    = before
      +:+ ("<a href=" +:+ renderer.dq +:+ "mailto:"
           +:+ html.escape "a&b@example.com" +:+ renderer.dq +:+ ">"
           +:+ html.escape (html.escape "a&b@example.com") +:+ "</a></div>")
      +:+ after.
Proof.
  apply (mailto_text_escaped_twice ampersand_sale_info "a&b@example.com").
  - reflexivity.
  - vm_compute. reflexivity.
Defined.
(** * A time to live that is no float *)

Section overflow_facts.
Variable L : PyLib.
Variable W : World.

(** A lookup that is due finds no entry, or removes the one it finds. *)
Lemma due_no_entry (s : State) (domain : string) :
  dns_lookup_due W s domain ->
  cache._cache (dns_cache (after_dns_get W s domain)) !! ("dns:" +:+ domain)
  = None.
Proof.
  unfold dns_lookup_due, after_dns_get, cache.contains. intros Hdue.
  pose proof (get_outcome (epoch (clock W (clock_reads s))) (dns_cache s)
                ("dns:" +:+ domain)) as Hout.
  destruct (cache._cache (dns_cache s) !! ("dns:" +:+ domain)) as [entry|]
    eqn:E; [|exact E].
  destruct (cache.get _ (dns_cache s) _) as [[v|] self']; [discriminate|].
  exact Hout.
Qed.

(** The call whose lookup is made and returns texts, with a time to live
    that does not convert to a float. *)
Lemma overflow_call (domain : string) (options : option api.DomainSaleOptions)
    (s : State) (txt_records : list string) :
  float_of_int L
    (cache.ttl (dns_cache (api.update_cache_ttl (options_of options) s)))
  = None ->
  make_resolver W (resolvers_made s) = Return tt ->
  dns_lookup_due W s domain ->
  lookup_texts L domain
    (next_answer W s (api.timeout (options_of options)) domain)
  = Return txt_records ->
  exists s',
    api.get_domain_sale_status L W domain options s
    = (Return
         (api.mkResponse domain false PNone PNone PNone PNone
            (api.SourceStr "dns")
            ["Unexpected error: int too large to convert to float"]),
       s') /\
    dns_queries s' = S (dns_queries s) /\
    rdap_queries s' = rdap_queries s /\
    cache._cache (dns_cache s') !! ("dns:" +:+ domain) = None.
Proof.
  intros Hfloat Hres Hdue Htexts.
  pose proof (due_at_start W domain (options_of options) s Hdue) as Hdue'.
  rewrite call_eq, try_body_unfold. unfold mbind at 1.
  rewrite lookup_phase_eq.
  destruct (update_cache_ttl_parts (options_of options) s)
    as (_ & _ & _ & _ & Hm & Hq & Hp).
  rewrite Hm, Hres.
  rewrite (lookup_txt_records_due L W _ domain _ Hdue').
  simpl resolver.timeout. rewrite call_start_answer, Htexts. cbv zeta.
  destruct (after_dns_get_parts W
              (count_resolver (api.update_cache_ttl (options_of options) s))
              domain)
    as (_ & Hq' & Hp' & _ & _ & _ & Httl).
  rewrite set_raises
    by (cbn [dns_cache set_heap count_dns_query]; rewrite Httl; exact Hfloat).
  cbn [fst snd recorded_text class_of str api.append_error api.new_response
       api.domain api.for_sale api.price api.url api.contact api.expires
       api.source api.errors app].
  eexists. split; [reflexivity|].
  cbn [dns_queries rdap_queries dns_cache tick_clock set_heap
       count_dns_query].
  rewrite Hq', Hp'. cbn [dns_queries rdap_queries count_resolver].
  rewrite Hq, Hp. split; [reflexivity|]. split; [reflexivity|].
  apply due_no_entry. exact Hdue'.
Qed.
End overflow_facts.

(** X19.  A time to live that does not convert to a float (an [int] of
    1024 bits, say) makes every lookup fail after it was made:
    [Cache.set] raises [OverflowError] when it adds the time to live to the
    time, the texts that the resolver returned are lost, and the call
    returns a response that is not for sale, with the one error
    ["Unexpected error: int too large to convert to float"].  The query
    was made, no RDAP check is, and nothing is cached for the domain. *)
Theorem ttl_overflow_recorded (L : PyLib) (W : World) (domain : string)
    (options : option api.DomainSaleOptions) (s : State)
    (txt_records : list string) :
  float_of_int L
    (cache.ttl (dns_cache (api.update_cache_ttl (options_of options) s)))
  = None ->
  make_resolver W (resolvers_made s) = Return tt ->
  dns_lookup_due W s domain ->
  lookup_texts L domain
    (next_answer W s (api.timeout (options_of options)) domain)
  = Return txt_records ->
  exists s',
    api.get_domain_sale_status L W domain options s
    = (Return
         (api.mkResponse domain false PNone PNone PNone PNone
            (api.SourceStr "dns")
            ["Unexpected error: int too large to convert to float"]),
       s') /\
    dns_queries s' = S (dns_queries s) /\
    rdap_queries s' = rdap_queries s /\
    cache._cache (dns_cache s') !! ("dns:" +:+ domain) = None.
Proof. apply overflow_call. Qed.

Lemma ttl_overflow_recorded_witness :
  exists s',
    api.get_domain_sale_status quiet_lib sold_world "example.com"
      (Some (api.mkOptions false (2 ^ 1024) 5)) initial_state
    = (Return
         (api.mkResponse "example.com" false PNone PNone PNone PNone
            (api.SourceStr "dns")
            ["Unexpected error: int too large to convert to float"]),
       s') /\
    dns_queries s' = S (dns_queries initial_state) /\
    rdap_queries s' = rdap_queries initial_state /\
    cache._cache (dns_cache s') !! ("dns:" +:+ "example.com") = None.
Proof.
  apply (ttl_overflow_recorded quiet_lib sold_world "example.com"
           (Some (api.mkOptions false (2 ^ 1024) 5)) initial_state
           [record_for_sale]).
  - vm_compute. reflexivity.
  - reflexivity.
  - vm_compute. reflexivity.
  - vm_compute. reflexivity.
Defined.

(** * The RDAP client *)

Module rdap_facts.
Import RDAPClient.

Lemma select_handler_last {H : Type} (e : error)
    (clauses : list (list error_class * H)) (h : H) :
  exists h', select_handler e (clauses ++ [([Exception], h)]) = Some h'.
Proof.
  induction clauses as [|[cs h0] rest IH]; simpl.
  - destruct (class_of e); simpl; eauto.
  - destruct (existsb (issubclass (class_of e)) cs); eauto.
Qed.

Lemma select_handler_member {H : Type} (e : error)
    (clauses : list (list error_class * H)) (h : H) :
  select_handler e clauses = Some h -> exists cs, In (cs, h) clauses.
Proof.
  induction clauses as [|[cs h0] rest IH]; simpl; [discriminate|].
  destruct (existsb (issubclass (class_of e)) cs).
  - intros [= <-]. eauto.
  - intros H0. destruct (IH H0) as [cs' Hin]. eauto.
Qed.

(** A [try] statement whose last clause catches [Exception] raises only
    what its handlers raise. *)
Lemma try_except_fails {A : Type} (P : error_class -> Prop) (body : Act A)
    (clauses : list (list error_class * (error -> Act A)))
    (h : error -> Act A) :
  (forall cs h', In (cs, h') (clauses ++ [([Exception], h)]) ->
                 forall e, fails_with P (h' e)) ->
  fails_with P (try_except body (clauses ++ [([Exception], h)])).
Proof.
  intros Hh p e p'. unfold try_except.
  destruct (body p) as [[a|e0] p0]; [discriminate|].
  destruct (select_handler_last e0 clauses h) as [h' Hsel]. rewrite Hsel.
  destruct (select_handler_member _ _ _ Hsel) as [cs Hin].
  apply (Hh cs h' Hin e0).
Qed.

Lemma raise_fails {A : Type} (cls : error_class) (msg : string) :
  fails_with (fun c => c = cls) (@raise A cls msg).
Proof. intros p e p' [= <- _]. reflexivity. Qed.

Section client_facts.
Variable L : PyLib.
Variable N : Numbers.
Variable W : Net.

Lemma get_rdap_data_fails (domain : string) :
  fails_with (fun c => c = RDAPError) (_get_rdap_data L N W domain).
Proof.
  unfold _get_rdap_data.
  apply (try_except_fails _ _ [_]).
  intros cs h Hin e. simpl in Hin.
  destruct Hin as [[= <- <-]|[[= <- <-]|[]]]; apply raise_fails.
Qed.

Lemma status_answer_eq (domain : string) (rdap_data : pyval) (p : Process) :
  try_except
    (has_status <- lift (contains L rdap_data "status") ;;
     if has_status : bool then
       status <- lift (getitem_key L rdap_data "status") ;;
       match status with
       | PList items =>
           ret (existsb (fun x => validator.is_str x FOR_SALE_STATUS_TAG) items)
       | _ => ret false
       end
     else ret false)%Act
    [([requests_Timeout],
      fun _ => raise TimeoutError
                 ("RDAP query for " +:+ domain +:+ " timed out"));
     ([RDAPError], fun e => lift (Fail e));
     ([Exception],
      fun e => raise RDAPError
                 ("Error checking RDAP status for " +:+ domain +:+ ": "
                  +:+ str e))] p
  = (status_answer L domain rdap_data, p).
Proof.
  unfold try_except, bind, lift, status_answer, contains, getitem_key,
    type_error, dict_contains.
  destruct rdap_data as [| | | |s|items|items]; try reflexivity.
  - destruct (substring_of "status" s); reflexivity.
  - destruct (existsb _ items); reflexivity.
  - destruct (dict_get "status" items) as [v|]; [|reflexivity].
    destruct v; reflexivity.
Qed.

(** The check, from what [_get_rdap_data] does. *)
Lemma check_eq (domain : string) (p : Process) :
  check_for_sale_status L N W domain p
  = match _get_rdap_data L N W domain p with
    | (Ok rdap_data, p') => (status_answer L domain rdap_data, p')
    | (Fail e, p') => (Fail e, p')
    end.
Proof.
  destruct (_get_rdap_data L N W domain p) as [[rdap_data|e] p'] eqn:E.
  - rewrite <- (status_answer_eq domain rdap_data p').
    unfold check_for_sale_status, try_except. unfold bind at 1. rewrite E.
    reflexivity.
  - pose proof (get_rdap_data_fails domain p e p' E) as Hc.
    unfold check_for_sale_status, try_except. unfold bind at 1. rewrite E.
    destruct e as [cls msg]. simpl in Hc. subst cls. reflexivity.
Qed.

Lemma status_answer_fails (domain : string) (rdap_data : pyval) (e : error) :
  status_answer L domain rdap_data = Fail e -> class_of e = RDAPError.
Proof.
  unfold status_answer.
  destruct rdap_data as [| | | |s|items|items];
    try (intros [= <-]; reflexivity).
  - destruct (substring_of "status" s); [intros [= <-]; reflexivity|discriminate].
  - destruct (existsb _ items); [intros [= <-]; reflexivity|discriminate].
  - destruct (dict_get "status" items) as [v|]; [|discriminate].
    destruct v; discriminate.
Qed.

(** Whether the servers are refreshed. *)
Lemma refresh_due_eq (p : Process) (current_time : Z) :
  refresh_due L N current_time p
  = (match _bootstrap_servers (self p) with
     | [] => Ok true
     | _ =>
         match elapsed L N current_time (_bootstrap_timestamp (self p)) with
         | Ok age => Ok (float_gt_int N age (_bootstrap_ttl (self p)))
         | Fail e => Fail e
         end
     end, p).
Proof.
  unfold refresh_due, bind, gets, lift, ret.
  destruct (_bootstrap_servers (self p)); [reflexivity|].
  destruct (elapsed L N current_time _); reflexivity.
Qed.

Lemma server_url_fresh (domain : string) (p : Process) :
  bootstrap_fresh L N W p ->
  _get_rdap_server_url L N W domain p
  = (match server_url L N domain (_bootstrap_servers (self p)) with
     | Ok url => Ok url
     | Fail e => Fail (server_url_error domain e)
     end,
     after_reading p).
Proof.
  intros (Hservers & age & Hage & Hfresh).
  unfold _get_rdap_server_url, try_except. unfold bind at 1.
  unfold read_clock at 1. unfold bind at 1. rewrite refresh_due_eq.
  cbn [self requests_made clock_reads].
  destruct (_bootstrap_servers (self p)) as [|entry rest] eqn:E;
    [congruence|].
  rewrite Hage, Hfresh.
  unfold bind, ret, gets, lift, server_url, after_reading.
  cbn [self]. rewrite E.
  destruct (lookup N (PStr (last_label domain)) (entry :: rest)) as [found|].
  - destruct (getitem_index L found 0) as [url|e]; [reflexivity|].
    destruct e as [cls msg]. destruct cls; reflexivity.
  - destruct (first_suffix L domain (entry :: rest)) as [url|e];
      [reflexivity|].
    destruct e as [cls msg]. destruct cls; reflexivity.
Qed.

(** ** Requests made *)

Lemma keeps_snd {A : Type} (R : Process -> Process -> Prop) (c : Act A)
    (p : Process) : keeps R c -> R p (snd (c p)).
Proof. intros H. apply (H p (fst (c p))). apply surjective_pairing. Qed.

Lemma keeps_ret {A : Type} (R : Process -> Process -> Prop) `{!Reflexive R}
    (a : A) : keeps R (ret a).
Proof. intros p r p' [= _ <-]. reflexivity. Qed.

Lemma keeps_raise {A : Type} (R : Process -> Process -> Prop) `{!Reflexive R}
    (cls : error_class) (msg : string) : keeps R (@raise A cls msg).
Proof. intros p r p' [= _ <-]. reflexivity. Qed.

Lemma keeps_lift {A : Type} (R : Process -> Process -> Prop) `{!Reflexive R}
    (x : outcome A) : keeps R (lift x).
Proof. intros p r p' [= _ <-]. reflexivity. Qed.

Lemma keeps_gets {A : Type} (R : Process -> Process -> Prop) `{!Reflexive R}
    (f : Client -> A) : keeps R (gets f).
Proof. intros p r p' [= _ <-]. reflexivity. Qed.

Lemma keeps_bind {A B : Type} (R : Process -> Process -> Prop)
    `{!PreOrder R} (c : Act A) (k : A -> Act B) :
  keeps R c -> (forall a, keeps R (k a)) -> keeps R (bind c k).
Proof.
  intros Hc Hk p r p'. unfold bind.
  destruct (c p) as [[a|e] p1] eqn:E.
  - intros H. transitivity p1; [exact (Hc _ _ _ E)|exact (Hk _ _ _ _ H)].
  - intros [= _ <-]. exact (Hc _ _ _ E).
Qed.

Lemma keeps_for_each {A : Type} (R : Process -> Process -> Prop)
    `{!PreOrder R} (l : list A) (body : A -> Act unit) :
  (forall x, keeps R (body x)) -> keeps R (for_each l body).
Proof.
  intros Hb. induction l as [|x l IH]; simpl.
  - apply keeps_ret. typeclasses eauto.
  - apply keeps_bind; [assumption|apply Hb|intros _; exact IH].
Qed.

Lemma keeps_try_except {A : Type} (R : Process -> Process -> Prop)
    `{!PreOrder R} (body : Act A)
    (clauses : list (list error_class * (error -> Act A))) :
  keeps R body ->
  (forall cs h, In (cs, h) clauses -> forall e, keeps R (h e)) ->
  keeps R (try_except body clauses).
Proof.
  intros Hb Hh p r p'. unfold try_except.
  destruct (body p) as [[a|e] p1] eqn:E.
  - intros [= _ <-]. exact (Hb _ _ _ E).
  - destruct (select_handler e clauses) as [h|] eqn:Hsel.
    + destruct (select_handler_member _ _ _ Hsel) as [cs Hin].
      intros H.
      transitivity p1; [exact (Hb _ _ _ E)|exact (Hh _ _ Hin _ _ _ _ H)].
    + intros [= _ <-]. exact (Hb _ _ _ E).
Qed.

#[local] Instance requests_same_preorder : PreOrder requests_same.
Proof.
  split.
  - intros p. reflexivity.
  - intros a b c H1 H2. unfold requests_same in *. congruence.
Qed.

Lemma keeps_modify (f : Client -> Client) : keeps requests_same (modify f).
Proof. intros p r p' [= _ <-]. reflexivity. Qed.

Lemma keeps_read_clock : keeps requests_same (read_clock W).
Proof. intros p r p' [= _ <-]. reflexivity. Qed.

Ltac keeps_requests :=
  repeat first
    [ apply keeps_lift; typeclasses eauto
    | apply keeps_modify
    | apply keeps_read_clock
    | apply keeps_ret; typeclasses eauto
    | apply keeps_raise; typeclasses eauto
    | apply keeps_gets; typeclasses eauto
    | apply keeps_bind; [typeclasses eauto| |intros ?]
    | apply keeps_for_each; [typeclasses eauto|intros ?]
    | match goal with
      | |- keeps _ (if ?c then _ else _) => destruct c
      | |- keeps _ (match ?c with _ => _ end) => destruct c
      end ].

(** A [try] statement whose handlers make no request makes the requests of
    its body. *)
Lemma try_except_requests {A : Type} (body : Act A)
    (clauses : list (list error_class * (error -> Act A))) (p : Process) :
  (forall cs h, In (cs, h) clauses -> forall e, keeps requests_same (h e)) ->
  requests_made (snd (try_except body clauses p))
  = requests_made (snd (body p)).
Proof.
  intros Hh. unfold try_except.
  destruct (body p) as [[a|e] p1]; [reflexivity|].
  destruct (select_handler e clauses) as [h|] eqn:Hsel; [|reflexivity].
  destruct (select_handler_member _ _ _ Hsel) as [cs Hin].
  exact (keeps_snd _ _ p1 (Hh _ _ Hin e)).
Qed.

Lemma bind_requests {A B : Type} (c : Act A) (k : A -> Act B) (p : Process) :
  (forall a, keeps requests_same (k a)) ->
  requests_made (snd (bind c k p)) = requests_made (snd (c p)).
Proof.
  intros Hk. unfold bind.
  destruct (c p) as [[a|e] p1]; [|reflexivity].
  exact (keeps_snd _ _ p1 (Hk a)).
Qed.

Lemma get_then_requests {A : Type} (url : string) (k : Response -> Act A)
    (p : Process) :
  (forall a, keeps requests_same (k a)) ->
  requests_made (snd (bind (get W url) k p)) = S (requests_made p).
Proof. intros Hk. rewrite bind_requests by exact Hk. reflexivity. Qed.

Ltac raising_handlers :=
  let cs := fresh "cs" in
  let h := fresh "h" in
  let Hin := fresh "Hin" in
  let e := fresh "e" in
  intros cs h Hin e; simpl in Hin;
  repeat match type of Hin with
    | _ \/ _ => destruct Hin as [Hin|Hin]
    | False => destruct Hin
    | (_, _) = (_, _) =>
        injection Hin as _ <-; apply keeps_raise; typeclasses eauto
    end.

(** The refresh makes one request. *)
Lemma refresh_requests (p : Process) :
  requests_made (snd (_refresh_bootstrap_servers L N W p))
  = S (requests_made p).
Proof.
  unfold _refresh_bootstrap_servers.
  rewrite try_except_requests by raising_handlers.
  apply get_then_requests. intros response. keeps_requests.
Qed.

(** Whether [_get_rdap_server_url] refreshes the servers. *)
Lemma server_url_requests (domain : string) (p : Process) :
  requests_made (snd (_get_rdap_server_url L N W domain p))
  = if stale L N W p then S (requests_made p) else requests_made p.
Proof.
  unfold _get_rdap_server_url.
  rewrite try_except_requests by raising_handlers.
  unfold bind at 1. unfold read_clock at 1.
  unfold bind at 1. rewrite refresh_due_eq.
  cbn [self requests_made clock_reads]. unfold stale.
  destruct (_bootstrap_servers (self p)) as [|entry rest].
  - rewrite bind_requests by (intros ?; keeps_requests).
    rewrite refresh_requests. reflexivity.
  - destruct (elapsed L N _ _) as [age|e]; [|reflexivity].
    rewrite bind_requests by (intros ?; keeps_requests).
    destruct (float_gt_int N age _).
    + rewrite refresh_requests. reflexivity.
    + reflexivity.
Qed.

(** The requests of [_get_rdap_data]: those of [_get_rdap_server_url], and
    one more when that returns a true value. *)
Lemma get_rdap_data_requests (domain : string) (p : Process) :
  requests_made (snd (_get_rdap_data L N W domain p))
  = match _get_rdap_server_url L N W domain p with
    | (Ok url, p1) =>
        if truthy url then S (requests_made p1) else requests_made p1
    | (Fail _, p1) => requests_made p1
    end.
Proof.
  unfold _get_rdap_data.
  rewrite try_except_requests by raising_handlers.
  unfold bind at 1.
  destruct (_get_rdap_server_url L N W domain p) as [[url|e] p1];
    [|reflexivity].
  destruct (truthy url); [|reflexivity].
  cbn [negb]. apply get_then_requests. intros response. keeps_requests.
Qed.

(** The requests of one check. *)
Lemma check_requests (domain : string) (p : Process) :
  requests_made (snd (check_for_sale_status L N W domain p))
  = requests_made (snd (_get_rdap_data L N W domain p)).
Proof.
  rewrite check_eq.
  destruct (_get_rdap_data L N W domain p) as [[rdap_data|e] p1]; reflexivity.
Qed.

Lemma check_requests_bounds (domain : string) (p : Process) :
  let made := requests_made (snd (check_for_sale_status L N W domain p)) in
  let base :=
    if stale L N W p then S (requests_made p) else requests_made p in
  (base <= made <= S base)%nat.
Proof.
  cbn zeta. rewrite check_requests, get_rdap_data_requests.
  rewrite <- server_url_requests with (domain := domain).
  destruct (_get_rdap_server_url L N W domain p) as [[url|e] p1];
    cbn [snd]; [destruct (truthy url)|]; lia.
Qed.

(** ** What the check returns *)

(** The check, from what [_get_rdap_server_url] does. *)
Lemma check_after_eq (domain : string) (p : Process) :
  check_for_sale_status L N W domain p
  = check_after L W domain (fst (_get_rdap_server_url L N W domain p))
      (snd (_get_rdap_server_url L N W domain p)).
Proof.
  rewrite check_eq. unfold _get_rdap_data, try_except. unfold bind at 1.
  destruct (_get_rdap_server_url L N W domain p) as [[url|e] p1];
    cbn [fst snd check_after].
  - destruct (truthy url); cbn [negb].
    + unfold bind, get, lift, after_request.
      destruct (requests_get W _ _ _) as [response|e].
      * destruct (status_code response =? 200); cbn [negb].
        -- destruct (json response) as [rdap_data|e]; [reflexivity|].
           destruct e as [cls msg]. destruct cls; reflexivity.
        -- reflexivity.
      * destruct e as [cls msg]. destruct cls; reflexivity.
    + reflexivity.
  - destruct e as [cls msg]. destruct cls; reflexivity.
Qed.

(** A new client asks for the bootstrap table; a status that is not 200
    ends the check. *)
Lemma bootstrap_refused (domain : string) (p : Process)
    (response : Response) :
  _bootstrap_servers (self p) = [] ->
  requests_get W (requests_made p) RDAP_BOOTSTRAP_URL (timeout (self p))
  = Ok response ->
  status_code response <> 200 ->
  _get_rdap_server_url L N W domain p
  = (Fail (server_url_error domain
             (Error RDAPError
                ("Error refreshing RDAP bootstrap servers: "
                 +:+ "RDAP bootstrap lookup failed with status code "
                 +:+ format_value L (PInt (status_code response))))),
     after_request (after_reading p)).
Proof.
  intros Hservers Hget Hstatus.
  unfold _get_rdap_server_url, try_except. unfold bind at 1.
  unfold read_clock at 1. unfold bind at 1. rewrite refresh_due_eq.
  cbn [self requests_made clock_reads]. rewrite Hservers.
  unfold bind at 1. unfold _refresh_bootstrap_servers, try_except.
  unfold bind at 1. unfold get at 1.
  cbn [self requests_made clock_reads]. rewrite Hget.
  apply Z.eqb_neq in Hstatus. rewrite Hstatus. reflexivity.
Qed.

End client_facts.
End rdap_facts.

(** X20.  [check_for_sale_status] raises nothing but [RDAPError]:
    [_get_rdap_data] turns every exception into one, among them the
    [requests.Timeout] of a request, so that the clause that would raise
    [TimeoutError] is never entered; and what the test of the status raises
    is turned into one by the last clause. *)
Theorem rdap_check_raises_rdap_error (L : PyLib) (N : RDAPClient.Numbers)
    (W : RDAPClient.Net) (domain : string) (p : RDAPClient.Process)
    (e : RDAPClient.error) (p' : RDAPClient.Process) :
  RDAPClient.check_for_sale_status L N W domain p = (RDAPClient.Fail e, p') ->
  RDAPClient.class_of e = RDAPClient.RDAPError.
Proof.
  rewrite rdap_facts.check_eq.
  destruct (RDAPClient._get_rdap_data L N W domain p) as [[rdap_data|e0] p0]
    eqn:E.
  - intros [= H _]. exact (rdap_facts.status_answer_fails L _ _ _ H).
  - intros [= <- _]. exact (rdap_facts.get_rdap_data_fails L N W domain _ _ _ E).
Qed.

Lemma rdap_check_raises_rdap_error_witness :
  RDAPClient.class_of
    (RDAPClient.Error RDAPClient.RDAPError
       ("Error getting RDAP data for example.com: "
        +:+ "Error getting RDAP server URL for example.com: "
        +:+ "RDAP bootstrap lookup failed: timed out"))
  = RDAPClient.RDAPError.
Proof.
  apply (rdap_check_raises_rdap_error quiet_lib no_floats
           (net_of (RDAPClient.Fail
                      (RDAPClient.Error RDAPClient.requests_Timeout
                         "timed out")))
           "example.com" new_process _
           (after_request (after_reading new_process))).
  vm_compute. reflexivity.
Defined.

(** X21.  When [_get_rdap_data] returns the RDAP data, the check returns
    whether the data is a dictionary whose [status] is a list that holds
    the string [for-sale]: false for a dictionary without [status] or with
    a [status] that is no list; for a list or string that holds [status]
    and for a value that is no container, the test raises and the check
    raises [RDAPError]. *)
Theorem rdap_check_answer (L : PyLib) (N : RDAPClient.Numbers)
    (W : RDAPClient.Net) (domain : string) (p : RDAPClient.Process)
    (rdap_data : pyval) (p' : RDAPClient.Process) :
  RDAPClient._get_rdap_data L N W domain p = (RDAPClient.Ok rdap_data, p') ->
  RDAPClient.check_for_sale_status L N W domain p
  = (status_answer L domain rdap_data, p').
Proof. intros H. rewrite rdap_facts.check_eq, H. reflexivity. Qed.

Lemma rdap_check_answer_witness :
  RDAPClient.check_for_sale_status quiet_lib no_floats
    (answering (PDict [("status", PList [PStr "active"; PStr "for-sale"])]))
    "example.com" com_process
  = (status_answer quiet_lib "example.com"
       (PDict [("status", PList [PStr "active"; PStr "for-sale"])]),
     after_request (after_reading com_process)).
Proof.
  apply (rdap_check_answer quiet_lib no_floats
           (answering (PDict [("status", PList [PStr "active"; PStr "for-sale"])]))
           "example.com" com_process).
  vm_compute. reflexivity.
Defined.

(** X22.  One check makes at most two requests, the bootstrap table and
    the domain: the first exactly when the client has no servers or they
    are older than their time to live, the second at most once after it.
    A new client always asks for the table. *)
Theorem rdap_requests_per_check (L : PyLib) (N : RDAPClient.Numbers)
    (W : RDAPClient.Net) (domain : string) (p : RDAPClient.Process)
    (timeout : Z) (requests readings : nat) :
  ((if stale L N W p then S (RDAPClient.requests_made p)
    else RDAPClient.requests_made p)
   <= RDAPClient.requests_made
        (snd (RDAPClient.check_for_sale_status L N W domain p))
   <= S (if stale L N W p then S (RDAPClient.requests_made p)
         else RDAPClient.requests_made p))%nat /\
  (S requests
   <= RDAPClient.requests_made
        (snd (RDAPClient.check_for_sale_status L N W domain
                (RDAPClient.mkProcess (RDAPClient.__init__ timeout)
                   requests readings)))
   <= S (S requests))%nat.
Proof.
  split.
  - exact (rdap_facts.check_requests_bounds L N W domain p).
  - exact (rdap_facts.check_requests_bounds L N W domain
             (RDAPClient.mkProcess (RDAPClient.__init__ timeout)
                requests readings)).
Qed.

(** X23.  With servers that are there and not older than their time to
    live, [_get_rdap_server_url] makes no request and leaves the client as
    it is: it reads the clock and returns the first server of the entry for
    the last label of the domain, or else of the first entry whose key,
    after a dot, ends the domain, or [None]; an exception on the way is
    turned into an [RDAPError]. *)
Theorem bootstrap_reused (L : PyLib) (N : RDAPClient.Numbers)
    (W : RDAPClient.Net) (domain : string) (p : RDAPClient.Process) :
  bootstrap_fresh L N W p ->
  RDAPClient._get_rdap_server_url L N W domain p
  = (match server_url L N domain
             (RDAPClient._bootstrap_servers (RDAPClient.self p)) with
     | RDAPClient.Ok url => RDAPClient.Ok url
     | RDAPClient.Fail e => RDAPClient.Fail (server_url_error domain e)
     end,
     after_reading p).
Proof. apply rdap_facts.server_url_fresh. Qed.

Lemma bootstrap_reused_witness :
  RDAPClient._get_rdap_server_url quiet_lib no_floats
    (net_of (RDAPClient.Fail
               (RDAPClient.Error RDAPClient.requests_Timeout "timed out")))
    "www.example.com" com_process
  = (match server_url quiet_lib no_floats "www.example.com"
             (RDAPClient._bootstrap_servers (RDAPClient.self com_process)) with
     | RDAPClient.Ok url => RDAPClient.Ok url
     | RDAPClient.Fail e =>
         RDAPClient.Fail (server_url_error "www.example.com" e)
     end,
     after_reading com_process).
Proof.
  apply (bootstrap_reused quiet_lib no_floats
           (net_of (RDAPClient.Fail
                      (RDAPClient.Error RDAPClient.requests_Timeout
                         "timed out")))
           "www.example.com" com_process).
  split; [discriminate|]. exists 100. split; vm_compute; reflexivity.
Defined.

(** X24.  A request for the domain that raises ends the check with an
    [RDAPError]: ["RDAP query for d failed: ..."] for an exception of
    [requests] ([requests.Timeout] among them), and
    ["Error getting RDAP data for d: ..."] for any other. *)
Theorem rdap_query_failure (L : PyLib) (N : RDAPClient.Numbers)
    (W : RDAPClient.Net) (domain : string) (p p1 : RDAPClient.Process)
    (url : pyval) (e : RDAPClient.error) :
  RDAPClient._get_rdap_server_url L N W domain p = (RDAPClient.Ok url, p1) ->
  truthy url = true ->
  RDAPClient.requests_get W (RDAPClient.requests_made p1)
    (format_value L url +:+ "/domain/" +:+ domain)
    (RDAPClient.timeout (RDAPClient.self p1))
  = RDAPClient.Fail e ->
  RDAPClient.check_for_sale_status L N W domain p
  = (RDAPClient.Fail
       (RDAPClient.Error RDAPClient.RDAPError
          (if RDAPClient.issubclass (RDAPClient.class_of e)
                RDAPClient.requests_RequestException
           then "RDAP query for " +:+ domain +:+ " failed: "
                +:+ RDAPClient.str e
           else "Error getting RDAP data for " +:+ domain +:+ ": "
                +:+ RDAPClient.str e)),
     after_request p1).
Proof.
  intros Hurl Htrue Hget. rewrite rdap_facts.check_after_eq, Hurl.
  cbn [fst snd check_after]. rewrite Htrue, Hget. reflexivity.
Qed.

Lemma rdap_query_failure_witness :
  RDAPClient.check_for_sale_status quiet_lib no_floats
    (net_of (RDAPClient.Fail
               (RDAPClient.Error RDAPClient.requests_Timeout "timed out")))
    "example.com" com_process
  = (RDAPClient.Fail
       (RDAPClient.Error RDAPClient.RDAPError
          (if RDAPClient.issubclass
                (RDAPClient.class_of
                   (RDAPClient.Error RDAPClient.requests_Timeout "timed out"))
                RDAPClient.requests_RequestException
           then "RDAP query for " +:+ "example.com" +:+ " failed: "
                +:+ RDAPClient.str
                      (RDAPClient.Error RDAPClient.requests_Timeout
                         "timed out")
           else "Error getting RDAP data for " +:+ "example.com" +:+ ": "
                +:+ RDAPClient.str
                      (RDAPClient.Error RDAPClient.requests_Timeout
                         "timed out"))),
     after_request (after_reading com_process)).
Proof.
  apply (rdap_query_failure quiet_lib no_floats
           (net_of (RDAPClient.Fail
                      (RDAPClient.Error RDAPClient.requests_Timeout
                         "timed out")))
           "example.com" com_process (after_reading com_process)
           (PStr "https://rdap.example/")).
  - vm_compute. reflexivity.
  - reflexivity.
  - reflexivity.
Defined.

(** X25.  A status that is not 200 ends the check with an [RDAPError]
    whose text is nested, since the [RDAPError] raised for the status is
    caught by the last clause of the same [try] statement and wrapped
    again on the way out: once more for the answer to the request for the
    domain, three times for the answer to the request for the bootstrap
    table of a client without servers. *)
Theorem rdap_status_refused (L : PyLib) (N : RDAPClient.Numbers)
    (W : RDAPClient.Net) (domain : string) (p p1 : RDAPClient.Process)
    (url : pyval) (response : RDAPClient.Response) :
  RDAPClient.status_code response <> 200 ->
  (RDAPClient._get_rdap_server_url L N W domain p = (RDAPClient.Ok url, p1) ->
   truthy url = true ->
   RDAPClient.requests_get W (RDAPClient.requests_made p1)
     (format_value L url +:+ "/domain/" +:+ domain)
     (RDAPClient.timeout (RDAPClient.self p1))
   = RDAPClient.Ok response ->
   RDAPClient.check_for_sale_status L N W domain p
   = (RDAPClient.Fail
        (RDAPClient.Error RDAPClient.RDAPError
           ("Error getting RDAP data for " +:+ domain +:+ ": "
            +:+ "RDAP query for " +:+ domain +:+ " failed with status code "
            +:+ format_value L (PInt (RDAPClient.status_code response)))),
      after_request p1)) /\
  (RDAPClient._bootstrap_servers (RDAPClient.self p) = [] ->
   RDAPClient.requests_get W (RDAPClient.requests_made p)
     RDAPClient.RDAP_BOOTSTRAP_URL (RDAPClient.timeout (RDAPClient.self p))
   = RDAPClient.Ok response ->
   RDAPClient.check_for_sale_status L N W domain p
   = (RDAPClient.Fail
        (RDAPClient.Error RDAPClient.RDAPError
           ("Error getting RDAP data for " +:+ domain +:+ ": "
            +:+ ("Error getting RDAP server URL for " +:+ domain +:+ ": "
                 +:+ ("Error refreshing RDAP bootstrap servers: "
                      +:+ "RDAP bootstrap lookup failed with status code "
                      +:+ format_value L
                            (PInt (RDAPClient.status_code response)))))),
      after_request (after_reading p))).
Proof.
  intros Hstatus. split.
  - intros Hurl Htrue Hget. rewrite rdap_facts.check_after_eq, Hurl.
    cbn [fst snd check_after]. rewrite Htrue, Hget.
    apply Z.eqb_neq in Hstatus. rewrite Hstatus. reflexivity.
  - intros Hservers Hget. rewrite rdap_facts.check_after_eq.
    rewrite (rdap_facts.bootstrap_refused L N W domain p response Hservers
               Hget Hstatus).
    reflexivity.
Qed.

Lemma rdap_status_refused_witness :
  RDAPClient.check_for_sale_status quiet_lib no_floats
    (net_of (RDAPClient.Ok (RDAPClient.mkResponse 503 (RDAPClient.Ok PNone))))
    "example.com" new_process
  = (RDAPClient.Fail
       (RDAPClient.Error RDAPClient.RDAPError
          ("Error getting RDAP data for " +:+ "example.com" +:+ ": "
           +:+ ("Error getting RDAP server URL for " +:+ "example.com"
                +:+ ": "
                +:+ ("Error refreshing RDAP bootstrap servers: "
                     +:+ "RDAP bootstrap lookup failed with status code "
                     +:+ format_value quiet_lib
                           (PInt (RDAPClient.status_code
                                    (RDAPClient.mkResponse 503
                                       (RDAPClient.Ok PNone)))))))),
     after_request (after_reading new_process)).
Proof.
  destruct (rdap_status_refused quiet_lib no_floats
              (net_of (RDAPClient.Ok
                         (RDAPClient.mkResponse 503 (RDAPClient.Ok PNone))))
              "example.com" new_process new_process PNone
              (RDAPClient.mkResponse 503 (RDAPClient.Ok PNone)))
    as [_ Hboot].
  - discriminate.
  - apply Hboot; reflexivity.
Defined.
